(** * Form relay: validation and dispatch (main-app/app.js) and the
      persistence service (receiver-service/server.js)

    A shallow embedding of the two Express services and of the parts of the
    JavaScript platform they call (string methods, the two regular
    expressions, [Date], [parseInt], axios' request helpers and the Mongoose
    model [FormData]), followed by the properties established about them. *)

From Stdlib Require Import ZArith List Bool Ascii String DecimalString Lia.
From Stdlib Require Import Permutation Sorted.
Import ListNotations.
Local Open Scope string_scope.
Local Open Scope Z_scope.

(* ===================================================================== *)
(** ** JavaScript values and the operations the handlers apply to them    *)
(* ===================================================================== *)

Module JS.

(** Numbers.  The handlers only ever compute with integers (years, months,
    days, time values in milliseconds) and with [NaN]; [Num z] stands for the
    integer-valued double [z] (of magnitude below 2^53, where doubles are
    exact), [NaN] for the not-a-number value. *)
Inductive number : Type :=
  | NaN
  | Num (z : Z).

(** The values a field of a parsed request body can hold.  Strings are
    sequences of code units below 256 (the Latin-1 range); nested arrays
    and objects are not represented. *)
Inductive value : Type :=
  | VUndefined
  | VNull
  | VBool (b : bool)
  | VNum (n : number)
  | VStr (s : string).

(** A plain object, as [req.body] or an object literal: keys in insertion
    order. *)
Definition obj : Type := list (string * value).

(** Property read: [o.k], [undefined] when the key is absent. *)
Fixpoint get (k : string) (o : obj) : value :=
  match o with
  | [] => VUndefined
  | (k', v) :: o' => if String.eqb k k' then v else get k o'
  end.

(** Abrupt completion: what a [throw] carries. *)
Inductive exn : Type :=
  | TypeError (msg : string)
  | Error (msg : string)
  | ValidationError (paths : list string).

Inductive completion (A : Type) : Type :=
  | Normal (a : A)
  | Throw (e : exn).
Arguments Normal {A} a.
Arguments Throw {A} e.

Definition bind {A B : Type} (c : completion A) (k : A -> completion B)
  : completion B :=
  match c with
  | Normal a => k a
  | Throw e => Throw e
  end.

(** ToBoolean: [!v] is [negb (truthy v)]. *)
Definition truthy (v : value) : bool :=
  match v with
  | VUndefined | VNull => false
  | VBool b => b
  | VNum NaN => false
  | VNum (Num z) => negb (z =? 0)
  | VStr s => negb (String.eqb s EmptyString)
  end.

(** Number::toString for the numbers of the model. *)
Definition number_toString (n : number) : string :=
  match n with
  | NaN => "NaN"
  | Num z => NilZero.string_of_int (Z.to_int z)
  end.

(** ToString on primitives. *)
Definition ToString (v : value) : string :=
  match v with
  | VUndefined => "undefined"
  | VNull => "null"
  | VBool true => "true"
  | VBool false => "false"
  | VNum n => number_toString n
  | VStr s => s
  end.

Definition code (c : ascii) : Z := Z.of_nat (nat_of_ascii c).

Definition in_range (lo hi : Z) (c : ascii) : bool :=
  (lo <=? code c) && (code c <=? hi).

(** WhiteSpace and LineTerminator code units below 256: TAB, LF, VT, FF, CR,
    SP and NBSP.  This is the set [String.prototype.trim] strips and the
    class [\s] matches. *)
Definition isWhiteSpace (c : ascii) : bool :=
  in_range 9 13 c || (code c =? 32) || (code c =? 160).

Definition isDigit (c : ascii) : bool := in_range 48 57 c.
Definition isUpperAZ (c : ascii) : bool := in_range 65 90 c.
Definition isLowerAZ (c : ascii) : bool := in_range 97 122 c.

Fixpoint trimStart (s : string) : string :=
  match s with
  | String c s' => if isWhiteSpace c then trimStart s' else s
  | EmptyString => EmptyString
  end.

(** [trimEnd] keeps a character when it is not white space or when
    something other than white space follows it. *)
Fixpoint trimEnd (s : string) : string :=
  match s with
  | EmptyString => EmptyString
  | String c s' =>
      match trimEnd s' with
      | EmptyString => if isWhiteSpace c then EmptyString
                       else String c EmptyString
      | t => String c t
      end
  end.

(** [String.prototype.trim]. *)
Definition trim (s : string) : string := trimEnd (trimStart s).

(** Lower-casing of one code unit: A-Z and the Latin-1 capitals
    U+00C0..U+00DE (without the multiplication sign U+00D7) move up by 32. *)
Definition toLowerCase_char (c : ascii) : ascii :=
  if isUpperAZ c || (in_range 192 222 c && negb (code c =? 215))
  then ascii_of_nat (nat_of_ascii c + 32)
  else c.

(** [String.prototype.toLowerCase]. *)
Fixpoint toLowerCase (s : string) : string :=
  match s with
  | EmptyString => EmptyString
  | String c s' => String (toLowerCase_char c) (toLowerCase s')
  end.

(** A method call [e.m()] where [m] is a method of [String.prototype]: on a
    string it runs, on any other primitive the property read gives
    [undefined] and the call throws; on [undefined] and [null] the property
    read itself throws.  [e] is the source text of the receiver, which the
    message quotes. *)
Definition call_string_method (e : string) (m : string)
    (f : string -> string) (v : value) : completion string :=
  match v with
  | VStr s => Normal (f s)
  | VUndefined =>
      Throw (TypeError ("Cannot read properties of undefined (reading '"
                          ++ m ++ "')"))
  | VNull =>
      Throw (TypeError ("Cannot read properties of null (reading '"
                          ++ m ++ "')"))
  | VBool _ | VNum _ =>
      Throw (TypeError (e ++ "." ++ m ++ " is not a function"))
  end.

Definition call_trim (e : string) : value -> completion string :=
  call_string_method e "trim" trim.

Definition call_toLowerCase (e : string) : value -> completion string :=
  call_string_method e "toLowerCase" toLowerCase.

(** [Array.prototype.includes] on an array of strings. *)
Fixpoint includes (l : list string) (s : string) : bool :=
  match l with
  | [] => false
  | x :: l' => String.eqb x s || includes l' s
  end.

(** *** Numeric operators, with [NaN] absorbing. *)

Definition sub (a b : number) : number :=
  match a, b with
  | Num x, Num y => Num (x - y)
  | _, _ => NaN
  end.

(** [a < b]: false as soon as one side is [NaN]. *)
Definition lt (a b : number) : bool :=
  match a, b with
  | Num x, Num y => x <? y
  | _, _ => false
  end.

Definition gt (a b : number) : bool := lt b a.

(** [a === b] on numbers: [NaN] equals nothing. *)
Definition strict_eq (a b : number) : bool :=
  match a, b with
  | Num x, Num y => x =? y
  | _, _ => false
  end.

(** *** parseInt *)

Definition digit_value (radix : Z) (c : ascii) : option Z :=
  let d :=
    if isDigit c then code c - 48
    else if isLowerAZ c then code c - 97 + 10
    else if isUpperAZ c then code c - 65 + 10
    else 36 in
  if d <? radix then Some d else None.

(** The longest prefix of digits of the radix, accumulated left to right. *)
Fixpoint parse_digits (radix : Z) (acc : option Z) (s : string) : option Z :=
  match s with
  | EmptyString => acc
  | String c s' =>
      match digit_value radix c with
      | Some d =>
          parse_digits radix
            (Some (match acc with Some a => a * radix + d | None => d end)) s'
      | None => acc
      end
  end.

(** [parseInt(v)] with no radix argument: string conversion, leading white
    space, an optional sign, an optional [0x] prefix selecting radix 16, then
    as many digits as there are; [NaN] when there is none. *)
Definition parseInt (v : value) : number :=
  let s := trimStart (ToString v) in
  let '(sign, s1) :=
    match s with
    | String "-" r => (-1, r)
    | String "+" r => (1, r)
    | _ => (1, s)
    end in
  let '(radix, s2) :=
    match s1 with
    | String "0" (String "x" r) => (16, r)
    | String "0" (String "X" r) => (16, r)
    | _ => (10, s1)
    end in
  match parse_digits radix None s2 with
  | Some n => Num (sign * n)
  | None => NaN
  end.

(** [JSON.stringify] followed by [JSON.parse], on one field: [undefined]
    fields are dropped and [NaN] is written as [null]. *)
Definition json_field (kv : string * value) : list (string * value) :=
  match snd kv with
  | VUndefined => []
  | VNum NaN => [(fst kv, VNull)]
  | v => [(fst kv, v)]
  end.

Definition json_roundtrip (o : obj) : obj := flat_map json_field o.

End JS.

(* ===================================================================== *)
(** ** Dates                                                              *)
(* ===================================================================== *)

Module DateModel.
Import JS.

Definition msPerDay : Z := 86400000.

Definition isLeapYear (y : Z) : bool :=
  (y mod 4 =? 0) && (negb (y mod 100 =? 0) || (y mod 400 =? 0)).

Definition daysInMonth (y m : Z) : Z :=
  if m =? 2 then (if isLeapYear y then 29 else 28)
  else if (m =? 4) || (m =? 6) || (m =? 9) || (m =? 11) then 30
  else 31.

(** Day number (days since 1970-01-01) of a date of the proleptic Gregorian
    calendar, months counted from 1. *)
Definition days_from_civil (y m d : Z) : Z :=
  let y' := if m <=? 2 then y - 1 else y in
  let era := y' / 400 in
  let yoe := y' - era * 400 in
  let mp := if 2 <? m then m - 3 else m + 9 in
  let doy := (153 * mp + 2) / 5 + d - 1 in
  let doe := yoe * 365 + yoe / 4 - yoe / 100 + doy in
  era * 146097 + doe - 719468.

(** Year, month (from 1) and day of the month of a day number. *)
Definition civil_from_days (z : Z) : Z * Z * Z :=
  let z' := z + 719468 in
  let era := z' / 146097 in
  let doe := z' - era * 146097 in
  let yoe := (doe - doe / 1460 + doe / 36524 - doe / 146096) / 365 in
  let doy := doe - (365 * yoe + yoe / 4 - yoe / 100) in
  let mp := (5 * doy + 2) / 153 in
  let d := doy - (153 * mp + 2) / 5 + 1 in
  let m := if mp <? 10 then mp + 3 else mp - 9 in
  (yoe + era * 400 + (if m <=? 2 then 1 else 0), m, d).

(** What the code cannot see of the machine it runs on: the offset of local
    time from UTC, in milliseconds, at each instant (positive east of
    Greenwich, daylight saving included), and what [Date.parse] makes of a
    string that is not in one of the two ISO forms parsed below (the
    language leaves that to the implementation). *)
Record Host : Type := {
  utc_offset : Z -> Z;
  parse_other : string -> option Z
}.

(** A [Date] object is its time value: milliseconds since the epoch, or
    [None] for the invalid date (time value [NaN]). *)
Definition Date : Type := option Z.

Definition TimeClip (t : Z) : Date :=
  if Z.abs t <=? 8640000000000000 then Some t else None.

Definition digit2 (a b : ascii) : option Z :=
  if isDigit a && isDigit b
  then Some (10 * (code a - 48) + (code b - 48)) else None.

Definition digit3 (a b c : ascii) : option Z :=
  match digit2 a b with
  | Some x => if isDigit c then Some (10 * x + (code c - 48)) else None
  | None => None
  end.

Definition digit4 (a b c d : ascii) : option Z :=
  match digit2 a b, digit2 c d with
  | Some x, Some y => Some (100 * x + y)
  | _, _ => None
  end.

(** The time of day [THH:mm:ss.sssZ], in milliseconds. *)
Definition parse_iso_time (s : string) : option Z :=
  match s with
  | String "T" (String h1 (String h2 (String ":" (String m1 (String m2
    (String ":" (String s1 (String s2 (String "." (String f1 (String f2
    (String f3 (String "Z" EmptyString))))))))))))) =>
      match digit2 h1 h2, digit2 m1 m2, digit2 s1 s2, digit3 f1 f2 f3 with
      | Some h, Some mi, Some sec, Some ms =>
          if (h <=? 23) && (mi <=? 59) && (sec <=? 59)
          then Some (((h * 60 + mi) * 60 + sec) * 1000 + ms)
          else None
      | _, _, _, _ => None
      end
  | _ => None
  end.

(** The two ISO forms with a behaviour fixed by the language: the date-only
    form [YYYY-MM-DD], read as midnight UTC, and the form
    [YYYY-MM-DDTHH:mm:ss.sssZ] that [toISOString] writes.  Only dates that
    exist in the calendar are taken here. *)
Definition parse_iso (s : string) : option Z :=
  match s with
  | String y1 (String y2 (String y3 (String y4 (String "-" (String m1
    (String m2 (String "-" (String d1 (String d2 rest))))))))) =>
      match digit4 y1 y2 y3 y4, digit2 m1 m2, digit2 d1 d2 with
      | Some y, Some m, Some d =>
          if (1 <=? m) && (m <=? 12) && (1 <=? d) && (d <=? daysInMonth y m)
          then
            match rest with
            | EmptyString => Some (days_from_civil y m d * msPerDay)
            | _ =>
                match parse_iso_time rest with
                | Some t => Some (days_from_civil y m d * msPerDay + t)
                | None => None
                end
            end
          else None
      | _, _, _ => None
      end
  | _ => None
  end.

(** [Date.parse]. *)
Definition Date_parse (h : Host) (s : string) : Date :=
  match parse_iso s with
  | Some t => Some t
  | None => parse_other h s
  end.

(** [new Date(v)] for a primitive [v]: a string is parsed, anything else is
    converted to a number and clipped. *)
Definition Date_new (h : Host) (v : value) : Date :=
  match v with
  | VStr s => Date_parse h s
  | VNum NaN => None
  | VNum (Num z) => TimeClip z
  | VBool b => Some (if b then 1 else 0)
  | VNull => Some 0
  | VUndefined => None
  end.

Definition LocalTime (h : Host) (t : Z) : Z := t + utc_offset h t.

(** Calendar date of an instant in the host's local time. *)
Definition local_civil (h : Host) (t : Z) : Z * Z * Z :=
  civil_from_days (LocalTime h t / msPerDay).

Definition getFullYear (h : Host) (d : Date) : number :=
  match d with
  | Some t => let '(y, _, _) := local_civil h t in Num y
  | None => NaN
  end.

(** Months are counted from 0. *)
Definition getMonth (h : Host) (d : Date) : number :=
  match d with
  | Some t => let '(_, m, _) := local_civil h t in Num (m - 1)
  | None => NaN
  end.

Definition getDate (h : Host) (d : Date) : number :=
  match d with
  | Some t => let '(_, _, dd) := local_civil h t in Num dd
  | None => NaN
  end.

Definition digit_char (d : Z) : ascii := ascii_of_nat (Z.to_nat (48 + d mod 10)).

(** [n] written with [w] decimal digits, most significant first. *)
Fixpoint pad (w : nat) (n : Z) : string :=
  match w with
  | O => EmptyString
  | S w' => pad w' (n / 10) ++ String (digit_char n) EmptyString
  end.

(** [Date.prototype.toISOString] on a valid date: always UTC. *)
Definition toISOString (t : Z) : string :=
  let '(y, m, d) := civil_from_days (t / msPerDay) in
  let r := t mod msPerDay in
  let year :=
    if (0 <=? y) && (y <=? 9999) then pad 4 y
    else if y <? 0 then "-" ++ pad 6 (- y) else "+" ++ pad 6 y in
  year ++ "-" ++ pad 2 m ++ "-" ++ pad 2 d ++ "T"
    ++ pad 2 (r / 3600000) ++ ":" ++ pad 2 (r / 60000 mod 60) ++ ":"
    ++ pad 2 (r / 1000 mod 60) ++ "." ++ pad 3 (r mod 1000) ++ "Z".

(** A host on UTC whose [Date.parse] knows the ISO forms only. *)
Definition host_utc : Host :=
  {| utc_offset := fun _ => 0; parse_other := fun _ => None |}.

(** The same five hours behind UTC, and five and a half hours ahead. *)
Definition host_utc_minus_5 : Host :=
  {| utc_offset := fun _ => -18000000; parse_other := fun _ => None |}.

Definition host_utc_plus_0530 : Host :=
  {| utc_offset := fun _ => 19800000; parse_other := fun _ => None |}.

End DateModel.

(* ===================================================================== *)
(** ** The Mongoose model [FormData] and its collection                   *)
(* ===================================================================== *)

Module FormData.
Import JS DateModel.

(** A stored document: the six paths of [FormDataSchema], the identifier
    and the two timestamps that [timestamps: true] adds. *)
Record Doc : Type := {
  _id : nat;
  name : string;
  mobile : string;
  dob : string;
  age : Z;
  action : string;
  processedAt : Z;
  createdAt : Z;
  updatedAt : Z
}.

(** The collection, in insertion order, with the next identifier to give
    out. *)
Record Collection : Type := {
  docs : list Doc;
  next_id : nat
}.

(** What the handlers hand to [new FormData({...})], or assign path by
    path to a loaded document, once the expressions are evaluated. *)
Record Fields : Type := {
  f_name : string;
  f_mobile : string;
  f_dob : value;
  f_age : number;
  f_action : string;
  f_processedAt : Date
}.

(** Casting to the schema type [String]: [null] and [undefined] stay
    absent, any other primitive is converted. *)
Definition cast_string (v : value) : option string :=
  match v with
  | VUndefined | VNull => None
  | _ => Some (ToString v)
  end.

(** [required: true] on a [String] path: present and not empty. *)
Definition required_string (s : option string) : bool :=
  match s with
  | Some t => negb (String.eqb t EmptyString)
  | None => false
  end.

(** The paths that fail casting or validation, in schema order:
    [String] paths must be non-empty after the [trim] setter, the [Number]
    path refuses [NaN], the [Date] path refuses the invalid date. *)
Definition invalid_paths (f : Fields) : list string :=
  (if required_string (Some (trim (f_name f))) then [] else ["name"])
  ++ (if required_string (Some (trim (f_mobile f))) then [] else ["mobile"])
  ++ (if required_string (cast_string (f_dob f)) then [] else ["dob"])
  ++ (match f_age f with Num _ => [] | NaN => ["age"] end)
  ++ (if required_string (Some (trim (f_action f))) then [] else ["action"])
  ++ (match f_processedAt f with Some _ => [] | None => ["processedAt"] end).

(** [new FormData(f).save()]: validation, then insertion of the new
    document with a fresh identifier and both timestamps at the time of the
    save. *)
Definition create (now : Z) (c : Collection) (f : Fields)
  : completion (Doc * Collection) :=
  match invalid_paths f, cast_string (f_dob f), f_age f, f_processedAt f with
  | [], Some d, Num a, Some p =>
      let doc := {| _id := next_id c;
                    name := trim (f_name f);
                    mobile := trim (f_mobile f);
                    dob := d;
                    age := a;
                    action := trim (f_action f);
                    processedAt := p;
                    createdAt := now;
                    updatedAt := now |} in
      Normal (doc, {| docs := docs c ++ [doc]; next_id := S (next_id c) |})
  | paths, _, _, _ => Throw (ValidationError paths)
  end.

(** [FormData.findOne({ mobile: m })]: the first document, in the
    collection's order, whose mobile is [m]. *)
Definition findOne (c : Collection) (m : string) : option Doc :=
  find (fun d => String.eqb (mobile d) m) (docs c).

Fixpoint remove_first (p : Doc -> bool) (l : list Doc) : list Doc :=
  match l with
  | [] => []
  | d :: l' => if p d then l' else d :: remove_first p l'
  end.

(** [FormData.findOneAndDelete({ mobile: m })]. *)
Definition findOneAndDelete (c : Collection) (m : string)
  : option Doc * Collection :=
  match findOne c m with
  | Some d =>
      (Some d,
       {| docs := remove_first (fun d => String.eqb (mobile d) m) (docs c);
          next_id := next_id c |})
  | None => (None, c)
  end.

Definition replace (d' : Doc) (l : list Doc) : list Doc :=
  map (fun d => if Nat.eqb (_id d) (_id d') then d' else d) l.

(** Does assigning the five paths change the loaded document?  Mongoose
    marks a path as modified only when the value assigned differs from the
    one it holds (dates are compared by their time value). *)
Definition is_modified (d : Doc) (n dd : string) (a : Z) (act : string)
    (p : Z) : bool :=
  negb (String.eqb (name d) n && String.eqb (dob d) dd && (age d =? a)
        && String.eqb (action d) act && (processedAt d =? p)).

(** Assignment of [name], [dob], [age], [action] and [processedAt] to the
    loaded document [d], then [d.save()].  The [mobile] field of [f] is not
    looked at.  The hook that [timestamps: true] installs sets [updatedAt]
    to the current time when the document is new or has a modified path; a
    save of an unmodified document writes nothing. *)
Definition update (now : Z) (c : Collection) (d : Doc) (f : Fields)
  : completion (Doc * Collection) :=
  let f' := {| f_name := f_name f; f_mobile := mobile d; f_dob := f_dob f;
               f_age := f_age f; f_action := f_action f;
               f_processedAt := f_processedAt f |} in
  match invalid_paths f', cast_string (f_dob f), f_age f, f_processedAt f with
  | [], Some dd, Num a, Some p =>
      let n := trim (f_name f) in
      let act := trim (f_action f) in
      if is_modified d n dd a act p then
        let d' := {| _id := _id d;
                     name := n;
                     mobile := mobile d;
                     dob := dd;
                     age := a;
                     action := act;
                     processedAt := p;
                     createdAt := createdAt d;
                     updatedAt := now |} in
        Normal (d', {| docs := replace d' (docs c); next_id := next_id c |})
      else Normal (d, c)
  | paths, _, _, _ => Throw (ValidationError paths)
  end.

End FormData.

(* ===================================================================== *)
(** ** receiver-service/server.js                                         *)
(* ===================================================================== *)

Module Receiver.
Import JS DateModel FormData.

(** The JSON answer of a handler with its status code.  [data] is the
    [data] or [deletedData] member, [mobile_echo] the [mobile] member of the
    404 answer, [error] what the catch block reports. *)
Record response : Type := {
  status : Z;
  success : bool;
  message : string;
  action_label : option string;
  data : option Doc;
  mobile_echo : option string;
  error : option exn
}.

Definition answer (st : Z) (ok : bool) (msg : string) : response :=
  {| status := st; success := ok; message := msg; action_label := None;
     data := None; mobile_echo := None; error := None |}.

Definition answer_doc (st : Z) (msg lbl : string) (d : Doc) : response :=
  {| status := st; success := true; message := msg;
     action_label := Some lbl; data := Some d; mobile_echo := None;
     error := None |}.

Definition answer_error (msg : string) (e : exn) : response :=
  {| status := 500; success := false; message := msg; action_label := None;
     data := None; mobile_echo := None; error := Some e |}.

(** [age === undefined]. *)
Definition is_undefined (v : value) : bool :=
  match v with VUndefined => true | _ => false end.

(** [!name || !mobile || !dob || age === undefined || !action]. *)
Definition missing_fields (body : obj) : bool :=
  negb (truthy (get "name" body)) || negb (truthy (get "mobile" body))
  || negb (truthy (get "dob" body)) || is_undefined (get "age" body)
  || negb (truthy (get "action" body)).

(** [processedAt ? new Date(processedAt) : new Date()]. *)
Definition processedAt_of (h : Host) (now : Z) (v : value) : Date :=
  if truthy v then Date_new h v else Some now.

(** The object literal handed to [new FormData], its members evaluated in
    source order. *)
Definition form_fields (h : Host) (now : Z) (body : obj)
  : completion Fields :=
  bind (call_trim "name" (get "name" body)) (fun n =>
  bind (call_trim "mobile" (get "mobile" body)) (fun m =>
  let d := get "dob" body in
  let a := parseInt (get "age" body) in
  bind (call_trim "action" (get "action" body)) (fun act =>
  Normal {| f_name := n; f_mobile := m; f_dob := d; f_age := a;
            f_action := act;
            f_processedAt :=
              processedAt_of h now (get "processedAt" body) |}))).

(** The right-hand sides of the five assignments of the update branch, in
    source order. *)
Definition update_fields (h : Host) (now : Z) (body : obj)
  : completion Fields :=
  bind (call_trim "name" (get "name" body)) (fun n =>
  let d := get "dob" body in
  let a := parseInt (get "age" body) in
  bind (call_trim "action" (get "action" body)) (fun act =>
  Normal {| f_name := n; f_mobile := EmptyString; f_dob := d; f_age := a;
            f_action := act;
            f_processedAt :=
              processedAt_of h now (get "processedAt" body) |})).

(** [app.post('/api/postdata/db')]. *)
Definition post_db (h : Host) (now : Z) (c : Collection) (body : obj)
  : response * Collection :=
  if missing_fields body then
    (answer 400 false
       "All fields (name, mobile, dob, age, action) are required", c)
  else
    match bind (form_fields h now body) (create now c) with
    | Normal (savedData, c') =>
        (answer_doc 201 "Data created in MongoDB successfully" "CREATE"
           savedData, c')
    | Throw e => (answer_error "Failed to create data in MongoDB" e, c)
    end.

(** [app.put('/api/postdata/db')]. *)
Definition put_db (h : Host) (now : Z) (c : Collection) (body : obj)
  : response * Collection :=
  if missing_fields body then
    (answer 400 false
       "All fields (name, mobile, dob, age, action) are required for update",
     c)
  else
    let run :=
      bind (call_trim "mobile" (get "mobile" body)) (fun m =>
      match findOne c m with
      | None =>
          bind (bind (form_fields h now body) (create now c))
            (fun r =>
               Normal
                 (answer_doc 201
                    "Data created (record not found for update) in MongoDB successfully"
                    "CREATE (from UPDATE)" (fst r), snd r))
      | Some existingData =>
          bind (bind (update_fields h now body) (update now c existingData))
            (fun r =>
               Normal
                 (answer_doc 200 "Data updated in MongoDB successfully"
                    "UPDATE" (fst r), snd r))
      end) in
    match run with
    | Normal r => r
    | Throw e => (answer_error "Failed to update data in MongoDB" e, c)
    end.

(** [app.delete('/api/postdata/db')]. *)
Definition delete_db (c : Collection) (body : obj) : response * Collection :=
  let mobile := get "mobile" body in
  if negb (truthy mobile) then
    (answer 400 false "Mobile number is required for delete operation", c)
  else
    match call_trim "mobile" mobile with
    | Normal m =>
        match findOneAndDelete c m with
        | (None, _) =>
            ({| status := 404; success := false;
                message := "Record not found for deletion";
                action_label := None; data := None; mobile_echo := Some m;
                error := None |}, c)
        | (Some deletedData, c') =>
            (answer_doc 200 "Data deleted from MongoDB successfully" "DELETE"
               deletedData, c')
        end
    | Throw e => (answer_error "Failed to delete data from MongoDB" e, c)
    end.

End Receiver.

(* ===================================================================== *)
(** ** axios: the three request helpers the dispatcher chooses from       *)
(* ===================================================================== *)

Module Axios.
Import JS.

Inductive verb : Type := POST | PUT | DELETE.

(** A request body: an object written as JSON, or a primitive sent as it
    is. *)
Inductive payload : Type :=
  | JsonObject (o : obj)
  | Primitive (v : value).

(** The request that goes on the wire.  [req_data] is the body, absent
    when the request carries none; [req_timeout] is in milliseconds, 0
    meaning no limit (axios' default). *)
Record request : Type := {
  req_verb : verb;
  req_url : string;
  req_data : option payload;
  req_timeout : Z;
  req_content_type : option string
}.

(** The options literal of the call site:
    [{ headers: { 'Content-Type': ... }, timeout: ... }]. *)
Record options : Type := {
  opt_content_type : string;
  opt_timeout : Z
}.

(** [axios.post(url, data, config)]. *)
Definition post (url : string) (data : obj) (config : options) : request :=
  {| req_verb := POST; req_url := url; req_data := Some (JsonObject data);
     req_timeout := opt_timeout config;
     req_content_type := Some (opt_content_type config) |}.

(** [axios.put(url, data, config)]. *)
Definition put (url : string) (data : obj) (config : options) : request :=
  {| req_verb := PUT; req_url := url; req_data := Some (JsonObject data);
     req_timeout := opt_timeout config;
     req_content_type := Some (opt_content_type config) |}.

(** [axios.delete(url, config)]: this helper has no [data] parameter.  Its
    second argument is the request configuration, of which the members
    axios knows are read ([data] for the body, [timeout]) and the others
    ignored; a third argument is never looked at. *)
Definition delete (url : string) (config : obj) (_unused : options)
  : request :=
  {| req_verb := DELETE; req_url := url;
     req_data := match get "data" config with
                 | VUndefined => None
                 | v => Some (Primitive v)
                 end;
     req_timeout := match get "timeout" config with
                    | VNum (Num t) => t
                    | _ => 0
                    end;
     req_content_type := None |}.

(** How an awaited call ends for the caller. *)
Inductive settled (R : Type) : Type :=
  | Resolved (r : R)
  | Rejected (message : string).
Arguments Resolved {R} r.
Arguments Rejected {R} message.

End Axios.

(* ===================================================================== *)
(** ** main-app/app.js                                                    *)
(* ===================================================================== *)

Module MainApp.
Import JS DateModel.

Definition RECEIVER_SERVICE_URL : string := "http://localhost:5000".

(** What the receiver service does with a request, seen from the main
    app: an HTTP answer, or none (connection refused, no answer within the
    timeout), with the message of the error axios then raises. *)
Inductive downstream : Type :=
  | Answered (r : Receiver.response)
  | NoAnswer (message : string).

(** axios' default [validateStatus]: the promise resolves on 2xx and
    rejects otherwise. *)
Definition await (d : downstream) : Axios.settled Receiver.response :=
  match d with
  | Answered r =>
      if (200 <=? Receiver.status r) && (Receiver.status r <? 300)
      then Axios.Resolved r
      else Axios.Rejected
             ("Request failed with status code "
                ++ number_toString (Num (Receiver.status r)))
  | NoAnswer m => Axios.Rejected m
  end.

(** [calculateAge(dob)], at the instant [now]. *)
Definition calculateAge (h : Host) (now : Z) (dob : value) : number :=
  let birthDate := Date_new h dob in
  let today : Date := Some now in
  let age := sub (getFullYear h today) (getFullYear h birthDate) in
  let monthDiff := sub (getMonth h today) (getMonth h birthDate) in
  if lt monthDiff (Num 0)
     || (strict_eq monthDiff (Num 0)
         && lt (getDate h today) (getDate h birthDate))
  then sub age (Num 1)
  else age.

Fixpoint all_chars (p : ascii -> bool) (s : string) : bool :=
  match s with
  | EmptyString => true
  | String c s' => p c && all_chars p s'
  end.

(** [/^[a-zA-Z\s]+$/.test(s)]. *)
Definition nameRegex_test (s : string) : bool :=
  negb (String.eqb s EmptyString)
  && all_chars (fun c => isLowerAZ c || isUpperAZ c || isWhiteSpace c) s.

(** [/^[6789]\d{9}$/.test(s)]. *)
Definition mobileRegex_test (s : string) : bool :=
  match s with
  | String c r =>
      in_range 54 57 c && (Z.of_nat (String.length r) =? 9)
      && all_chars isDigit r
  | EmptyString => false
  end.

(** [RegExp.prototype.test] converts its argument to a string first. *)
Definition validateName (name : value) : bool :=
  nameRegex_test (ToString name).

Definition validateMobile (mobile : value) : bool :=
  mobileRegex_test (ToString mobile).

Definition validActions : list string := ["create"; "update"; "delete"].

(** The answer of [POST /api/post]. *)
Record response : Type := {
  status : Z;
  success : bool;
  message : string;
  httpMethod : option string;
  processedData : option obj;
  mongoResponse : option Receiver.response;
  error : option string
}.

Definition bad_request (msg : string) : response :=
  {| status := 400; success := false; message := msg; httpMethod := None;
     processedData := None; mongoResponse := None; error := None |}.

Definition exn_message (e : exn) : string :=
  match e with
  | TypeError m => m
  | Error m => m
  | ValidationError _ => "Validation failed"
  end.

(** Upper-casing, for the success message; exact on the letters a-z, which
    is all an action that passed validation contains. *)
Fixpoint toUpperCase (s : string) : string :=
  match s with
  | EmptyString => EmptyString
  | String c s' =>
      String (if isLowerAZ c then ascii_of_nat (nat_of_ascii c - 32) else c)
             (toUpperCase s')
  end.

(** The [switch] on [action.toLowerCase()]: the helper and its name, or
    nothing in the [default] branch. *)
Definition select_method (a : string)
  : option ((string -> obj -> Axios.options -> Axios.request) * string) :=
  if String.eqb a "create" then Some (Axios.post, "POST")
  else if String.eqb a "update" then Some (Axios.put, "PUT")
  else if String.eqb a "delete" then Some (Axios.delete, "DELETE")
  else None.

(** The record [processedData], from the trimmed name and mobile and the
    lower-cased action. *)
Definition processedData_of (now : Z) (n m : string) (dob : value)
    (age : number) (lowered : string) : obj :=
  [("name", VStr n); ("mobile", VStr m); ("dob", dob); ("age", VNum age);
   ("action", VStr (trim lowered));
   ("processedAt", VStr (toISOString now))].

Definition endpoint : string := RECEIVER_SERVICE_URL ++ "/api/postdata/db".

(** [{ headers: { 'Content-Type': 'application/json' }, timeout: 10000 }]. *)
Definition forward_options : Axios.options :=
  {| Axios.opt_content_type := "application/json";
     Axios.opt_timeout := 10000 |}.

(** The two answers after the forward call. *)
Definition forwarded_ok (action : value) (httpMethodName : string)
    (data : obj) (r : Receiver.response) : response :=
  {| status := 200; success := true;
     message :=
       "Form data validated, processed, and "
         ++ toUpperCase (ToString action)
         ++ " action completed successfully in MongoDB";
     httpMethod := Some httpMethodName;
     processedData := Some data;
     mongoResponse := Some r;
     error := None |}.

Definition forward_failed (httpMethodName : string) (data : obj)
    (msg : string) : response :=
  {| status := 502; success := false;
     message :=
       "Data processed successfully but failed to send "
         ++ httpMethodName ++ " request to MongoDB receiver service";
     httpMethod := None;
     processedData := Some data;
     mongoResponse := None;
     error := Some msg |}.

Definition internal_error (e : exn) : response :=
  {| status := 500; success := false;
     message := "Internal server error while processing form data";
     httpMethod := None; processedData := None;
     mongoResponse := None; error := Some (exn_message e) |}.

(** The inner [try] block: the age, or the exception thrown when it is
    below 0 or above 150. *)
Definition derive_age (h : Host) (now : Z) (dob : value)
  : completion number :=
  let age := calculateAge h now dob in
  if lt age (Num 0) || gt age (Num 150)
  then Throw (Error "Invalid age calculated")
  else Normal age.

(** The handler from the action check on: everything here runs inside the
    outer [try], so a thrown exception ends in the 500 answer. *)
Definition validate_action_and_forward (now : Z)
    (net : Axios.request -> downstream)
    (name mobile dob action : value) (age : number)
  : completion (response * list Axios.request) :=
  bind (call_toLowerCase "action" action) (fun lowered =>
  if negb (includes validActions lowered) then
    Normal (bad_request "Invalid action. Must be create, update, or delete.",
            [])
  else
  bind (call_trim "name" name) (fun n =>
  bind (call_trim "mobile" mobile) (fun m =>
  let data := processedData_of now n m dob age lowered in
  match select_method lowered with
  | None => Normal (bad_request "Invalid action specified", [])
  | Some (send, httpMethodName) =>
      let req := send endpoint data forward_options in
      match await (net req) with
      | Axios.Resolved r =>
          Normal (forwarded_ok action httpMethodName data r, [req])
      | Axios.Rejected msg =>
          Normal (forward_failed httpMethodName data msg, [req])
      end
  end))).

(** [app.post('/api/post')]: the answer and the requests sent to the
    receiver service while producing it. *)
Definition post_api (h : Host) (now : Z) (net : Axios.request -> downstream)
    (body : obj) : response * list Axios.request :=
  let name := get "name" body in
  let mobile := get "mobile" body in
  let dob := get "dob" body in
  let action := get "action" body in
  if negb (truthy name) || negb (truthy mobile) || negb (truthy dob)
     || negb (truthy action) then
    (bad_request "All fields (name, mobile, dob, action) are required", [])
  else if negb (validateName name) then
    (bad_request "Name should contain only letters (a-zA-Z) and spaces", [])
  else if negb (validateMobile mobile) then
    (bad_request
       "Mobile number should be 10 digits starting with 6, 7, 8, or 9", [])
  else
    match derive_age h now dob with
    | Throw dobError =>
        (bad_request "Invalid date of birth format or unrealistic age", [])
    | Normal age =>
        match validate_action_and_forward now net name mobile dob action age
        with
        | Normal r => r
        | Throw e => (internal_error e, [])
        end
    end.

(** The receiver service as the main app reaches it: the JSON body is
    parsed by [express.json()] (which leaves the empty object when the
    request has no body) and the request is routed by its verb.  [c] is the
    collection when the request arrives, [now'] the receiver's clock.  A
    body that is not a JSON object is not followed further. *)
Definition receiver (h : Host) (now' : Z) (c : FormData.Collection)
    (req : Axios.request)
  : option (Receiver.response * FormData.Collection) :=
  let route body :=
    match Axios.req_verb req with
    | Axios.POST => Receiver.post_db h now' c body
    | Axios.PUT => Receiver.put_db h now' c body
    | Axios.DELETE => Receiver.delete_db c body
    end in
  match Axios.req_data req with
  | Some (Axios.JsonObject o) => Some (route (json_roundtrip o))
  | Some (Axios.Primitive _) => None
  | None => Some (route [])
  end.

(** The network as [post_api] sees it when the receiver service holds the
    collection [c]. *)
Definition served_by (h : Host) (now' : Z) (c : FormData.Collection)
    (req : Axios.request) : downstream :=
  match receiver h now' c req with
  | Some (r, _) => Answered r
  | None => NoAnswer "Network Error"
  end.

End MainApp.

(* ===================================================================== *)
(** ** Vocabulary of the statements                                       *)
(* ===================================================================== *)

Module Vocabulary.
Import JS DateModel FormData.

(** Calendar dates (year, month, day) in chronological order. *)
Definition civil_ltb (a b : Z * Z * Z) : bool :=
  let '(ya, ma, da) := a in
  let '(yb, mb, db) := b in
  (ya <? yb) || ((ya =? yb) && ((ma <? mb) || ((ma =? mb) && (da <? db)))).

(** The calendar date that a string of the form [YYYY-MM-DD] spells out,
    when that date exists: year, month (from 1) and day. *)
Definition written_date (s : string) : option (Z * Z * Z) :=
  match s with
  | String y1 (String y2 (String y3 (String y4 (String "-" (String m1
    (String m2 (String "-" (String d1 (String d2 EmptyString))))))))) =>
      match digit4 y1 y2 y3 y4, digit2 m1 m2, digit2 d1 d2 with
      | Some y, Some m, Some d =>
          if (1 <=? m) && (m <=? 12) && (1 <=? d) && (d <=? daysInMonth y m)
          then Some (y, m, d)
          else None
      | _, _, _ => None
      end
  | _ => None
  end.

(** The request got past validation: something was sent to the receiver
    service. *)
Definition forwarded (h : Host) (now : Z)
    (net : Axios.request -> MainApp.downstream) (body : obj) : bool :=
  match snd (MainApp.post_api h now net body) with
  | [] => false
  | _ :: _ => true
  end.

(** Is [z] the day number of the date [civil_from_days] gives for it, and
    is that date one of the calendar? *)
Definition calendar_consistent (z : Z) : bool :=
  let '(y, m, d) := civil_from_days z in
  (days_from_civil y m d =? z) && (1 <=? m) && (m <=? 12) && (1 <=? d)
  && (d <=? daysInMonth y m).

(** [p] holds of the [n] day numbers from [from] on. *)
Fixpoint all_days (p : Z -> bool) (from : Z) (n : nat) : bool :=
  match n with
  | O => true
  | S n' => p from && all_days p (from + 1) n'
  end.

(** The document with identifier [i] in a collection. *)
Definition stored (c : Collection) (i : nat) : option Doc :=
  find (fun d => Nat.eqb (_id d) i) (docs c).

(** A well-formed record as the main app forwards it: string name,
    mobile, date of birth and action that are not blank, an age with an
    integer prefix, and a [processedAt] that is absent or denotes an
    instant. *)
Definition is_record (h : Host) (now : Z) (body : obj) (n m dd a : string)
    (ag p : Z) : Prop :=
  get "name" body = VStr n
  /\ get "mobile" body = VStr m
  /\ get "dob" body = VStr dd
  /\ get "action" body = VStr a
  /\ parseInt (get "age" body) = Num ag
  /\ Receiver.processedAt_of h now (get "processedAt" body) = Some p
  /\ trim n <> EmptyString
  /\ trim m <> EmptyString
  /\ dd <> EmptyString
  /\ trim a <> EmptyString
  /\ get "age" body <> VUndefined.

(** The fields the handlers build from such a record. *)
Definition coerced (n m dd a : string) (ag p : Z) : Fields :=
  {| f_name := trim n; f_mobile := trim m; f_dob := VStr dd;
     f_age := Num ag; f_action := trim a; f_processedAt := Some p |}.

(** The document a successful insert adds. *)
Definition inserted (now : Z) (c : Collection) (n m dd a : string)
    (ag p : Z) : Doc :=
  {| _id := next_id c; name := trim n; mobile := trim m; dob := dd;
     age := ag; action := trim a; processedAt := p; createdAt := now;
     updatedAt := now |}.

(** The document [d] after an update with the coerced fields, its
    modification time being [u]. *)
Definition overwritten (d : Doc) (n dd a : string) (ag p u : Z) : Doc :=
  {| _id := _id d; name := trim n; mobile := mobile d; dob := dd;
     age := ag; action := trim a; processedAt := p;
     createdAt := createdAt d; updatedAt := u |}.

End Vocabulary.

(* ===================================================================== *)
(** ** Sample data                                                        *)
(* ===================================================================== *)

Module Samples.
Import JS DateModel FormData.

(** 2024-06-14T12:00:00.000Z. *)
Definition noon_2024_06_14 : Z := 1718366400000.

Definition form (name mobile dob action : value) : obj :=
  [("name", name); ("mobile", mobile); ("dob", dob); ("action", action)].

Definition asha (action : string) : obj :=
  form (VStr "Asha Rao") (VStr "9876543210") (VStr "1995-01-01")
       (VStr action).

Definition asha_doc : Doc :=
  {| _id := 0; name := "Asha Rao"; mobile := "9876543210";
     dob := "1995-01-01"; age := 29; action := "create";
     processedAt := 1718280000000; createdAt := 1718280000004;
     updatedAt := 1718280000004 |}.

Definition empty_collection : Collection := {| docs := []; next_id := 0 |}.

Definition asha_collection : Collection :=
  {| docs := [asha_doc]; next_id := 1 |}.

(** A record as the main app forwards it. *)
Definition record (name mobile dob age action processedAt : value) : obj :=
  [("name", name); ("mobile", mobile); ("dob", dob); ("age", age);
   ("action", action); ("processedAt", processedAt)].

(** The record the main app forwards for Asha Rao, processed on
    2024-06-13T12:00:00.000Z. *)
Definition asha_record : obj :=
  record (VStr "Asha Rao") (VStr "9876543210") (VStr "1995-01-01")
         (VNum (Num 29)) (VStr "create") (VStr "2024-06-13T12:00:00.000Z").

(** The same person under another name, sent as an update with the mobile
    preceded by a space and no [processedAt]. *)
Definition asha_renamed : obj :=
  [("name", VStr "Asha R Rao"); ("mobile", VStr " 9876543210");
   ("dob", VStr "1995-01-01"); ("age", VNum (Num 29));
   ("action", VStr "update")].

(** A delete request for a mobile nobody has. *)
Definition unknown_delete : obj := [("mobile", VStr " 9123456780 ")].

(** The form with the mobile as a JSON number. *)
Definition numeric_mobile_form : obj :=
  form (VStr "Asha Rao") (VNum (Num 9876543210)) (VStr "1995-01-01")
       (VStr "create").

(** A record whose age is [null]. *)
Definition null_age_record : obj :=
  record (VStr "Asha Rao") (VStr "9876543210") (VStr "1995-01-01") VNull
         (VStr "create") (VStr "2024-06-14T12:00:00.000Z").

(** A receiver service that cannot be reached. *)
Definition unreachable (_ : Axios.request) : MainApp.downstream :=
  MainApp.NoAnswer "connect ECONNREFUSED 127.0.0.1:5000".

(** The form of somebody born on 14 June 2024. *)
Definition born_today (action : string) : obj :=
  form (VStr "Asha Rao") (VStr "9876543210") (VStr "2024-06-14")
       (VStr action).

(** The form with a date of birth that is no date. *)
Definition no_date_form : obj :=
  form (VStr "Asha Rao") (VStr "9876543210") (VStr "not-a-date")
       (VStr "create").

(** The request the main app sends for an action [delete]. *)
Definition bodiless_delete : Axios.request :=
  {| Axios.req_verb := Axios.DELETE;
     Axios.req_url := "http://localhost:5000/api/postdata/db";
     Axios.req_data := None;
     Axios.req_timeout := 0;
     Axios.req_content_type := None |}.

(** 2024-06-14T12:00:00 in a zone five hours behind UTC. *)
Definition noon_2024_06_14_utc_minus_5 : Z := 1718384400000.

(** An upsert for somebody who is not stored, the mobile between spaces
    and no [processedAt]. *)
Definition ravi_upsert : obj :=
  [("name", VStr "Ravi Kumar"); ("mobile", VStr " 9123456780 ");
   ("dob", VStr "1990-03-02"); ("age", VNum (Num 34));
   ("action", VStr "update")].

(** A delete request whose mobile is a JSON number. *)
Definition numeric_delete : obj := [("mobile", VNum (Num 9123456780))].

(** The form of somebody born on 15 June 2024. *)
Definition born_tomorrow (action : string) : obj :=
  form (VStr "Asha Rao") (VStr "9876543210") (VStr "2024-06-15")
       (VStr action).

End Samples.

(* ===================================================================== *)
(** ** receiver-service/server.js: listing                                *)
(* ===================================================================== *)

Module ReceiverList.
Import JS DateModel FormData.

(** [d] put into a list that is ordered newest first: before the first
    document that was not created later than [d]. *)
Fixpoint insert_newest (d : Doc) (l : list Doc) : list Doc :=
  match l with
  | [] => [d]
  | x :: l' =>
      if createdAt x <=? createdAt d then d :: l
      else x :: insert_newest d l'
  end.

(** [FormData.find().sort({ createdAt: -1 })].  Documents created at the
    same instant come in the order of the collection (the store leaves
    their order open). *)
Definition find_sorted (c : Collection) : list Doc :=
  fold_right insert_newest [] (docs c).

(** The answer of [GET /api/getdata/db]. *)
Record response : Type := {
  status : Z;
  success : bool;
  count : nat;
  data : list Doc;
  retrievedAt : string
}.

(** [app.get('/api/getdata/db')]. *)
Definition getdata_db (now : Z) (c : Collection) : response :=
  let allData := find_sorted c in
  {| status := 200; success := true; count := List.length allData;
     data := allData; retrievedAt := toISOString now |}.

End ReceiverList.

(* ===================================================================== *)
(** ** main-app/app.js: reading back                                      *)
(* ===================================================================== *)

Module MainAppGet.
Import JS DateModel.

(** [axios.get(url, config)]. *)
Record request : Type := {
  get_url : string;
  get_timeout : Z
}.

(** What comes back from the receiver service: an HTTP status with the
    list answer as its body, or nothing, with the message of the error
    axios then raises. *)
Inductive downstream : Type :=
  | Answered (status : Z) (r : ReceiverList.response)
  | NoAnswer (message : string).

(** The answer of [GET /api/getdata]. *)
Record response : Type := {
  status : Z;
  success : bool;
  message : string;
  timestamp : string;
  data : option ReceiverList.response;
  error : option string
}.

(** [app.get('/api/getdata')]: one call of the receiver's list operation,
    the answer wrapped on success and 502 otherwise. *)
Definition getdata (now : Z) (net : request -> downstream)
  : response * list request :=
  let req :=
    {| get_url := MainApp.RECEIVER_SERVICE_URL ++ "/api/getdata/db";
       get_timeout := 10000 |} in
  match net req with
  | Answered st r =>
      if (200 <=? st) && (st <? 300) then
        ({| status := 200; success := true;
            message :=
              "Data retrieved successfully from MongoDB via receiver service";
            timestamp := toISOString now;
            data := Some r; error := None |}, [req])
      else
        ({| status := 502; success := false;
            message :=
              "Failed to retrieve data from MongoDB receiver service";
            timestamp := toISOString now;
            data := None;
            error := Some ("Request failed with status code "
                             ++ number_toString (Num st)) |}, [req])
  | NoAnswer m =>
      ({| status := 502; success := false;
          message := "Failed to retrieve data from MongoDB receiver service";
          timestamp := toISOString now;
          data := None; error := Some m |}, [req])
  end.

(** The receiver service holding the collection [c], as [getdata] reaches
    it. *)
Definition served_by (now' : Z) (c : FormData.Collection) (_ : request)
  : downstream :=
  Answered (ReceiverList.status (ReceiverList.getdata_db now' c))
           (ReceiverList.getdata_db now' c).

End MainAppGet.

(* ===================================================================== *)
(** ** frontend: FormPage.jsx and the data page                           *)
(* ===================================================================== *)

Module FormPage.
Import JS DateModel.

(** The state [formData]: what the three inputs hold. *)
Record formData : Type := {
  name : string;
  mobile : string;
  dob : string
}.

(** [nameRegex.test(name.trim())], with the regular expression of the main
    app. *)
Definition validateName (name : string) : bool :=
  MainApp.nameRegex_test (trim name).

(** [mobileRegex.test(mobile.trim())]. *)
Definition validateMobile (mobile : string) : bool :=
  MainApp.mobileRegex_test (trim mobile).

(** [a >= b] on two dates: their time values are compared, and the
    comparison is false as soon as one of them is the invalid date. *)
Definition date_ge (a b : Date) : bool :=
  match a, b with
  | Some x, Some y => y <=? x
  | _, _ => false
  end.

(** The object [newErrors]. *)
Record errors : Type := {
  e_name : option string;
  e_mobile : option string;
  e_dob : option string
}.

(** [validateForm()]: the errors found and whether there is none.  [h] is
    the browser, [now] its clock. *)
Definition validateForm (h : Host) (now : Z) (f : formData)
  : errors * bool :=
  let newErrors :=
    {| e_name :=
         if String.eqb (trim (name f)) EmptyString
         then Some "Name is required"
         else if negb (validateName (name f))
         then Some "Name should contain only letters and spaces"
         else None;
       e_mobile :=
         if String.eqb (trim (mobile f)) EmptyString
         then Some "Mobile number is required"
         else if negb (validateMobile (mobile f))
         then Some
                "Mobile number should be 10 digits starting with 6, 7, 8, or 9"
         else None;
       e_dob :=
         if String.eqb (dob f) EmptyString
         then Some "Date of birth is required"
         else
           let dobDate := Date_new h (VStr (dob f)) in
           let today : Date := Some now in
           if date_ge dobDate today
           then Some "Date of birth should be in the past"
           else None |} in
  (newErrors,
   match e_name newErrors, e_mobile newErrors, e_dob newErrors with
   | None, None, None => true
   | _, _, _ => false
   end).

(** [handleSubmit]: the body posted to [/api/post] of the main app, if
    the form is submitted at all. *)
Definition handleSubmit (h : Host) (now : Z) (f : formData) : option obj :=
  if snd (validateForm h now f) then
    Some [("name", VStr (trim (name f))); ("mobile", VStr (trim (mobile f)));
          ("dob", VStr (dob f)); ("action", VStr "create")]
  else None.

(** [handleSaveEdit] of the data page, on the state [editFormData]: the
    three checks, each ending the function with an alert, then the body
    posted to [/api/post]. *)
Definition handleSaveEdit (editFormData : formData) : string + obj :=
  if negb (validateName (name editFormData)) then
    inl "Name should contain only letters and spaces"
  else if negb (validateMobile (mobile editFormData)) then
    inl "Mobile number should be 10 digits starting with 6, 7, 8, or 9"
  else if String.eqb (dob editFormData) EmptyString then
    inl "Date of birth is required"
  else
    inr [("name", VStr (trim (name editFormData)));
         ("mobile", VStr (trim (mobile editFormData)));
         ("dob", VStr (dob editFormData)); ("action", VStr "update")].

End FormPage.

(* ===================================================================== *)
(** ** Vocabulary of the further statements                               *)
(* ===================================================================== *)

Module Facts.
Import JS DateModel FormData.

(** A document as a save leaves it: name, mobile and action trimmed and
    not empty, a date of birth that is not empty. *)
Definition doc_ok (d : Doc) : Prop :=
  name d <> EmptyString /\ trim (name d) = name d
  /\ mobile d <> EmptyString /\ trim (mobile d) = mobile d
  /\ dob d <> EmptyString
  /\ action d <> EmptyString /\ trim (action d) = action d.

(** Identifiers are pairwise different and below the next one to give
    out; every document is as a save leaves it. *)
Definition collection_ok (c : Collection) : Prop :=
  NoDup (map _id (docs c))
  /\ Forall (fun d => (_id d < next_id c)%nat) (docs c)
  /\ Forall doc_ok (docs c).

(** How many documents carry the mobile [m]. *)
Definition count_mobile (c : Collection) (m : string) : nat :=
  List.length (filter (fun d => String.eqb (mobile d) m) (docs c)).

(** Newest first. *)
Definition newer_or_same (a b : Doc) : Prop := createdAt b <= createdAt a.

(** For a day number [z] of the 400 years from 1 March 0000 on: the date
    of [z] is one of the calendar, its day number is [z], and its year is
    the 400th exactly on the last sixty days (January and February of the
    year 400). *)
Definition cycle_consistent (z : Z) : bool :=
  let '(y, _, _) := civil_from_days z in
  Vocabulary.calendar_consistent z && (0 <=? y)
  && (if z <? 146037 - 719468 then y <=? 399 else y =? 400).

(** For a year [y]: is every date of the year the date of its own day
    number? *)
Definition year_round_trip (y : Z) : bool :=
  Vocabulary.all_days
    (fun m =>
       Vocabulary.all_days
         (fun d =>
            let '(y', m', d') := civil_from_days (days_from_civil y m d) in
            (y' =? y) && (m' =? m) && (d' =? d))
         1 (Z.to_nat (daysInMonth y m)))
    1 12.

(** [parseInt] gives a number back as it is. *)
Definition parseInt_returns (z : Z) : bool :=
  match parseInt (VNum (Num z)) with
  | Num z' => z' =? z
  | NaN => false
  end.

(** The instants whose year has four digits: from 0000-01-01T00:00:00.000Z
    to 9999-12-31T23:59:59.999Z. *)
Definition four_digit_year (t : Z) : Prop :=
  -62167219200000 <= t < 253402300800000.

End Facts.

(* ===================================================================== *)
(** ** More sample data                                                   *)
(* ===================================================================== *)

Module MoreSamples.
Import JS DateModel FormData.

Definition ravi_doc : Doc :=
  {| _id := 1; name := "Ravi Kumar"; mobile := "9123456780";
     dob := "1990-03-02"; age := 34; action := "create";
     processedAt := 1718290000000; createdAt := 1718290000007;
     updatedAt := 1718290000007 |}.

Definition two_docs : Collection :=
  {| docs := [Samples.asha_doc; ravi_doc]; next_id := 2 |}.

(** A delete request for the second document, with a blank after the
    mobile. *)
Definition delete_ravi : obj := [("mobile", VStr "9123456780 ")].

(** A delete request for the first one, with a blank before. *)
Definition delete_asha : obj := [("mobile", VStr " 9876543210")].

(** The form with a name of three blanks. *)
Definition blank_name_form : obj :=
  Samples.form (VStr "   ") (VStr "9876543210") (VStr "1995-01-01")
               (VStr "create").

(** The form with the action written with a blank in front. *)
Definition padded_action_form : obj :=
  Samples.form (VStr "Asha Rao") (VStr "9876543210") (VStr "1995-01-01")
               (VStr " create").

(** The form sent in capitals as an update. *)
Definition shouted_update_form : obj :=
  Samples.form (VStr " Asha Rao ") (VStr "9876543210") (VStr "1995-01-01")
               (VStr "UPDATE").

(** What a visitor typed, with blanks around the name. *)
Definition typed_form : FormPage.formData :=
  {| FormPage.name := " Asha Rao "; FormPage.mobile := "9876543210 ";
     FormPage.dob := "1995-01-01" |}.

(** The same with a date of birth that is no date. *)
Definition typed_form_no_date : FormPage.formData :=
  {| FormPage.name := " Asha Rao "; FormPage.mobile := "9876543210 ";
     FormPage.dob := "not-a-date" |}.

End MoreSamples.

(* ===================================================================== *)
(** ** Properties                                                         *)
(* ===================================================================== *)

Import JS DateModel FormData Vocabulary.

(** *** The platform on examples *)

Example trim_ex : JS.trim "  Asha Rao " = "Asha Rao".
Proof. reflexivity. Qed.
Example parseInt_ex1 : JS.parseInt (JS.VStr " 29px") = JS.Num 29.
Proof. reflexivity. Qed.
Example parseInt_ex2 : JS.parseInt JS.VNull = JS.NaN.
Proof. reflexivity. Qed.
Example parseInt_ex3 : JS.parseInt (JS.VNum (JS.Num (-7))) = JS.Num (-7).
Proof. reflexivity. Qed.
Example toString_ex : JS.ToString (JS.VNum (JS.Num 9876543210)) = "9876543210".
Proof. reflexivity. Qed.
Example lower_ex : JS.toLowerCase "CrEaTe" = "create".
Proof. reflexivity. Qed.
Example name_ex1 : MainApp.validateName (VStr "Asha Rao") = true.
Proof. reflexivity. Qed.
Example name_ex2 : MainApp.validateName (VStr "Asha2") = false.
Proof. reflexivity. Qed.
Example mobile_ex1 : MainApp.validateMobile (VStr "9876543210") = true.
Proof. reflexivity. Qed.
Example mobile_ex2 : MainApp.validateMobile (VStr "1234567890") = false.
Proof. reflexivity. Qed.
Example mobile_ex3 : MainApp.validateMobile (VStr "98765432") = false.
Proof. reflexivity. Qed.
Example civil_ex1 : DateModel.civil_from_days 0 = (1970, 1, 1).
Proof. reflexivity. Qed.
Example civil_ex2 : DateModel.civil_from_days (-1) = (1969, 12, 31).
Proof. reflexivity. Qed.
Example civil_ex3 : DateModel.days_from_civil 2000 2 29 = 11016.
Proof. reflexivity. Qed.
Example civil_ex4 : DateModel.civil_from_days 11017 = (2000, 3, 1).
Proof. reflexivity. Qed.
Example parse_ex1 : DateModel.parse_iso "2000-06-15" = Some 961027200000.
Proof. reflexivity. Qed.
Example parse_ex2 : DateModel.parse_iso "2024-06-14T12:00:00.000Z" = Some 1718366400000.
Proof. reflexivity. Qed.
Example parse_ex3 : DateModel.parse_iso "2001-02-29" = None.
Proof. reflexivity. Qed.
Example iso_ex1 : DateModel.toISOString 1718366400000 = "2024-06-14T12:00:00.000Z".
Proof. reflexivity. Qed.
(** The two calendar functions agree on every day from 1 January 1850 to
    the end of 2149. *)
Example calendar_1850_2149 :
  all_days calendar_consistent (days_from_civil 1850 1 1) (Z.to_nat 109573)
  = true
  /\ civil_from_days (days_from_civil 1850 1 1 + 109572) = (2149, 12, 31).
Proof. split; vm_compute; reflexivity. Qed.

(** *** Strings *)

Lemma eqb_empty_false (s : string) :
  s <> EmptyString -> String.eqb s EmptyString = false.
Proof.
  intros H. destruct (String.eqb_spec s EmptyString); congruence.
Qed.

Lemma trimEnd_idempotent (s : string) : trimEnd (trimEnd s) = trimEnd s.
Proof.
  induction s as [|c s IH]; simpl; [reflexivity|].
  destruct (trimEnd s) as [|c' t] eqn:E.
  - destruct (isWhiteSpace c) eqn:W; simpl; [reflexivity|].
    rewrite W. reflexivity.
  - change (trimEnd (String c (String c' t))) with
      (match trimEnd (String c' t) with
       | EmptyString => if isWhiteSpace c then EmptyString
                        else String c EmptyString
       | t' => String c t'
       end).
    rewrite IH. reflexivity.
Qed.

(** A string that does not start with white space keeps its first
    character under [trimEnd]. *)
Lemma trimStart_trimEnd_head (c : ascii) (s : string) :
  isWhiteSpace c = false ->
  trimStart (trimEnd (String c s)) = trimEnd (String c s).
Proof.
  intros W. simpl.
  destruct (trimEnd s); rewrite ?W; simpl; rewrite W; reflexivity.
Qed.

Lemma trimStart_head (s : string) :
  trimStart s = EmptyString
  \/ exists c t, trimStart s = String c t /\ isWhiteSpace c = false.
Proof.
  induction s as [|c s IH]; simpl; [now left|].
  destruct (isWhiteSpace c) eqn:W; [exact IH|].
  right. exists c, s. split; [reflexivity | exact W].
Qed.

Lemma trim_idempotent (s : string) : trim (trim s) = trim s.
Proof.
  unfold trim.
  destruct (trimStart_head s) as [E | (c & t & E & W)]; rewrite E.
  - reflexivity.
  - rewrite (trimStart_trimEnd_head c t W). apply trimEnd_idempotent.
Qed.

Lemma truthy_VStr (s : string) :
  truthy (VStr s) = negb (String.eqb s EmptyString).
Proof. reflexivity. Qed.

Lemma nameRegex_nonempty (s : string) :
  MainApp.nameRegex_test s = true -> s <> EmptyString.
Proof.
  intros H E. subst s. vm_compute in H. discriminate H.
Qed.

Lemma valid_action_nonempty (a : string) :
  includes MainApp.validActions (toLowerCase a) = true -> a <> EmptyString.
Proof.
  intros H E. subst a. vm_compute in H. discriminate H.
Qed.

(** A string field that passed its check is present. *)
Ltac present :=
  rewrite truthy_VStr;
  rewrite eqb_empty_false
    by (assumption
        || (apply nameRegex_nonempty; assumption)
        || (apply valid_action_nonempty; assumption));
  reflexivity.

Lemma validateMobile_number_nonzero (z : Z) :
  MainApp.validateMobile (VNum (Num z)) = true -> z <> 0.
Proof.
  intros H E. subst z. vm_compute in H. discriminate H.
Qed.

(** The members of [validActions] are exactly the labels of the [switch]. *)
Lemma select_method_valid (a : string) :
  includes MainApp.validActions a = true ->
  a = "create" \/ a = "update" \/ a = "delete".
Proof.
  unfold MainApp.validActions, includes. intros H.
  destruct (String.eqb_spec "create" a); [now left|].
  destruct (String.eqb_spec "update" a); [now right; left|].
  destruct (String.eqb_spec "delete" a); [now right; right|].
  discriminate H.
Qed.

Lemma select_create :
  MainApp.select_method "create" = Some (Axios.post, "POST").
Proof. reflexivity. Qed.

Lemma select_update :
  MainApp.select_method "update" = Some (Axios.put, "PUT").
Proof. reflexivity. Qed.

Lemma select_delete :
  MainApp.select_method "delete" = Some (Axios.delete, "DELETE").
Proof. reflexivity. Qed.

(** *** Dates and ages *)

Lemma calculateAge_invalid_date (h : Host) (now : Z) (dob : value) :
  Date_new h dob = None -> MainApp.calculateAge h now dob = NaN.
Proof.
  intros H. unfold MainApp.calculateAge. rewrite H. simpl.
  destruct (local_civil h now) as [[y m] d]. reflexivity.
Qed.

(** [NaN] is neither below 0 nor above 150: the range check lets it
    through. *)
Lemma range_check_NaN : lt NaN (Num 0) || gt NaN (Num 150) = false.
Proof. reflexivity. Qed.

(** The age in terms of the two local calendar dates. *)
Lemma calculateAge_civil (h : Host) (now t : Z) (dob : value)
    (y m d yb mb db : Z) :
  Date_new h dob = Some t ->
  local_civil h now = (y, m, d) ->
  local_civil h t = (yb, mb, db) ->
  MainApp.calculateAge h now dob =
    Num (y - yb - (if (m <? mb) || ((m =? mb) && (d <? db)) then 1 else 0)).
Proof.
  intros Hd Hn Ht.
  unfold MainApp.calculateAge, getFullYear, getMonth, getDate.
  rewrite Hd, Hn, Ht. unfold sub, lt, strict_eq.
  replace (m - 1 - (mb - 1) <? 0) with (m <? mb)
    by (destruct (Z.ltb_spec m mb), (Z.ltb_spec (m - 1 - (mb - 1)) 0);
        try reflexivity; lia).
  replace (m - 1 - (mb - 1) =? 0) with (m =? mb)
    by (destruct (Z.eqb_spec m mb), (Z.eqb_spec (m - 1 - (mb - 1)) 0);
        try reflexivity; lia).
  destruct ((m <? mb) || ((m =? mb) && (d <? db))); simpl; f_equal; lia.
Qed.

Lemma civil_ltb_age_negative (y m d yb mb db : Z) :
  civil_ltb (y, m, d) (yb, mb, db) = true ->
  y - yb - (if (m <? mb) || ((m =? mb) && (d <? db)) then 1 else 0) < 0.
Proof.
  unfold civil_ltb.
  destruct (Z.ltb_spec y yb), (Z.eqb_spec y yb); simpl;
    destruct ((m <? mb) || ((m =? mb) && (d <? db)));
    intros Hlt; try discriminate Hlt; lia.
Qed.

(** A date written as [YYYY-MM-DD] is read by [new Date] as midnight UTC of
    that day, on every host. *)
Lemma written_date_parse (h : Host) (s : string) (y m d : Z) :
  written_date s = Some (y, m, d) ->
  Date_new h (VStr s) = Some (days_from_civil y m d * msPerDay)
  /\ s <> EmptyString.
Proof.
  intros H. split; [|intros ->; cbn in H; discriminate H].
  unfold Date_new, Date_parse.
  destruct s as [|y1 [|y2 [|y3 [|y4 [|c1 [|m1 [|m2 [|c2 [|d1 [|d2 rest]]]]]]]]]];
    try (cbn in H; discriminate H);
    destruct c1 as [[] [] [] [] [] [] [] []]; try (cbn in H; discriminate H);
    destruct c2 as [[] [] [] [] [] [] [] []]; try (cbn in H; discriminate H).
  destruct rest; [|cbn in H; discriminate H].
  unfold written_date in H. unfold parse_iso.
  destruct (digit4 y1 y2 y3 y4) as [y'|]; [|discriminate H].
  destruct (digit2 m1 m2) as [m'|]; [|discriminate H].
  destruct (digit2 d1 d2) as [d'|]; [|discriminate H].
  destruct ((1 <=? m') && (m' <=? 12) && (1 <=? d')
            && (d' <=? daysInMonth y' m')); [|discriminate H].
  injection H as -> -> ->. reflexivity.
Qed.

(** A date of birth on the current day of the local calendar gives the
    age 0. *)
Lemma calculateAge_same_day (h : Host) (now t : Z) (dob : value) :
  Date_new h dob = Some t ->
  local_civil h t = local_civil h now ->
  MainApp.calculateAge h now dob = Num 0.
Proof.
  intros Hd E.
  destruct (local_civil h now) as [[y m] d] eqn:En.
  rewrite (calculateAge_civil h now t dob y m d y m d Hd En E).
  rewrite !Z.ltb_irrefl, andb_false_r. cbn [orb]. f_equal. lia.
Qed.

(** The date-only string 2000-06-15 is midnight UTC of that day. *)
Lemma parse_2000_06_15 (h : Host) :
  Date_new h (VStr "2000-06-15") = Some 961027200000.
Proof. reflexivity. Qed.

(** On a host whose local time is at or ahead of UTC at that instant, the
    getters read the birth date as 15 June 2000. *)
Lemma birth_east_of_utc (h : Host) :
  0 <= utc_offset h 961027200000 < msPerDay ->
  local_civil h 961027200000 = (2000, 6, 15).
Proof.
  intros H. unfold local_civil, LocalTime.
  replace ((961027200000 + utc_offset h 961027200000) / msPerDay)
    with 11123; [reflexivity|].
  unfold msPerDay in *.
  apply Z.div_unique with (r := utc_offset h 961027200000); lia.
Qed.

(** There the age follows the anniversary: 23 on 14 June 2024, 24 from
    15 June 2024 up to 14 June 2025. *)
Lemma age_east_of_utc (h : Host) (now y m d : Z) :
  0 <= utc_offset h 961027200000 < msPerDay ->
  local_civil h now = (y, m, d) ->
  ((y, m, d) = (2024, 6, 14) ->
   MainApp.calculateAge h now (VStr "2000-06-15") = Num 23)
  /\ (civil_ltb (y, m, d) (2024, 6, 15) = false ->
      civil_ltb (y, m, d) (2025, 6, 15) = true ->
      MainApp.calculateAge h now (VStr "2000-06-15") = Num 24).
Proof.
  intros Hoff Hnow.
  rewrite (calculateAge_civil h now 961027200000 (VStr "2000-06-15")
             y m d 2000 6 15 (parse_2000_06_15 h) Hnow
             (birth_east_of_utc h Hoff)).
  split.
  - intros E. injection E as -> -> ->. reflexivity.
  - unfold civil_ltb. intros Hge Hlt. f_equal.
    destruct (Z.ltb_spec y 2024), (Z.eqb_spec y 2024), (Z.ltb_spec y 2025),
      (Z.eqb_spec y 2025), (Z.ltb_spec m 6), (Z.eqb_spec m 6),
      (Z.ltb_spec d 15); simpl in Hge, Hlt; try discriminate; simpl; lia.
Qed.

(** *** The handler of the main app, check by check *)

Section Handler.

Variables (h : Host) (now : Z) (net : Axios.request -> MainApp.downstream).

(** When the four fields are present and the name, mobile and age checks
    pass, the answer is that of the action check and the forward call. *)
Lemma post_api_past_checks (body : obj) :
  truthy (get "name" body) = true ->
  truthy (get "mobile" body) = true ->
  truthy (get "dob" body) = true ->
  truthy (get "action" body) = true ->
  MainApp.validateName (get "name" body) = true ->
  MainApp.validateMobile (get "mobile" body) = true ->
  lt (MainApp.calculateAge h now (get "dob" body)) (Num 0)
    || gt (MainApp.calculateAge h now (get "dob" body)) (Num 150) = false ->
  MainApp.post_api h now net body =
    match
      MainApp.validate_action_and_forward now net (get "name" body)
        (get "mobile" body) (get "dob" body) (get "action" body)
        (MainApp.calculateAge h now (get "dob" body))
    with
    | Normal r => r
    | Throw e => (MainApp.internal_error e, [])
    end.
Proof.
  intros Hn Hm Hd Ha Vn Vm Hage. unfold MainApp.post_api, MainApp.derive_age.
  rewrite Hn, Hm, Hd, Ha, Vn, Vm, Hage. reflexivity.
Qed.

(** With string fields and a valid action, one request is built by the
    helper the [switch] selects and the answer follows the outcome of the
    call. *)
Lemma forward_strings (n m a : string) (dob : value) (age : number) :
  includes MainApp.validActions (toLowerCase a) = true ->
  exists send verb,
    MainApp.select_method (toLowerCase a) = Some (send, verb)
    /\ let data :=
         MainApp.processedData_of now (trim n) (trim m) dob age
           (toLowerCase a) in
       let req := send MainApp.endpoint data MainApp.forward_options in
       MainApp.validate_action_and_forward now net (VStr n) (VStr m) dob
         (VStr a) age =
       Normal
         (match MainApp.await (net req) with
          | Axios.Resolved r => MainApp.forwarded_ok (VStr a) verb data r
          | Axios.Rejected msg => MainApp.forward_failed verb data msg
          end, [req]).
Proof.
  intros Hv.
  unfold MainApp.validate_action_and_forward, call_toLowerCase, call_trim,
    call_string_method, bind.
  rewrite Hv. cbv [negb].
  destruct (select_method_valid _ Hv) as [E | [E | E]]; rewrite E;
    [rewrite select_create; exists Axios.post, "POST"
    | rewrite select_update; exists Axios.put, "PUT"
    | rewrite select_delete; exists Axios.delete, "DELETE"];
    (split; [reflexivity|]); cbv zeta;
    match goal with
    | |- context [MainApp.await ?x] => destruct (MainApp.await x)
    end; reflexivity.
Qed.

(** A request with string fields that passes the checks is forwarded once,
    through the helper selected by the lower-cased action, and the answer
    is 200 or 502 according to the outcome of the call. *)
Lemma dispatch_strings (body : obj) (n m a : string) (dob : value) :
  get "name" body = VStr n ->
  get "mobile" body = VStr m ->
  get "dob" body = dob ->
  get "action" body = VStr a ->
  MainApp.nameRegex_test n = true ->
  MainApp.mobileRegex_test m = true ->
  truthy dob = true ->
  lt (MainApp.calculateAge h now dob) (Num 0)
    || gt (MainApp.calculateAge h now dob) (Num 150) = false ->
  includes MainApp.validActions (toLowerCase a) = true ->
  exists send verb,
    MainApp.select_method (toLowerCase a) = Some (send, verb)
    /\ let data :=
         MainApp.processedData_of now (trim n) (trim m) dob
           (MainApp.calculateAge h now dob) (toLowerCase a) in
       let req := send MainApp.endpoint data MainApp.forward_options in
       MainApp.post_api h now net body =
         (match MainApp.await (net req) with
          | Axios.Resolved r => MainApp.forwarded_ok (VStr a) verb data r
          | Axios.Rejected msg => MainApp.forward_failed verb data msg
          end, [req]).
Proof.
  intros Hn Hm Hd Ha Vn Vm Td Hage Va.
  destruct (forward_strings n m a dob (MainApp.calculateAge h now dob) Va)
    as (send & verb & Hsel & Hfwd).
  exists send, verb. split; [exact Hsel|]. cbv zeta in *.
  rewrite post_api_past_checks; rewrite ?Hn, ?Hm, ?Hd, ?Ha; try assumption.
  - rewrite Hfwd. reflexivity.
  - present.
  - rewrite truthy_VStr. destruct m; [discriminate Vm | reflexivity].
  - present.
Qed.

(** What is sent for each of the three actions: the normalised record as
    the body of a POST or of a PUT, and a DELETE without body. *)
Lemma dispatch_by_action (body : obj) (n m a : string) (dob : value) :
  get "name" body = VStr n ->
  get "mobile" body = VStr m ->
  get "dob" body = dob ->
  get "action" body = VStr a ->
  MainApp.nameRegex_test n = true ->
  MainApp.mobileRegex_test m = true ->
  truthy dob = true ->
  lt (MainApp.calculateAge h now dob) (Num 0)
    || gt (MainApp.calculateAge h now dob) (Num 150) = false ->
  includes MainApp.validActions (toLowerCase a) = true ->
  let data :=
    MainApp.processedData_of now (trim n) (trim m) dob
      (MainApp.calculateAge h now dob) (toLowerCase a) in
  (toLowerCase a = "create" ->
   snd (MainApp.post_api h now net body) =
     [Axios.post MainApp.endpoint data MainApp.forward_options])
  /\ (toLowerCase a = "update" ->
      snd (MainApp.post_api h now net body) =
        [Axios.put MainApp.endpoint data MainApp.forward_options])
  /\ (toLowerCase a = "delete" ->
      snd (MainApp.post_api h now net body) = [Samples.bodiless_delete]).
Proof.
  intros Hn Hm Hd Ha Vn Vm Td Hage Va data.
  destruct (dispatch_strings body n m a dob Hn Hm Hd Ha Vn Vm Td Hage Va)
    as (send & verb & Hsel & Hpost).
  cbv zeta in Hpost. rewrite Hpost. cbn [snd]. subst data.
  repeat split; intros E; rewrite E in Hsel |- *;
    injection Hsel as <- <-; reflexivity.
Qed.

(** An answer 400 is always given before anything is sent. *)
Lemma rejected_sends_nothing (body : obj) :
  MainApp.status (fst (MainApp.post_api h now net body)) = 400 ->
  snd (MainApp.post_api h now net body) = [].
Proof.
  unfold MainApp.post_api, MainApp.derive_age.
  destruct (negb (truthy (get "name" body)) || _ || _ || _);
    [reflexivity|].
  destruct (negb (MainApp.validateName _)); [reflexivity|].
  destruct (negb (MainApp.validateMobile _)); [reflexivity|].
  destruct (lt _ _ || gt _ _); [reflexivity|].
  unfold MainApp.validate_action_and_forward, bind.
  destruct (call_toLowerCase _ _) as [lowered|e]; [|reflexivity].
  destruct (negb (includes _ lowered)); [reflexivity|].
  destruct (call_trim "name" _) as [n|e]; [|reflexivity].
  destruct (call_trim "mobile" _) as [m|e]; [|reflexivity].
  destruct (MainApp.select_method lowered) as [[send verb]|];
    [|reflexivity].
  destruct (MainApp.await _); simpl; discriminate.
Qed.

(** A request that fails the presence, name, mobile or age-range check, or
    whose action is a string outside the three accepted words, is answered
    with 400 and nothing is sent. *)
Lemma failed_check_is_400 (body : obj) :
  truthy (get "name" body) && truthy (get "mobile" body)
    && truthy (get "dob" body) && truthy (get "action" body) = false
  \/ MainApp.validateName (get "name" body) = false
  \/ MainApp.validateMobile (get "mobile" body) = false
  \/ lt (MainApp.calculateAge h now (get "dob" body)) (Num 0)
       || gt (MainApp.calculateAge h now (get "dob" body)) (Num 150) = true
  \/ (exists a, get "action" body = VStr a
                /\ includes MainApp.validActions (toLowerCase a) = false) ->
  MainApp.status (fst (MainApp.post_api h now net body)) = 400
  /\ snd (MainApp.post_api h now net body) = [].
Proof.
  intros H.
  assert (E : MainApp.status (fst (MainApp.post_api h now net body)) = 400).
  { unfold MainApp.post_api, MainApp.derive_age.
    destruct (truthy (get "name" body)), (truthy (get "mobile" body)),
      (truthy (get "dob" body)), (truthy (get "action" body));
      try reflexivity.
    cbn [negb orb].
    destruct (MainApp.validateName _); [|reflexivity].
    destruct (MainApp.validateMobile _); [|reflexivity].
    cbn [negb].
    destruct (lt _ _ || gt _ _); [reflexivity|].
    destruct H as [H | [H | [H | [H | (a & Ha & Hv)]]]];
      try discriminate H.
    rewrite Ha. unfold MainApp.validate_action_and_forward,
      call_toLowerCase, call_string_method, bind.
    rewrite Hv. reflexivity. }
  split; [exact E | apply rejected_sends_nothing; exact E].
Qed.

(** A date of birth later than the current day is answered with 400. *)
Lemma future_dob_rejected (body : obj) (t : Z) :
  Date_new h (get "dob" body) = Some t ->
  civil_ltb (local_civil h now) (local_civil h t) = true ->
  MainApp.status (fst (MainApp.post_api h now net body)) = 400
  /\ snd (MainApp.post_api h now net body) = [].
Proof.
  intros Hd Hlt. apply failed_check_is_400.
  do 3 right. left.
  destruct (local_civil h now) as [[y m] d] eqn:En.
  destruct (local_civil h t) as [[yb mb] db] eqn:Et.
  rewrite (calculateAge_civil h now t _ y m d yb mb db Hd En Et).
  pose proof (civil_ltb_age_negative y m d yb mb db Hlt) as Hneg.
  unfold lt. destruct (Z.ltb_spec
    (y - yb - (if (m <? mb) || ((m =? mb) && (d <? db)) then 1 else 0)) 0);
    [reflexivity | lia].
Qed.

End Handler.

(** For [create] and [update] the request is a POST, respectively a PUT,
    whose body is the normalised record. *)
Lemma create_update_carry_record (data : obj) :
  Axios.req_verb (Axios.post MainApp.endpoint data MainApp.forward_options)
    = Axios.POST
  /\ Axios.req_data (Axios.post MainApp.endpoint data MainApp.forward_options)
     = Some (Axios.JsonObject data)
  /\ Axios.req_verb (Axios.put MainApp.endpoint data MainApp.forward_options)
     = Axios.PUT
  /\ Axios.req_data (Axios.put MainApp.endpoint data MainApp.forward_options)
     = Some (Axios.JsonObject data).
Proof. repeat split. Qed.

(** For [delete] the record is read as a request configuration; it has no
    member [data] and none called [timeout], so what leaves is a DELETE
    with no body and no time limit, whatever the record holds. *)
Lemma delete_carries_nothing (now : Z) (n m lowered : string) (dob : value)
    (age : number) :
  Axios.delete MainApp.endpoint
    (MainApp.processedData_of now n m dob age lowered)
    MainApp.forward_options = Samples.bodiless_delete.
Proof. reflexivity. Qed.

(** *** The store and the handlers of the receiver service *)

Lemma create_invalid (now : Z) (c : Collection) (f : Fields) :
  invalid_paths f <> [] ->
  create now c f = Throw (ValidationError (invalid_paths f)).
Proof.
  intros H. unfold create.
  destruct (invalid_paths f); [congruence|]. reflexivity.
Qed.

Lemma invalid_paths_nil (f : Fields) :
  invalid_paths f = [] ->
  trim (f_name f) <> EmptyString /\ trim (f_mobile f) <> EmptyString
  /\ trim (f_action f) <> EmptyString
  /\ exists d a p,
       cast_string (f_dob f) = Some d /\ d <> EmptyString
       /\ f_age f = Num a /\ f_processedAt f = Some p.
Proof.
  unfold invalid_paths, required_string. intros H.
  destruct (String.eqb_spec (trim (f_name f)) EmptyString);
    [discriminate H|].
  destruct (String.eqb_spec (trim (f_mobile f)) EmptyString);
    [discriminate H|].
  destruct (cast_string (f_dob f)) as [d|]; [|discriminate H].
  destruct (String.eqb_spec d EmptyString); [discriminate H|].
  destruct (f_age f) as [|a]; [discriminate H|].
  destruct (String.eqb_spec (trim (f_action f)) EmptyString);
    [discriminate H|].
  destruct (f_processedAt f) as [p|]; [|discriminate H].
  repeat split; try assumption. exists d, a, p. repeat split; assumption.
Qed.

Lemma age_NaN_invalid (f : Fields) :
  f_age f = NaN -> In "age" (invalid_paths f).
Proof.
  intros H. unfold invalid_paths. rewrite H.
  do 3 (apply in_or_app; right). apply in_or_app. left. now left.
Qed.

Lemma record_fields (h : Host) (now : Z) (body : obj) (n m dd a : string)
    (ag p : Z) :
  is_record h now body n m dd a ag p ->
  Receiver.missing_fields body = false
  /\ Receiver.form_fields h now body = Normal (coerced n m dd a ag p)
  /\ Receiver.update_fields h now body =
       Normal {| f_name := trim n; f_mobile := EmptyString;
                 f_dob := VStr dd; f_age := Num ag; f_action := trim a;
                 f_processedAt := Some p |}.
Proof.
  intros (Hn & Hm & Hd & Ha & Hag & Hp & Nn & Nm & Nd & Na & Hu).
  assert (En : n <> EmptyString) by (intros ->; apply Nn; reflexivity).
  assert (Em : m <> EmptyString) by (intros ->; apply Nm; reflexivity).
  assert (Ea : a <> EmptyString) by (intros ->; apply Na; reflexivity).
  split; [|split].
  - unfold Receiver.missing_fields.
    rewrite Hn, Hm, Hd, Ha, !truthy_VStr, (eqb_empty_false n En),
      (eqb_empty_false m Em), (eqb_empty_false dd Nd),
      (eqb_empty_false a Ea).
    destruct (get "age" body); try reflexivity. contradiction Hu.
    reflexivity.
  - unfold Receiver.form_fields. rewrite Hn, Hm, Hd, Ha, Hag, Hp.
    reflexivity.
  - unfold Receiver.update_fields. rewrite Hn, Hd, Ha, Hag, Hp.
    reflexivity.
Qed.

Lemma coerced_valid (n m dd a : string) (ag p : Z) :
  trim n <> EmptyString -> trim m <> EmptyString -> dd <> EmptyString ->
  trim a <> EmptyString ->
  invalid_paths (coerced n m dd a ag p) = [].
Proof.
  intros Nn Nm Nd Na. unfold invalid_paths, coerced, required_string.
  cbn [f_name f_mobile f_dob f_age f_action f_processedAt cast_string
       ToString].
  rewrite !trim_idempotent, (eqb_empty_false _ Nn), (eqb_empty_false _ Nm),
    (eqb_empty_false _ Nd), (eqb_empty_false _ Na).
  reflexivity.
Qed.

Lemma create_coerced (now : Z) (c : Collection) (n m dd a : string)
    (ag p : Z) :
  trim n <> EmptyString -> trim m <> EmptyString -> dd <> EmptyString ->
  trim a <> EmptyString ->
  create now c (coerced n m dd a ag p) =
    Normal (inserted now c n m dd a ag p,
            {| docs := docs c ++ [inserted now c n m dd a ag p];
               next_id := S (next_id c) |}).
Proof.
  intros Nn Nm Nd Na. unfold create.
  rewrite (coerced_valid n m dd a ag p Nn Nm Nd Na).
  unfold coerced, inserted.
  cbn [f_name f_mobile f_dob f_age f_action f_processedAt cast_string
       ToString].
  rewrite !trim_idempotent. reflexivity.
Qed.

Lemma findOne_mobile (c : Collection) (m : string) (d : Doc) :
  findOne c m = Some d -> mobile d = m.
Proof.
  unfold findOne. intros H. apply find_some in H. destruct H as [_ H].
  apply String.eqb_eq. exact H.
Qed.

Lemma findOne_none (c : Collection) (m : string) :
  Forall (fun d => mobile d <> m) (docs c) -> findOne c m = None.
Proof.
  unfold findOne. induction 1 as [|d l Hd _ IH]; [reflexivity|].
  cbn [find]. destruct (String.eqb_spec (mobile d) m); [contradiction|].
  exact IH.
Qed.

(** A document whose five assigned paths already hold the new values is
    the overwritten document itself. *)
Lemma unmodified_same (d : Doc) (n dd a : string) (ag p : Z) :
  is_modified d (trim n) dd ag (trim a) p = false ->
  overwritten d n dd a ag p (updatedAt d) = d.
Proof.
  unfold is_modified, overwritten. intros H.
  apply negb_false_iff in H.
  repeat (apply andb_true_iff in H; destruct H as [H ?]).
  apply String.eqb_eq in H.
  repeat match goal with
         | E : String.eqb _ _ = true |- _ => apply String.eqb_eq in E
         | E : Z.eqb _ _ = true |- _ => apply Z.eqb_eq in E
         end.
  destruct d; simpl in *; subst; reflexivity.
Qed.

(** After [replace], the document found under the identifier is the new
    one. *)
Lemma stored_replace (l : list Doc) (d d' : Doc) :
  In d l -> _id d' = _id d ->
  find (fun x => Nat.eqb (_id x) (_id d)) (replace d' l) = Some d'.
Proof.
  intros Hin E. unfold replace. rewrite E.
  induction l as [|x l IH]; [contradiction Hin|].
  cbn [map find].
  destruct (Nat.eqb_spec (_id x) (_id d)) as [Ex|Nx].
  - rewrite E, Nat.eqb_refl. reflexivity.
  - destruct (Nat.eqb_spec (_id x) (_id d)); [contradiction|].
    destruct Hin as [-> | Hin]; [contradiction Nx; reflexivity|].
    exact (IH Hin).
Qed.

(* ===================================================================== *)
(** ** The ten properties                                                 *)
(* ===================================================================== *)

(** *** Dispatch *)

(** C1.  The form {name: Asha Rao, mobile: 9876543210, dob: 1995-01-01,
    action: delete} passes all validations, and whatever the receiver
    service would answer, the one request that leaves the main app is a
    DELETE whose body is absent: the normalised record, handed to
    [axios.delete] in the position of its configuration, is not sent.  The
    delete handler, reading no mobile in what it receives, answers 400
    and removes nothing. *)
Theorem delete_is_forwarded_without_body
    (net : Axios.request -> MainApp.downstream) :
  snd (MainApp.post_api host_utc_plus_0530 Samples.noon_2024_06_14 net
         (Samples.asha "delete")) = [Samples.bodiless_delete]
  /\ Axios.req_verb Samples.bodiless_delete = Axios.DELETE
  /\ Axios.req_data Samples.bodiless_delete = None
  /\ Receiver.delete_db Samples.asha_collection [] =
       (Receiver.answer 400 false
          "Mobile number is required for delete operation",
        Samples.asha_collection).
Proof.
  split; [|repeat split].
  destruct (dispatch_strings host_utc_plus_0530 Samples.noon_2024_06_14 net
              (Samples.asha "delete") "Asha Rao" "9876543210" "delete"
              (VStr "1995-01-01") eq_refl eq_refl eq_refl eq_refl eq_refl
              eq_refl eq_refl eq_refl eq_refl)
    as (send & verb & Hsel & Hpost).
  rewrite Hpost. injection Hsel as <- <-. reflexivity.
Qed.

(** *** A date of birth that does not parse *)

(** C2.  When the name, mobile and action are valid strings and the date
    of birth is a string that [Date.parse] does not understand, the age is
    [NaN], which the range check does not catch: the request is not
    answered with 400 but forwarded to the receiver service, with the age
    [NaN] in the record. *)
Theorem unparsable_dob_is_forwarded (h : Host) (now : Z)
    (net : Axios.request -> MainApp.downstream) (body : obj)
    (n m d a : string) :
  get "name" body = VStr n ->
  get "mobile" body = VStr m ->
  get "dob" body = VStr d ->
  get "action" body = VStr a ->
  MainApp.nameRegex_test n = true ->
  MainApp.mobileRegex_test m = true ->
  d <> EmptyString ->
  Date_parse h d = None ->
  includes MainApp.validActions (toLowerCase a) = true ->
  exists send verb,
    MainApp.select_method (toLowerCase a) = Some (send, verb)
    /\ snd (MainApp.post_api h now net body) =
         [send MainApp.endpoint
            (MainApp.processedData_of now (trim n) (trim m) (VStr d) NaN
               (toLowerCase a))
            MainApp.forward_options]
    /\ MainApp.status (fst (MainApp.post_api h now net body)) <> 400.
Proof.
  intros Hn Hm Hd Ha Vn Vm Dne Hparse Va.
  assert (Hage : MainApp.calculateAge h now (VStr d) = NaN)
    by (apply calculateAge_invalid_date; exact Hparse).
  destruct (dispatch_strings h now net body n m a (VStr d) Hn Hm Hd Ha Vn Vm)
    as (send & verb & Hsel & Hpost).
  - present.
  - rewrite Hage. reflexivity.
  - exact Va.
  - exists send, verb. split; [exact Hsel|]. cbv zeta in Hpost.
    rewrite Hage in Hpost. rewrite Hpost. split; [reflexivity|].
    destruct (MainApp.await _); simpl; discriminate.
Qed.

Lemma unparsable_dob_is_forwarded_witness :
  get "name" Samples.no_date_form = VStr "Asha Rao"
  /\ get "mobile" Samples.no_date_form = VStr "9876543210"
  /\ get "dob" Samples.no_date_form = VStr "not-a-date"
  /\ get "action" Samples.no_date_form = VStr "create"
  /\ MainApp.nameRegex_test "Asha Rao" = true
  /\ MainApp.mobileRegex_test "9876543210" = true
  /\ "not-a-date" <> EmptyString
  /\ Date_parse host_utc "not-a-date" = None
  /\ includes MainApp.validActions (toLowerCase "create") = true
  /\ exists send verb,
       MainApp.select_method (toLowerCase "create") = Some (send, verb)
       /\ snd (MainApp.post_api host_utc Samples.noon_2024_06_14
                 Samples.unreachable Samples.no_date_form) =
            [send MainApp.endpoint
               (MainApp.processedData_of Samples.noon_2024_06_14
                  (trim "Asha Rao") (trim "9876543210") (VStr "not-a-date")
                  NaN (toLowerCase "create"))
               MainApp.forward_options]
       /\ MainApp.status
            (fst (MainApp.post_api host_utc Samples.noon_2024_06_14
                    Samples.unreachable Samples.no_date_form)) <> 400.
Proof.
  do 6 (split; [reflexivity|]). split; [discriminate|].
  do 2 (split; [reflexivity|]).
  apply (unparsable_dob_is_forwarded host_utc Samples.noon_2024_06_14
           Samples.unreachable Samples.no_date_form "Asha Rao" "9876543210"
           "not-a-date" "create");
    solve [reflexivity | discriminate].
Defined.

(** *** Upsert without a match *)

(** C3.  When the mobile of the request is a string that, trimmed, is
    the mobile of no stored document, the upsert runs the very
    construction and save of the insert: both leave the same collection
    and answer with the same status, the same success flag and the same
    document.  For a well-formed record both append the document with the
    coerced fields and answer 201; the insert reports CREATE, and the
    upsert reports CREATE (from UPDATE), with a message saying that no
    record was found to update. *)
Theorem upsert_without_match_is_insert (h : Host) (now : Z)
    (c : Collection) (body : obj) (m : string) :
  get "mobile" body = VStr m ->
  Forall (fun d => mobile d <> trim m) (docs c) ->
  (snd (Receiver.put_db h now c body) = snd (Receiver.post_db h now c body)
   /\ Receiver.status (fst (Receiver.put_db h now c body))
      = Receiver.status (fst (Receiver.post_db h now c body))
   /\ Receiver.success (fst (Receiver.put_db h now c body))
      = Receiver.success (fst (Receiver.post_db h now c body))
   /\ Receiver.data (fst (Receiver.put_db h now c body))
      = Receiver.data (fst (Receiver.post_db h now c body)))
  /\ (forall (n dd a : string) (ag p : Z),
        is_record h now body n m dd a ag p ->
        let doc := inserted now c n m dd a ag p in
        let grown := {| docs := docs c ++ [doc];
                        next_id := S (next_id c) |} in
        (snd (Receiver.post_db h now c body) = grown
         /\ Receiver.status (fst (Receiver.post_db h now c body)) = 201
         /\ Receiver.success (fst (Receiver.post_db h now c body)) = true
         /\ Receiver.action_label (fst (Receiver.post_db h now c body))
            = Some "CREATE"
         /\ Receiver.data (fst (Receiver.post_db h now c body)) = Some doc)
        /\ (snd (Receiver.put_db h now c body) = grown
            /\ Receiver.status (fst (Receiver.put_db h now c body)) = 201
            /\ Receiver.success (fst (Receiver.put_db h now c body)) = true
            /\ Receiver.action_label (fst (Receiver.put_db h now c body))
               = Some "CREATE (from UPDATE)"
            /\ Receiver.message (fst (Receiver.put_db h now c body))
               = "Data created (record not found for update) in MongoDB successfully"
            /\ Receiver.data (fst (Receiver.put_db h now c body)) = Some doc
            /\ Receiver.error (fst (Receiver.put_db h now c body)) = None)).
Proof.
  intros Hm Hnone.
  pose proof (findOne_none c (trim m) Hnone) as Hfind. split.
  - unfold Receiver.put_db, Receiver.post_db.
    destruct (Receiver.missing_fields body); [repeat split|].
    rewrite Hm. cbn [call_trim call_string_method bind].
    rewrite Hfind.
    destruct (bind (Receiver.form_fields h now body) (create now c))
      as [[doc c']|e]; repeat split.
  - intros n dd a ag p R doc grown.
    destruct (record_fields h now body n m dd a ag p R) as (Hmiss & Hf & _).
    destruct R as (_ & _ & _ & _ & _ & _ & Nn & Nm & Nd & Na & _).
    unfold Receiver.put_db, Receiver.post_db.
    rewrite Hmiss, Hm. cbn [call_trim call_string_method bind].
    rewrite Hfind, Hf. cbn [bind].
    rewrite (create_coerced now c n m dd a ag p Nn Nm Nd Na).
    repeat split.
Qed.

Lemma upsert_without_match_is_insert_witness :
  get "mobile" Samples.ravi_upsert = VStr " 9123456780 "
  /\ Forall (fun d => mobile d <> trim " 9123456780 ")
       (docs Samples.asha_collection)
  /\ is_record host_utc Samples.noon_2024_06_14 Samples.ravi_upsert
       "Ravi Kumar" " 9123456780 " "1990-03-02" "update" 34
       Samples.noon_2024_06_14
  /\ snd (Receiver.put_db host_utc Samples.noon_2024_06_14
            Samples.asha_collection Samples.ravi_upsert)
     = snd (Receiver.post_db host_utc Samples.noon_2024_06_14
              Samples.asha_collection Samples.ravi_upsert)
  /\ snd (Receiver.put_db host_utc Samples.noon_2024_06_14
            Samples.asha_collection Samples.ravi_upsert)
     = {| docs :=
            [Samples.asha_doc;
             {| _id := 1; name := "Ravi Kumar"; mobile := "9123456780";
                dob := "1990-03-02"; age := 34; action := "update";
                processedAt := Samples.noon_2024_06_14;
                createdAt := Samples.noon_2024_06_14;
                updatedAt := Samples.noon_2024_06_14 |}];
          next_id := 2 |}
  /\ Receiver.status
       (fst (Receiver.put_db host_utc Samples.noon_2024_06_14
               Samples.asha_collection Samples.ravi_upsert)) = 201
  /\ Receiver.action_label
       (fst (Receiver.put_db host_utc Samples.noon_2024_06_14
               Samples.asha_collection Samples.ravi_upsert))
     = Some "CREATE (from UPDATE)"
  /\ Receiver.status
       (fst (Receiver.post_db host_utc Samples.noon_2024_06_14
               Samples.asha_collection Samples.ravi_upsert)) = 201.
Proof.
  assert (N : Forall (fun d => mobile d <> trim " 9123456780 ")
                (docs Samples.asha_collection))
    by (repeat constructor; vm_compute; discriminate).
  assert (R : is_record host_utc Samples.noon_2024_06_14 Samples.ravi_upsert
                "Ravi Kumar" " 9123456780 " "1990-03-02" "update" 34
                Samples.noon_2024_06_14)
    by (repeat split; discriminate).
  destruct (upsert_without_match_is_insert host_utc Samples.noon_2024_06_14
              Samples.asha_collection Samples.ravi_upsert " 9123456780 "
              eq_refl N) as [(Hsame & _) Hrec].
  destruct (Hrec "Ravi Kumar" "1990-03-02" "update" 34
              Samples.noon_2024_06_14 R)
    as ((_ & Spost & _) & (Hdocs & Sput & _ & Lput & _)).
  split; [reflexivity|]. split; [exact N|]. split; [exact R|].
  split; [exact Hsame|]. split; [exact Hdocs|]. split; [exact Sput|].
  split; [exact Lput | exact Spost].
Defined.

(** *** Upsert on an existing mobile *)

(** C4, as the code has it.  When the mobile of a well-formed record,
    trimmed, is the mobile of a stored document, the upsert answers 200
    with that document overwritten in its name, date of birth, age, action
    and [processedAt], while its mobile, its identifier and its creation
    time stay what they were; the supplied mobile only serves to find the
    document.  When some assigned field differs from the stored one, the
    overwritten document is what the collection then holds under that
    identifier and its modification time is the time of the save, so that
    it advances as soon as the clock has; when none differs, the document
    and the collection stay as they were, modification time included. *)
Theorem upsert_existing_overwrites (h : Host) (now : Z) (c : Collection)
    (body : obj) (n m dd a : string) (ag p : Z) (d : Doc) :
  is_record h now body n m dd a ag p ->
  findOne c (trim m) = Some d ->
  mobile d = trim m
  /\ (is_modified d (trim n) dd ag (trim a) p = true ->
      Receiver.put_db h now c body =
        (Receiver.answer_doc 200 "Data updated in MongoDB successfully"
           "UPDATE" (overwritten d n dd a ag p now),
         {| docs := replace (overwritten d n dd a ag p now) (docs c);
            next_id := next_id c |})
      /\ stored
           {| docs := replace (overwritten d n dd a ag p now) (docs c);
              next_id := next_id c |} (_id d)
         = Some (overwritten d n dd a ag p now)
      /\ (updatedAt d < now ->
          updatedAt d < updatedAt (overwritten d n dd a ag p now)))
  /\ (is_modified d (trim n) dd ag (trim a) p = false ->
      Receiver.put_db h now c body =
        (Receiver.answer_doc 200 "Data updated in MongoDB successfully"
           "UPDATE" d, c)
      /\ overwritten d n dd a ag p (updatedAt d) = d).
Proof.
  intros R Hfind.
  pose proof (findOne_mobile c (trim m) d Hfind) as Hmob.
  destruct (record_fields h now body n m dd a ag p R) as (Hmiss & _ & Hu).
  destruct R as (_ & Hm & _ & _ & _ & _ & Nn & Nm & Nd & Na & _).
  assert (Hput : Receiver.put_db h now c body =
            if is_modified d (trim n) dd ag (trim a) p
            then (Receiver.answer_doc 200
                    "Data updated in MongoDB successfully" "UPDATE"
                    (overwritten d n dd a ag p now),
                  {| docs := replace (overwritten d n dd a ag p now) (docs c);
                     next_id := next_id c |})
            else (Receiver.answer_doc 200
                    "Data updated in MongoDB successfully" "UPDATE" d, c)).
  { unfold Receiver.put_db.
    rewrite Hmiss, Hm. cbn [call_trim call_string_method bind].
    rewrite Hfind, Hu. cbn [bind]. unfold update.
    cbn [f_name f_mobile f_dob f_age f_action f_processedAt cast_string
         ToString].
    replace (invalid_paths _) with (invalid_paths (coerced n m dd a ag p)).
    - rewrite (coerced_valid n m dd a ag p Nn Nm Nd Na).
      rewrite !trim_idempotent.
      destruct (is_modified d (trim n) dd ag (trim a) p); reflexivity.
    - unfold invalid_paths, coerced.
      cbn [f_name f_mobile f_dob f_age f_action f_processedAt].
      rewrite Hmob. reflexivity. }
  split; [exact Hmob|]. split.
  - intros E. rewrite E in Hput. split; [exact Hput|]. split.
    + unfold stored. cbn [docs].
      apply stored_replace; [|reflexivity].
      unfold findOne in Hfind. apply find_some in Hfind. apply Hfind.
    + intros Hlt. exact Hlt.
  - intros E. rewrite E in Hput. split; [exact Hput|].
    apply unmodified_same. exact E.
Qed.

Lemma upsert_existing_overwrites_witness :
  is_record host_utc Samples.noon_2024_06_14 Samples.asha_renamed
    "Asha R Rao" " 9876543210" "1995-01-01" "update" 29 1718366400000
  /\ findOne Samples.asha_collection (trim " 9876543210")
     = Some Samples.asha_doc
  /\ Receiver.put_db host_utc Samples.noon_2024_06_14
       Samples.asha_collection Samples.asha_renamed =
     (Receiver.answer_doc 200 "Data updated in MongoDB successfully"
        "UPDATE"
        (overwritten Samples.asha_doc "Asha R Rao" "1995-01-01" "update"
           29 1718366400000 Samples.noon_2024_06_14),
      {| docs :=
           replace
             (overwritten Samples.asha_doc "Asha R Rao" "1995-01-01"
                "update" 29 1718366400000 Samples.noon_2024_06_14)
             (docs Samples.asha_collection);
         next_id := next_id Samples.asha_collection |})
  /\ updatedAt Samples.asha_doc
     < updatedAt
         (overwritten Samples.asha_doc "Asha R Rao" "1995-01-01" "update"
            29 1718366400000 Samples.noon_2024_06_14).
Proof.
  assert (R : is_record host_utc Samples.noon_2024_06_14
                Samples.asha_renamed "Asha R Rao" " 9876543210"
                "1995-01-01" "update" 29 1718366400000)
    by (repeat split; discriminate).
  split; [exact R|]. split; [reflexivity|].
  destruct (upsert_existing_overwrites host_utc Samples.noon_2024_06_14
              Samples.asha_collection Samples.asha_renamed "Asha R Rao"
              " 9876543210" "1995-01-01" "update" 29 1718366400000
              Samples.asha_doc R eq_refl) as (_ & Hmod & _).
  destruct (Hmod eq_refl) as (Hput & _ & Hadv).
  split; [exact Hput | apply Hadv; reflexivity].
Defined.

(** C4, as stated, fails in its last part: an upsert that repeats what is
    stored (here the record of Asha Rao with its stored [processedAt]),
    arriving a day after the last write, finds the document, answers 200
    and leaves the modification time where it was. *)
Lemma repeated_upsert_keeps_updatedAt :
  findOne Samples.asha_collection "9876543210" = Some Samples.asha_doc
  /\ updatedAt Samples.asha_doc < Samples.noon_2024_06_14
  /\ Receiver.status
       (fst (Receiver.put_db host_utc Samples.noon_2024_06_14
               Samples.asha_collection Samples.asha_record)) = 200
  /\ option_map updatedAt
       (stored
          (snd (Receiver.put_db host_utc Samples.noon_2024_06_14
                  Samples.asha_collection Samples.asha_record)) 0)
     = Some (updatedAt Samples.asha_doc).
Proof. repeat split. Qed.

(** *** Deleting what is not there *)

(** C5, as the code has it.  A delete request whose mobile is a non-empty
    string that, once trimmed, is the mobile of no stored document is
    answered with 404 [Record not found for deletion]: no exception is
    raised, no 500 is produced, and the collection is returned as it
    was. *)
Theorem delete_unknown_mobile_not_found (c : Collection) (body : obj)
    (m : string) :
  get "mobile" body = VStr m ->
  m <> EmptyString ->
  Forall (fun d => mobile d <> trim m) (docs c) ->
  Receiver.delete_db c body =
    ({| Receiver.status := 404;
        Receiver.success := false;
        Receiver.message := "Record not found for deletion";
        Receiver.action_label := None;
        Receiver.data := None;
        Receiver.mobile_echo := Some (trim m);
        Receiver.error := None |}, c).
Proof.
  intros Hm Hne Hnone. unfold Receiver.delete_db.
  rewrite Hm, truthy_VStr, (eqb_empty_false m Hne). simpl.
  unfold findOneAndDelete. rewrite (findOne_none c (trim m) Hnone).
  reflexivity.
Qed.

Lemma delete_unknown_mobile_not_found_witness :
  get "mobile" Samples.unknown_delete = VStr " 9123456780 "
  /\ " 9123456780 " <> EmptyString
  /\ Forall (fun d => mobile d <> trim " 9123456780 ")
       (docs Samples.asha_collection)
  /\ Receiver.delete_db Samples.asha_collection Samples.unknown_delete =
       ({| Receiver.status := 404;
           Receiver.success := false;
           Receiver.message := "Record not found for deletion";
           Receiver.action_label := None;
           Receiver.data := None;
           Receiver.mobile_echo := Some (trim " 9123456780 ");
           Receiver.error := None |}, Samples.asha_collection).
Proof.
  assert (N : Forall (fun d => mobile d <> trim " 9123456780 ")
                (docs Samples.asha_collection))
    by (repeat constructor; vm_compute; discriminate).
  split; [reflexivity|]. split; [discriminate|]. split; [exact N|].
  apply (delete_unknown_mobile_not_found Samples.asha_collection
           Samples.unknown_delete " 9123456780 ");
    [reflexivity | discriminate | exact N].
Defined.

(** C5, as stated, fails: a delete request whose mobile is the JSON number
    9123456780, which is the mobile of no stored document, passes the
    presence check; [mobile.trim] then throws, and the answer is the 500 of
    the catch block, not 404.  The collection is left as it was. *)
Lemma delete_with_numeric_mobile_is_500 :
  get "mobile" Samples.numeric_delete = VNum (Num 9123456780)
  /\ Forall (fun d => mobile d <> ToString (VNum (Num 9123456780)))
       (docs Samples.asha_collection)
  /\ Receiver.status
       (fst (Receiver.delete_db Samples.asha_collection
               Samples.numeric_delete)) = 500
  /\ Receiver.error
       (fst (Receiver.delete_db Samples.asha_collection
               Samples.numeric_delete))
     = Some (TypeError "mobile.trim is not a function")
  /\ snd (Receiver.delete_db Samples.asha_collection Samples.numeric_delete)
     = Samples.asha_collection.
Proof.
  split; [reflexivity|].
  split; [repeat constructor; vm_compute; discriminate|].
  repeat split.
Qed.

(** *** Malformed input and the receiver service *)

(** C6.  The form {name: Asha Rao, mobile: 9876543210, dob: not-a-date,
    action: create} is malformed in its date of birth, yet the main app
    does not answer 400: it sends a POST to the receiver service with the
    age [NaN], the receiver runs its insert, which fails in the store with
    500, and the main app answers 502. *)
Theorem malformed_dob_reaches_persistence :
  MainApp.post_api host_utc Samples.noon_2024_06_14
    (MainApp.served_by host_utc Samples.noon_2024_06_14
       Samples.empty_collection)
    Samples.no_date_form =
  (MainApp.forward_failed "POST"
     (MainApp.processedData_of Samples.noon_2024_06_14 "Asha Rao"
        "9876543210" (VStr "not-a-date") NaN "create")
     "Request failed with status code 500",
   [Axios.post MainApp.endpoint
      (MainApp.processedData_of Samples.noon_2024_06_14 "Asha Rao"
         "9876543210" (VStr "not-a-date") NaN "create")
      MainApp.forward_options])
  /\ MainApp.receiver host_utc Samples.noon_2024_06_14
       Samples.empty_collection
       (Axios.post MainApp.endpoint
          (MainApp.processedData_of Samples.noon_2024_06_14 "Asha Rao"
             "9876543210" (VStr "not-a-date") NaN "create")
          MainApp.forward_options) =
     Some (Receiver.answer_error "Failed to create data in MongoDB"
             (ValidationError ["age"]),
           Samples.empty_collection).
Proof. split; vm_compute; reflexivity. Qed.

(** *** The day before the anniversary *)

(** C7.  At noon of 14 June 2024 the age computed for the date of birth
    2000-06-15 is 23 on a host on UTC, but on a host five hours behind UTC,
    at noon of the same day in local time, it is 24: the string is read as
    midnight UTC, which on that host is still 14 June 2000, so the getters
    place the anniversary one day early. *)
Theorem age_on_eve_of_anniversary_west_of_utc :
  MainApp.calculateAge host_utc Samples.noon_2024_06_14 (VStr "2000-06-15")
    = Num 23
  /\ local_civil host_utc_minus_5 Samples.noon_2024_06_14_utc_minus_5
     = (2024, 6, 14)
  /\ getDate host_utc_minus_5 (Date_new host_utc_minus_5 (VStr "2000-06-15"))
     = Num 14
  /\ MainApp.calculateAge host_utc_minus_5
       Samples.noon_2024_06_14_utc_minus_5 (VStr "2000-06-15") = Num 24.
Proof. repeat split. Qed.

(** *** Dates of birth that are accepted *)

(** C8, as the code has it.  Take a date of birth written as a calendar
    date [YYYY-MM-DD], on a host whose local calendar reads the parsed
    instant as that same date.  A request that is forwarded has a date of
    birth that is not after the current date; a date of birth after the
    current date is answered with 400 and nothing is sent; and a date of
    birth equal to the current date, in a request whose name, mobile and
    action are valid, gives the age 0 and is forwarded, the answer being
    200 or 502 and carrying the record with the age 0.  Nothing is said
    here of a host that reads the date as another day. *)
Theorem accepted_dob_not_in_future (h : Host) (now : Z)
    (net : Axios.request -> MainApp.downstream) (body : obj) (s : string)
    (y m d : Z) :
  get "dob" body = VStr s ->
  written_date s = Some (y, m, d) ->
  local_civil h (days_from_civil y m d * msPerDay) = (y, m, d) ->
  (forwarded h now net body = true ->
   civil_ltb (local_civil h now) (y, m, d) = false)
  /\ (civil_ltb (local_civil h now) (y, m, d) = true ->
      MainApp.status (fst (MainApp.post_api h now net body)) = 400
      /\ snd (MainApp.post_api h now net body) = []
      /\ forwarded h now net body = false)
  /\ (local_civil h now = (y, m, d) ->
      forall n mo a : string,
        get "name" body = VStr n ->
        get "mobile" body = VStr mo ->
        get "action" body = VStr a ->
        MainApp.nameRegex_test n = true ->
        MainApp.mobileRegex_test mo = true ->
        includes MainApp.validActions (toLowerCase a) = true ->
        MainApp.calculateAge h now (VStr s) = Num 0
        /\ forwarded h now net body = true
        /\ (MainApp.status (fst (MainApp.post_api h now net body)) = 200
            \/ MainApp.status (fst (MainApp.post_api h now net body)) = 502)
        /\ MainApp.processedData (fst (MainApp.post_api h now net body))
           = Some (MainApp.processedData_of now (trim n) (trim mo) (VStr s)
                     (Num 0) (toLowerCase a))).
Proof.
  intros Hs Hw Hread.
  destruct (written_date_parse h s y m d Hw) as [Hd Hne].
  assert (Hd' : Date_new h (get "dob" body)
                = Some (days_from_civil y m d * msPerDay))
    by (rewrite Hs; exact Hd).
  assert (R : civil_ltb (local_civil h now) (y, m, d) = true ->
              MainApp.status (fst (MainApp.post_api h now net body)) = 400
              /\ snd (MainApp.post_api h now net body) = []
              /\ forwarded h now net body = false).
  { intros Hlt. rewrite <- Hread in Hlt.
    destruct (future_dob_rejected h now net body _ Hd' Hlt) as [E S].
    split; [exact E|]. split; [exact S|].
    unfold forwarded. rewrite S. reflexivity. }
  split; [|split; [exact R|]].
  - intros Hf.
    destruct (civil_ltb (local_civil h now) (y, m, d)) eqn:E;
      [|reflexivity].
    destruct (R eq_refl) as (_ & _ & Hn). congruence.
  - intros Htoday n mo a Hn Hm Ha Vn Vm Va.
    assert (Hage : MainApp.calculateAge h now (VStr s) = Num 0).
    { apply (calculateAge_same_day h now _ (VStr s) Hd).
      rewrite Hread, Htoday. reflexivity. }
    destruct (dispatch_strings h now net body n mo a (VStr s) Hn Hm Hs Ha
                Vn Vm) as (send & verb & _ & Hpost).
    + rewrite truthy_VStr, (eqb_empty_false s Hne). reflexivity.
    + rewrite Hage. reflexivity.
    + exact Va.
    + cbv zeta in Hpost. rewrite Hage in Hpost.
      split; [exact Hage|]. unfold forwarded. rewrite Hpost. cbn [fst snd].
      split; [reflexivity|].
      destruct (MainApp.await _); split;
        solve [left; reflexivity | right; reflexivity | reflexivity].
Qed.

Lemma accepted_dob_not_in_future_witness :
  (get "dob" (Samples.born_today "create") = VStr "2024-06-14"
   /\ written_date "2024-06-14" = Some (2024, 6, 14)
   /\ local_civil host_utc_plus_0530
        (days_from_civil 2024 6 14 * msPerDay) = (2024, 6, 14)
   /\ local_civil host_utc_plus_0530 Samples.noon_2024_06_14
      = (2024, 6, 14)
   /\ MainApp.calculateAge host_utc_plus_0530 Samples.noon_2024_06_14
        (VStr "2024-06-14") = Num 0
   /\ forwarded host_utc_plus_0530 Samples.noon_2024_06_14
        Samples.unreachable (Samples.born_today "create") = true
   /\ (MainApp.status
         (fst (MainApp.post_api host_utc_plus_0530 Samples.noon_2024_06_14
                 Samples.unreachable (Samples.born_today "create"))) = 200
       \/ MainApp.status
            (fst (MainApp.post_api host_utc_plus_0530
                    Samples.noon_2024_06_14 Samples.unreachable
                    (Samples.born_today "create"))) = 502)
   /\ MainApp.processedData
        (fst (MainApp.post_api host_utc_plus_0530 Samples.noon_2024_06_14
                Samples.unreachable (Samples.born_today "create")))
      = Some (MainApp.processedData_of Samples.noon_2024_06_14
                (trim "Asha Rao") (trim "9876543210") (VStr "2024-06-14")
                (Num 0) (toLowerCase "create"))
   /\ civil_ltb (local_civil host_utc_plus_0530 Samples.noon_2024_06_14)
        (2024, 6, 14) = false)
  /\ (get "dob" (Samples.born_tomorrow "create") = VStr "2024-06-15"
      /\ written_date "2024-06-15" = Some (2024, 6, 15)
      /\ local_civil host_utc (days_from_civil 2024 6 15 * msPerDay)
         = (2024, 6, 15)
      /\ civil_ltb (local_civil host_utc Samples.noon_2024_06_14)
           (2024, 6, 15) = true
      /\ MainApp.status
           (fst (MainApp.post_api host_utc Samples.noon_2024_06_14
                   Samples.unreachable (Samples.born_tomorrow "create")))
         = 400
      /\ snd (MainApp.post_api host_utc Samples.noon_2024_06_14
                Samples.unreachable (Samples.born_tomorrow "create")) = []
      /\ forwarded host_utc Samples.noon_2024_06_14 Samples.unreachable
           (Samples.born_tomorrow "create") = false).
Proof.
  split.
  - destruct (accepted_dob_not_in_future host_utc_plus_0530
                Samples.noon_2024_06_14 Samples.unreachable
                (Samples.born_today "create") "2024-06-14" 2024 6 14
                eq_refl eq_refl eq_refl) as (Past & _ & Today).
    destruct (Today eq_refl "Asha Rao" "9876543210" "create" eq_refl
                eq_refl eq_refl eq_refl eq_refl eq_refl)
      as (Hage & Hf & Hst & Hdata).
    do 4 (split; [reflexivity|]).
    split; [exact Hage|]. split; [exact Hf|]. split; [exact Hst|].
    split; [exact Hdata | exact (Past Hf)].
  - destruct (accepted_dob_not_in_future host_utc Samples.noon_2024_06_14
                Samples.unreachable (Samples.born_tomorrow "create")
                "2024-06-15" 2024 6 15 eq_refl eq_refl eq_refl)
      as (_ & Future & _).
    do 4 (split; [reflexivity|]). exact (Future eq_refl).
Defined.

(** C8, as stated, fails: on 14 June 2024 the form with the date of birth
    2024-06-14, which is the current date and so not strictly before it,
    is forwarded with the age 0, answered with 200 and stored. *)
Lemma dob_of_today_is_accepted :
  get "dob" (Samples.born_today "create") = VStr "2024-06-14"
  /\ written_date "2024-06-14" = Some (2024, 6, 14)
  /\ local_civil host_utc Samples.noon_2024_06_14 = (2024, 6, 14)
  /\ civil_ltb (2024, 6, 14) (local_civil host_utc Samples.noon_2024_06_14)
     = false
  /\ forwarded host_utc Samples.noon_2024_06_14
       (MainApp.served_by host_utc Samples.noon_2024_06_14
          Samples.empty_collection)
       (Samples.born_today "create") = true
  /\ MainApp.status
       (fst (MainApp.post_api host_utc Samples.noon_2024_06_14
               (MainApp.served_by host_utc Samples.noon_2024_06_14
                  Samples.empty_collection)
               (Samples.born_today "create"))) = 200
  /\ MainApp.calculateAge host_utc Samples.noon_2024_06_14
       (get "dob" (Samples.born_today "create")) = Num 0.
Proof. repeat split. Qed.

(** The hypothesis on the host is needed.  Five hours behind UTC, at noon
    of 14 June 2024, the date of birth 2024-06-15 is read as 14 June: the
    age is 0 and the form is forwarded, by the reading of the date that
    also moves the anniversary in C7. *)
Example dob_of_tomorrow_west_of_utc :
  local_civil host_utc_minus_5 Samples.noon_2024_06_14_utc_minus_5
    = (2024, 6, 14)
  /\ written_date "2024-06-15" = Some (2024, 6, 15)
  /\ local_civil host_utc_minus_5 (days_from_civil 2024 6 15 * msPerDay)
     = (2024, 6, 14)
  /\ MainApp.calculateAge host_utc_minus_5
       Samples.noon_2024_06_14_utc_minus_5 (VStr "2024-06-15") = Num 0
  /\ forwarded host_utc_minus_5 Samples.noon_2024_06_14_utc_minus_5
       Samples.unreachable (Samples.born_tomorrow "create") = true.
Proof. repeat split. Qed.

(** *** Type confusion in the main app *)

(** C9.  A request whose mobile is a JSON number with the digits of a
    valid mobile (such as 9876543210), the other fields being valid strings,
    passes every check of the handler, since the regular expression is
    tested on the decimal string of the number; the normalisation then calls
    [mobile.trim] on the number, which throws, and the request ends in the
    answer of the outer catch: status 500, neither 400 nor 200, with the
    message of the exception and nothing sent to the receiver service. *)
Theorem numeric_mobile_internal_error (h : Host) (now : Z)
    (net : Axios.request -> MainApp.downstream) (body : obj)
    (n d a : string) (z : Z) :
  get "name" body = VStr n ->
  get "mobile" body = VNum (Num z) ->
  get "dob" body = VStr d ->
  get "action" body = VStr a ->
  MainApp.nameRegex_test n = true ->
  MainApp.mobileRegex_test (number_toString (Num z)) = true ->
  d <> EmptyString ->
  lt (MainApp.calculateAge h now (VStr d)) (Num 0)
    || gt (MainApp.calculateAge h now (VStr d)) (Num 150) = false ->
  includes MainApp.validActions (toLowerCase a) = true ->
  MainApp.validateMobile (get "mobile" body) = true
  /\ MainApp.post_api h now net body =
       (MainApp.internal_error (TypeError "mobile.trim is not a function"),
        [])
  /\ MainApp.status (fst (MainApp.post_api h now net body)) = 500
  /\ MainApp.success (fst (MainApp.post_api h now net body)) = false
  /\ MainApp.message (fst (MainApp.post_api h now net body))
     = "Internal server error while processing form data"
  /\ MainApp.error (fst (MainApp.post_api h now net body))
     = Some "mobile.trim is not a function"
  /\ snd (MainApp.post_api h now net body) = [].
Proof.
  intros Hn Hm Hd Ha Vn Vm Dne Hage Va.
  assert (E : MainApp.post_api h now net body =
              (MainApp.internal_error
                 (TypeError "mobile.trim is not a function"), [])).
  { rewrite post_api_past_checks; rewrite ?Hn, ?Hm, ?Hd, ?Ha;
      try assumption.
    - unfold MainApp.validate_action_and_forward, call_toLowerCase,
        call_trim, call_string_method, bind.
      rewrite Va. reflexivity.
    - present.
    - simpl. destruct (Z.eqb_spec z 0) as [E|]; [|reflexivity].
      exfalso. exact (validateMobile_number_nonzero z Vm E).
    - present.
    - present. }
  split; [rewrite Hm; exact Vm|]. split; [exact E|].
  rewrite E. repeat split.
Qed.

Lemma numeric_mobile_internal_error_witness :
  get "name" Samples.numeric_mobile_form = VStr "Asha Rao"
  /\ get "mobile" Samples.numeric_mobile_form = VNum (Num 9876543210)
  /\ get "dob" Samples.numeric_mobile_form = VStr "1995-01-01"
  /\ get "action" Samples.numeric_mobile_form = VStr "create"
  /\ MainApp.nameRegex_test "Asha Rao" = true
  /\ MainApp.mobileRegex_test (number_toString (Num 9876543210)) = true
  /\ "1995-01-01" <> EmptyString
  /\ lt (MainApp.calculateAge host_utc_plus_0530 Samples.noon_2024_06_14
           (VStr "1995-01-01")) (Num 0)
     || gt (MainApp.calculateAge host_utc_plus_0530 Samples.noon_2024_06_14
              (VStr "1995-01-01")) (Num 150) = false
  /\ includes MainApp.validActions (toLowerCase "create") = true
  /\ MainApp.validateMobile (get "mobile" Samples.numeric_mobile_form) = true
  /\ MainApp.post_api host_utc_plus_0530 Samples.noon_2024_06_14
       Samples.unreachable Samples.numeric_mobile_form =
     (MainApp.internal_error (TypeError "mobile.trim is not a function"),
      [])
  /\ MainApp.status
       (fst (MainApp.post_api host_utc_plus_0530 Samples.noon_2024_06_14
               Samples.unreachable Samples.numeric_mobile_form)) = 500
  /\ MainApp.success
       (fst (MainApp.post_api host_utc_plus_0530 Samples.noon_2024_06_14
               Samples.unreachable Samples.numeric_mobile_form)) = false
  /\ MainApp.message
       (fst (MainApp.post_api host_utc_plus_0530 Samples.noon_2024_06_14
               Samples.unreachable Samples.numeric_mobile_form))
     = "Internal server error while processing form data"
  /\ MainApp.error
       (fst (MainApp.post_api host_utc_plus_0530 Samples.noon_2024_06_14
               Samples.unreachable Samples.numeric_mobile_form))
     = Some "mobile.trim is not a function"
  /\ snd (MainApp.post_api host_utc_plus_0530 Samples.noon_2024_06_14
            Samples.unreachable Samples.numeric_mobile_form) = [].
Proof.
  do 6 (split; [reflexivity|]). split; [discriminate|].
  do 2 (split; [reflexivity|]).
  apply (numeric_mobile_internal_error host_utc_plus_0530
           Samples.noon_2024_06_14 Samples.unreachable
           Samples.numeric_mobile_form "Asha Rao" "1995-01-01" "create"
           9876543210);
    solve [reflexivity | discriminate].
Defined.

(** *** A record the store refuses *)

(** C10.  An insert request whose age is present but has no integer prefix
    (such as [null] or a word), with string name, mobile and action, passes
    the presence check, which only compares the age with [undefined];
    [parseInt] then gives [NaN], the save fails validation on the path
    [age], and the answer is that of the catch block: status 500, not the
    400 of the presence check and not 201, with the validation error; the
    collection is left as it was. *)
Theorem insert_non_numeric_age_internal_error (h : Host) (now : Z)
    (c : Collection) (body : obj) (n m a : string) :
  get "name" body = VStr n ->
  get "mobile" body = VStr m ->
  get "action" body = VStr a ->
  Receiver.missing_fields body = false ->
  parseInt (get "age" body) = NaN ->
  Receiver.status (fst (Receiver.post_db h now c body)) = 500
  /\ Receiver.success (fst (Receiver.post_db h now c body)) = false
  /\ Receiver.message (fst (Receiver.post_db h now c body))
     = "Failed to create data in MongoDB"
  /\ Receiver.data (fst (Receiver.post_db h now c body)) = None
  /\ snd (Receiver.post_db h now c body) = c
  /\ exists paths,
       In "age" paths
       /\ Receiver.error (fst (Receiver.post_db h now c body))
          = Some (ValidationError paths)
       /\ Receiver.post_db h now c body =
            (Receiver.answer_error "Failed to create data in MongoDB"
               (ValidationError paths), c).
Proof.
  intros Hn Hm Ha Hmiss Hage.
  assert (E : exists paths,
             In "age" paths
             /\ Receiver.post_db h now c body =
                  (Receiver.answer_error "Failed to create data in MongoDB"
                     (ValidationError paths), c)).
  { unfold Receiver.post_db.
    rewrite Hmiss. unfold Receiver.form_fields.
    rewrite Hn, Hm, Ha, Hage. simpl bind.
    match goal with
    | |- context [create now c ?f] =>
        exists (invalid_paths f); split;
        [ apply age_NaN_invalid; reflexivity
        | rewrite (create_invalid now c f); [reflexivity|] ]
    end.
    intros E.
    match type of E with
    | invalid_paths ?f = [] =>
        pose proof (age_NaN_invalid f eq_refl) as Hin; rewrite E in Hin
    end.
    exact Hin. }
  destruct E as (paths & Hin & E). rewrite E.
  do 5 (split; [reflexivity|]).
  exists paths. repeat split. exact Hin.
Qed.

Lemma insert_non_numeric_age_internal_error_witness :
  get "name" Samples.null_age_record = VStr "Asha Rao"
  /\ get "mobile" Samples.null_age_record = VStr "9876543210"
  /\ get "action" Samples.null_age_record = VStr "create"
  /\ Receiver.missing_fields Samples.null_age_record = false
  /\ parseInt (get "age" Samples.null_age_record) = NaN
  /\ Receiver.status
       (fst (Receiver.post_db host_utc Samples.noon_2024_06_14
               Samples.asha_collection Samples.null_age_record)) = 500
  /\ Receiver.success
       (fst (Receiver.post_db host_utc Samples.noon_2024_06_14
               Samples.asha_collection Samples.null_age_record)) = false
  /\ Receiver.message
       (fst (Receiver.post_db host_utc Samples.noon_2024_06_14
               Samples.asha_collection Samples.null_age_record))
     = "Failed to create data in MongoDB"
  /\ Receiver.data
       (fst (Receiver.post_db host_utc Samples.noon_2024_06_14
               Samples.asha_collection Samples.null_age_record)) = None
  /\ snd (Receiver.post_db host_utc Samples.noon_2024_06_14
            Samples.asha_collection Samples.null_age_record)
     = Samples.asha_collection
  /\ exists paths,
       In "age" paths
       /\ Receiver.error
            (fst (Receiver.post_db host_utc Samples.noon_2024_06_14
                    Samples.asha_collection Samples.null_age_record))
          = Some (ValidationError paths)
       /\ Receiver.post_db host_utc Samples.noon_2024_06_14
            Samples.asha_collection Samples.null_age_record =
          (Receiver.answer_error "Failed to create data in MongoDB"
             (ValidationError paths), Samples.asha_collection).
Proof.
  do 5 (split; [reflexivity|]).
  apply (insert_non_numeric_age_internal_error host_utc
           Samples.noon_2024_06_14 Samples.asha_collection
           Samples.null_age_record "Asha Rao" "9876543210" "create");
    reflexivity.
Defined.

(* ===================================================================== *)
(** ** Further properties                                                 *)
(* ===================================================================== *)

Import Facts.

(** *** What a save leaves behind *)

Lemma create_inv (now : Z) (c : Collection) (f : Fields) (d : Doc)
    (c' : Collection) :
  create now c f = Normal (d, c') ->
  c' = {| docs := docs c ++ [d]; next_id := S (next_id c) |}
  /\ _id d = next_id c /\ doc_ok d /\ mobile d = trim (f_mobile f)
  /\ createdAt d = now.
Proof.
  unfold create. intros H.
  destruct (invalid_paths f) eqn:E; [|discriminate H].
  destruct (invalid_paths_nil f E) as (Nn & Nm & Na & dd & a & p & Hd & Nd
                                        & Ha & Hp).
  rewrite Hd, Ha, Hp in H. injection H as <- <-.
  repeat split; cbn [name mobile dob action]; try assumption;
    apply trim_idempotent.
Qed.

Lemma update_inv (now : Z) (c : Collection) (d : Doc) (f : Fields)
    (d' : Doc) (c' : Collection) :
  update now c d f = Normal (d', c') ->
  doc_ok d ->
  (d' = d /\ c' = c)
  \/ (c' = {| docs := replace d' (docs c); next_id := next_id c |}
      /\ _id d' = _id d /\ mobile d' = mobile d /\ doc_ok d').
Proof.
  unfold update. intros H Hok.
  destruct (invalid_paths _) eqn:E; [|discriminate H].
  destruct (invalid_paths_nil _ E) as (Nn & Nm & Na & dd & a & p & Hd & Nd
                                        & Ha & Hp).
  cbn [f_name f_mobile f_dob f_age f_action f_processedAt] in *.
  rewrite Hd, Ha, Hp in H.
  destruct (is_modified _ _ _ _ _ _); injection H as <- <-; [right|now left].
  destruct Hok as (_ & _ & Hm1 & Hm2 & _).
  repeat split; cbn [name mobile dob action]; try assumption;
    apply trim_idempotent.
Qed.

Lemma remove_first_length (p : Doc -> bool) (l : list Doc) (d : Doc) :
  find p l = Some d -> S (List.length (remove_first p l)) = List.length l.
Proof.
  induction l as [|x l IH]; simpl; [discriminate|].
  destruct (p x); [reflexivity|].
  intros H. rewrite <- (IH H). reflexivity.
Qed.

Lemma replace_length (d' : Doc) (l : list Doc) :
  List.length (replace d' l) = List.length l.
Proof. unfold replace. apply length_map. Qed.

Lemma update_shape (now : Z) (c : Collection) (d : Doc) (f : Fields)
    (d' : Doc) (c' : Collection) :
  update now c d f = Normal (d', c') ->
  List.length (docs c') = List.length (docs c) /\ next_id c' = next_id c.
Proof.
  unfold update. intros H.
  destruct (invalid_paths _); [|discriminate H].
  destruct (cast_string (f_dob f)); [|discriminate H].
  destruct (f_age f); [discriminate H|].
  destruct (f_processedAt f); [|discriminate H].
  destruct (is_modified _ _ _ _ _ _); injection H as <- <-;
    cbn [docs next_id]; rewrite ?replace_length; split; reflexivity.
Qed.

(** X1.  What each operation of the receiver service can do to the
    collection: an insert answers 201 and appends the one document it
    returns, or answers 400 or 500 and changes nothing; an upsert answers
    201 and appends one document, or answers 200 and keeps the number of
    documents and the next identifier, or answers 400 or 500 and changes
    nothing; a delete answers 200 and leaves one document fewer, or
    answers 400, 404 or 500 and changes nothing. *)
Theorem operations_and_the_collection (h : Host) (now : Z) (c : Collection)
    (body : obj) :
  (let r := Receiver.post_db h now c body in
   (Receiver.status (fst r) = 201
    /\ exists d, Receiver.data (fst r) = Some d
                 /\ snd r = {| docs := docs c ++ [d];
                               next_id := S (next_id c) |})
   \/ ((Receiver.status (fst r) = 400 \/ Receiver.status (fst r) = 500)
       /\ snd r = c))
  /\ (let r := Receiver.put_db h now c body in
      (Receiver.status (fst r) = 201
       /\ exists d, Receiver.data (fst r) = Some d
                    /\ snd r = {| docs := docs c ++ [d];
                                  next_id := S (next_id c) |})
      \/ (Receiver.status (fst r) = 200
          /\ List.length (docs (snd r)) = List.length (docs c)
          /\ next_id (snd r) = next_id c)
      \/ ((Receiver.status (fst r) = 400 \/ Receiver.status (fst r) = 500)
          /\ snd r = c))
  /\ (let r := Receiver.delete_db c body in
      (Receiver.status (fst r) = 200
       /\ S (List.length (docs (snd r))) = List.length (docs c)
       /\ next_id (snd r) = next_id c)
      \/ ((Receiver.status (fst r) = 400 \/ Receiver.status (fst r) = 404
           \/ Receiver.status (fst r) = 500)
          /\ snd r = c)).
Proof.
  split; [|split]; cbv zeta.
  - unfold Receiver.post_db.
    destruct (Receiver.missing_fields body); [right; split; [now left|reflexivity]|].
    destruct (Receiver.form_fields h now body) as [f|e]; cbn [bind];
      [|right; split; [now right|reflexivity]].
    destruct (create now c f) as [[d c']|e] eqn:E;
      [|right; split; [now right|reflexivity]].
    left. split; [reflexivity|]. exists d. split; [reflexivity|].
    apply (create_inv now c f d c' E).
  - unfold Receiver.put_db.
    destruct (Receiver.missing_fields body);
      [right; right; split; [now left|reflexivity]|].
    destruct (call_trim "mobile" (get "mobile" body)) as [m|e]; cbn [bind];
      [|right; right; split; [now right|reflexivity]].
    destruct (findOne c m) as [existing|].
    + destruct (Receiver.update_fields h now body) as [f|e]; cbn [bind];
        [|right; right; split; [now right|reflexivity]].
      destruct (update now c existing f) as [[d' c']|e] eqn:E; cbn [bind];
        [|right; right; split; [now right|reflexivity]].
      right; left. split; [reflexivity|].
      apply (update_shape now c existing f d' c' E).
    + destruct (Receiver.form_fields h now body) as [f|e]; cbn [bind];
        [|right; right; split; [now right|reflexivity]].
      destruct (create now c f) as [[d c']|e] eqn:E; cbn [bind];
        [|right; right; split; [now right|reflexivity]].
      left. split; [reflexivity|]. exists d. split; [reflexivity|].
      apply (create_inv now c f d c' E).
  - unfold Receiver.delete_db.
    destruct (negb (truthy (get "mobile" body)));
      [right; split; [now left|reflexivity]|].
    destruct (call_trim "mobile" (get "mobile" body)) as [m|e];
      [|right; split; [now right; right|reflexivity]].
    unfold findOneAndDelete.
    destruct (findOne c m) as [d|] eqn:E;
      [|right; split; [now right; left|reflexivity]].
    left. split; [reflexivity|]. cbn [fst snd docs next_id].
    split; [|reflexivity]. apply (remove_first_length _ _ d). exact E.
Qed.

(** *** Finding, removing and replacing in a list of documents *)

Lemma find_split (p : Doc -> bool) (l : list Doc) (d : Doc) :
  find p l = Some d ->
  exists l1 l2 : list Doc,
    l = (l1 ++ d :: l2)%list /\ Forall (fun x => p x = false) l1 /\ p d = true
    /\ remove_first p l = (l1 ++ l2)%list.
Proof.
  induction l as [|x l IH]; simpl; [discriminate|].
  destruct (p x) eqn:Px.
  - intros H. injection H as ->. exists [], l. repeat split; auto.
  - intros H. destruct (IH H) as (l1 & l2 & -> & Hl1 & Pd & Hr).
    exists (x :: l1), l2. repeat split; auto.
    simpl. rewrite Hr. reflexivity.
Qed.

Lemma find_app_none (p : Doc -> bool) (l l' : list Doc) :
  find p l = None -> find p (l ++ l')%list = find p l'.
Proof.
  induction l as [|x l IH]; simpl; [reflexivity|].
  destruct (p x); [discriminate | exact IH].
Qed.

Lemma find_app_some (p : Doc -> bool) (l l' : list Doc) (d : Doc) :
  find p l = Some d -> find p (l ++ l')%list = Some d.
Proof.
  induction l as [|x l IH]; simpl; [discriminate|].
  destruct (p x); [trivial | exact IH].
Qed.

Lemma remove_first_app_none (p : Doc -> bool) (l l' : list Doc) :
  find p l = None ->
  remove_first p (l ++ l')%list = (l ++ remove_first p l')%list.
Proof.
  induction l as [|x l IH]; simpl; [reflexivity|].
  destruct (p x); [discriminate|]. intros H. rewrite (IH H). reflexivity.
Qed.

Lemma In_remove_first (p : Doc -> bool) (l : list Doc) (x : Doc) :
  In x (remove_first p l) -> In x l.
Proof.
  induction l as [|y l IH]; simpl; [trivial|].
  destruct (p y); [now right|].
  intros [-> | H]; [now left | right; exact (IH H)].
Qed.

Lemma replace_ids (d' : Doc) (l : list Doc) :
  map _id (replace d' l) = map _id l.
Proof.
  unfold replace. induction l as [|x l IH]; simpl; [reflexivity|].
  rewrite IH. destruct (Nat.eqb_spec (_id x) (_id d')) as [E|]; congruence.
Qed.

Lemma Forall_replace (P : Doc -> Prop) (d' : Doc) (l : list Doc) :
  Forall P l -> P d' -> Forall P (replace d' l).
Proof.
  intros Hl Hd. unfold replace. induction Hl; simpl; constructor; auto.
  destruct (Nat.eqb (_id x) (_id d')); assumption.
Qed.

(** With pairwise different identifiers, [replace] touches one place. *)
Lemma replace_one (d d' : Doc) (l1 l2 : list Doc) :
  NoDup (map _id (l1 ++ d :: l2)%list) -> _id d' = _id d ->
  replace d' (l1 ++ d :: l2)%list = (l1 ++ d' :: l2)%list.
Proof.
  intros Hnd E. unfold replace. rewrite map_app. cbn [map].
  rewrite E, Nat.eqb_refl.
  rewrite map_app in Hnd. cbn [map] in Hnd.
  apply NoDup_remove_2 in Hnd.
  assert (Hid : forall l, ~ In (_id d) (map _id l) ->
                map (fun d0 => if Nat.eqb (_id d0) (_id d) then d' else d0) l
                = l).
  { induction l as [|x l IH]; simpl; [reflexivity|].
    intros Hn. destruct (Nat.eqb_spec (_id x) (_id d)) as [Ex|Nx].
    - exfalso. apply Hn. left. exact Ex.
    - rewrite IH; [reflexivity|]. intros Hin. apply Hn. right. exact Hin. }
  rewrite !Hid; [reflexivity | |];
    intros Hin; apply Hnd; apply in_or_app; [right | left]; exact Hin.
Qed.

(** *** The upsert on a well-formed record, by branch *)

Lemma put_db_existing (h : Host) (now : Z) (c : Collection) (body : obj)
    (n m dd a : string) (ag p : Z) (d : Doc) :
  is_record h now body n m dd a ag p ->
  findOne c (trim m) = Some d ->
  Receiver.put_db h now c body =
    if is_modified d (trim n) dd ag (trim a) p
    then (Receiver.answer_doc 200 "Data updated in MongoDB successfully"
            "UPDATE" (overwritten d n dd a ag p now),
          {| docs := replace (overwritten d n dd a ag p now) (docs c);
             next_id := next_id c |})
    else (Receiver.answer_doc 200 "Data updated in MongoDB successfully"
            "UPDATE" d, c).
Proof.
  intros R Hfind.
  pose proof (findOne_mobile c (trim m) d Hfind) as Hmob.
  destruct (record_fields h now body n m dd a ag p R) as (Hmiss & _ & Hu).
  destruct R as (_ & Hm & _ & _ & _ & _ & Nn & Nm & Nd & Na & _).
  unfold Receiver.put_db.
  rewrite Hmiss, Hm. cbn [call_trim call_string_method bind].
  rewrite Hfind, Hu. cbn [bind]. unfold update.
  cbn [f_name f_mobile f_dob f_age f_action f_processedAt cast_string
       ToString].
  replace (invalid_paths _) with (invalid_paths (coerced n m dd a ag p)).
  - rewrite (coerced_valid n m dd a ag p Nn Nm Nd Na).
    rewrite !trim_idempotent.
    destruct (is_modified d (trim n) dd ag (trim a) p); reflexivity.
  - unfold invalid_paths, coerced.
    cbn [f_name f_mobile f_dob f_age f_action f_processedAt].
    rewrite Hmob. reflexivity.
Qed.

Lemma post_db_record (h : Host) (now : Z) (c : Collection) (body : obj)
    (n m dd a : string) (ag p : Z) :
  is_record h now body n m dd a ag p ->
  Receiver.post_db h now c body =
    (Receiver.answer_doc 201 "Data created in MongoDB successfully" "CREATE"
       (inserted now c n m dd a ag p),
     {| docs := docs c ++ [inserted now c n m dd a ag p];
        next_id := S (next_id c) |}).
Proof.
  intros R.
  destruct (record_fields h now body n m dd a ag p R) as (Hmiss & Hf & _).
  destruct R as (_ & _ & _ & _ & _ & _ & Nn & Nm & Nd & Na & _).
  unfold Receiver.post_db. rewrite Hmiss, Hf. cbn [bind].
  rewrite (create_coerced now c n m dd a ag p Nn Nm Nd Na). reflexivity.
Qed.

Lemma delete_db_existing (c : Collection) (body : obj) (m : string) (d : Doc) :
  get "mobile" body = VStr m ->
  m <> EmptyString ->
  findOne c (trim m) = Some d ->
  Receiver.delete_db c body =
    (Receiver.answer_doc 200 "Data deleted from MongoDB successfully"
       "DELETE" d,
     {| docs := remove_first (fun x => String.eqb (mobile x) (trim m))
                  (docs c);
        next_id := next_id c |}).
Proof.
  intros Hm Hne Hfind. unfold Receiver.delete_db.
  rewrite Hm, truthy_VStr, (eqb_empty_false m Hne).
  cbn [negb call_trim call_string_method].
  unfold findOneAndDelete. rewrite Hfind. reflexivity.
Qed.

(** *** Deleting *)

(** X2.  A delete whose trimmed mobile is carried by some document removes
    the first such document in the collection's order, and only that one:
    the documents before it (none of which has that mobile) and the
    documents after it stay, in order, and the answer is 200 with the
    removed document. *)
Theorem delete_removes_first_match (c : Collection) (body : obj)
    (m : string) (d : Doc) :
  get "mobile" body = VStr m ->
  m <> EmptyString ->
  findOne c (trim m) = Some d ->
  exists l1 l2 : list Doc,
    docs c = (l1 ++ d :: l2)%list
    /\ Forall (fun x => mobile x <> trim m) l1
    /\ mobile d = trim m
    /\ Receiver.delete_db c body =
         (Receiver.answer_doc 200 "Data deleted from MongoDB successfully"
            "DELETE" d,
          {| docs := (l1 ++ l2)%list; next_id := next_id c |}).
Proof.
  intros Hm Hne Hfind.
  rewrite (delete_db_existing c body m d Hm Hne Hfind).
  unfold findOne in Hfind.
  destruct (find_split _ _ _ Hfind) as (l1 & l2 & E & Hl1 & Pd & Hr).
  exists l1, l2. rewrite Hr. repeat split.
  - exact E.
  - eapply Forall_impl; [|exact Hl1]. cbv beta. intros x Hx Ex.
    rewrite Ex, String.eqb_refl in Hx. discriminate Hx.
  - apply String.eqb_eq. exact Pd.
Qed.

(** *** Insert and what follows it *)

Lemma findOne_after_append (c : Collection) (d : Doc) (k : nat) :
  findOne {| docs := docs c ++ [d]; next_id := k |} (mobile d) =
    Some match findOne c (mobile d) with
         | Some x => x
         | None => d
         end.
Proof.
  unfold findOne. cbn [docs].
  destruct (find _ (docs c)) as [x|] eqn:E.
  - apply find_app_some. exact E.
  - rewrite (find_app_none _ _ _ E). cbn [find].
    rewrite String.eqb_refl. reflexivity.
Qed.

(** X3.  After the insert of a well-formed record, a lookup by its trimmed
    mobile succeeds: it gives the document that already carried that
    mobile if there was one (the oldest in collection order), and the
    inserted document otherwise. *)
Theorem insert_then_find (h : Host) (now : Z) (c : Collection) (body : obj)
    (n m dd a : string) (ag p : Z) :
  is_record h now body n m dd a ag p ->
  findOne (snd (Receiver.post_db h now c body)) (trim m) =
    Some match findOne c (trim m) with
         | Some d => d
         | None => inserted now c n m dd a ag p
         end.
Proof.
  intros R. rewrite (post_db_record h now c body n m dd a ag p R).
  cbn [snd].
  exact (findOne_after_append c (inserted now c n m dd a ag p) _).
Qed.

(** X4.  Insert, then delete: when no document carries the mobile, the
    insert of a well-formed record followed by a delete with a mobile that
    trims to the same string answers 200 with the inserted document and
    leaves the documents that were there before; only the next identifier
    has moved on. *)
Theorem insert_then_delete (h : Host) (now : Z) (c : Collection)
    (body body' : obj) (n m dd a m' : string) (ag p : Z) :
  is_record h now body n m dd a ag p ->
  findOne c (trim m) = None ->
  get "mobile" body' = VStr m' ->
  trim m' = trim m ->
  Receiver.delete_db (snd (Receiver.post_db h now c body)) body' =
    (Receiver.answer_doc 200 "Data deleted from MongoDB successfully"
       "DELETE" (inserted now c n m dd a ag p),
     {| docs := docs c; next_id := S (next_id c) |}).
Proof.
  intros R Hnone Hm' Ht.
  assert (Hne : m' <> EmptyString).
  { intros ->. destruct R as (_ & _ & _ & _ & _ & _ & _ & Nm & _).
    apply Nm. rewrite <- Ht. reflexivity. }
  pose proof (insert_found := post_db_record h now c body n m dd a ag p R).
  rewrite insert_found. cbn [snd].
  rewrite (delete_db_existing _ body' m' (inserted now c n m dd a ag p)
             Hm' Hne).
  - cbn [docs next_id]. rewrite Ht.
    rewrite (remove_first_app_none _ _ _ Hnone).
    cbn [remove_first inserted mobile]. rewrite String.eqb_refl.
    rewrite app_nil_r. reflexivity.
  - rewrite Ht. unfold findOne. cbn [docs].
    rewrite (find_app_none _ _ _ Hnone). cbn [find inserted mobile].
    rewrite String.eqb_refl. reflexivity.
Qed.

(** X5.  The insert does not look at what is stored: a well-formed record
    is inserted with 201 whether or not its mobile is already there, so
    the number of documents carrying that mobile goes up by one each
    time. *)
Theorem insert_allows_duplicates (h : Host) (now : Z) (c : Collection)
    (body : obj) (n m dd a : string) (ag p : Z) :
  is_record h now body n m dd a ag p ->
  Receiver.status (fst (Receiver.post_db h now c body)) = 201
  /\ count_mobile (snd (Receiver.post_db h now c body)) (trim m)
     = S (count_mobile c (trim m)).
Proof.
  intros R. rewrite (post_db_record h now c body n m dd a ag p R).
  split; [reflexivity|]. unfold count_mobile. cbn [snd docs].
  rewrite filter_app, length_app. cbn [filter inserted mobile].
  rewrite String.eqb_refl. cbn [List.length]. lia.
Qed.

(** X6.  Insert, then upsert: once a well-formed record is inserted, an
    upsert of a well-formed record whose mobile trims to the same string
    takes the update branch: it answers 200, never 201, and the number of
    documents stays what the insert left. *)
Theorem upsert_after_insert_updates (h : Host) (t1 t2 : Z) (c : Collection)
    (body1 body2 : obj) (n1 m1 dd1 a1 n2 m2 dd2 a2 : string)
    (ag1 p1 ag2 p2 : Z) :
  is_record h t1 body1 n1 m1 dd1 a1 ag1 p1 ->
  is_record h t2 body2 n2 m2 dd2 a2 ag2 p2 ->
  trim m2 = trim m1 ->
  Receiver.status
    (fst (Receiver.put_db h t2 (snd (Receiver.post_db h t1 c body1)) body2))
  = 200
  /\ List.length
       (docs (snd (Receiver.put_db h t2
                     (snd (Receiver.post_db h t1 c body1)) body2)))
     = S (List.length (docs c)).
Proof.
  intros R1 R2 Ht.
  pose proof (insert_then := post_db_record h t1 c body1 n1 m1 dd1 a1 ag1 p1
                               R1).
  assert (Hfind : exists d,
             findOne (snd (Receiver.post_db h t1 c body1)) (trim m2)
             = Some d).
  { rewrite insert_then, Ht. cbn [snd]. eexists.
    exact (findOne_after_append c (inserted t1 c n1 m1 dd1 a1 ag1 p1) _). }
  destruct Hfind as (d & Hfind).
  rewrite (put_db_existing h t2 _ body2 n2 m2 dd2 a2 ag2 p2 d R2 Hfind).
  rewrite insert_then. cbn [snd].
  destruct (is_modified _ _ _ _ _ _); cbn [fst snd docs Receiver.status
                                           Receiver.answer_doc];
    rewrite ?replace_length, length_app; cbn [List.length];
    split; try reflexivity; lia.
Qed.

(** *** Upsert, document by document *)

(** X7.  In a collection whose identifiers are pairwise different, an
    upsert of a well-formed record that finds a document and changes one
    of its fields rewrites that document in place: the documents before
    and after it are what they were, in the same order. *)
Theorem upsert_changes_one_document (h : Host) (now : Z) (c : Collection)
    (body : obj) (n m dd a : string) (ag p : Z) (d : Doc) :
  NoDup (map _id (docs c)) ->
  is_record h now body n m dd a ag p ->
  findOne c (trim m) = Some d ->
  is_modified d (trim n) dd ag (trim a) p = true ->
  exists l1 l2 : list Doc,
    docs c = (l1 ++ d :: l2)%list
    /\ Forall (fun x => mobile x <> trim m) l1
    /\ docs (snd (Receiver.put_db h now c body))
       = (l1 ++ overwritten d n dd a ag p now :: l2)%list.
Proof.
  intros Hnd R Hfind Hmod.
  rewrite (put_db_existing h now c body n m dd a ag p d R Hfind), Hmod.
  cbn [snd docs]. unfold findOne in Hfind.
  destruct (find_split _ _ _ Hfind) as (l1 & l2 & E & Hl1 & _ & _).
  exists l1, l2. rewrite E in Hnd |- *. repeat split.
  - eapply Forall_impl; [|exact Hl1]. cbv beta. intros x Hx Ex.
    rewrite Ex, String.eqb_refl in Hx. discriminate Hx.
  - apply replace_one; [exact Hnd | reflexivity].
Qed.

(** *** An invariant of the collection *)

Lemma collection_ok_append (c : Collection) (d : Doc) :
  collection_ok c -> _id d = next_id c -> doc_ok d ->
  collection_ok {| docs := docs c ++ [d]; next_id := S (next_id c) |}.
Proof.
  intros (Hnd & Hlt & Hok) Hid Hd. unfold collection_ok. cbn [docs next_id].
  split; [|split].
  - rewrite map_app. cbn [map].
    apply NoDup_app_remove_l with (l := []). cbn [app].
    apply Permutation_NoDup with (l := _id d :: map _id (docs c)).
    + apply Permutation_cons_append.
    + constructor; [|exact Hnd]. rewrite Hid. intros Hin.
      apply in_map_iff in Hin. destruct Hin as (x & Ex & Hx).
      rewrite Forall_forall in Hlt. specialize (Hlt x Hx). lia.
  - apply Forall_app. split.
    + eapply Forall_impl; [|exact Hlt]. cbv beta. intros x Hx. lia.
    + constructor; [lia | constructor].
  - apply Forall_app. split; [exact Hok | constructor; [exact Hd | constructor]].
Qed.

(** X8.  The three writing operations keep the collection in order: if
    the identifiers are pairwise different and below the next one to give
    out, and every document has a trimmed, non-empty name, mobile and
    action and a non-empty date of birth, the same holds of the collection
    each operation leaves, whatever the request. *)
Theorem operations_keep_collection_ok (h : Host) (now : Z) (c : Collection)
    (body : obj) :
  collection_ok c ->
  collection_ok (snd (Receiver.post_db h now c body))
  /\ collection_ok (snd (Receiver.put_db h now c body))
  /\ collection_ok (snd (Receiver.delete_db c body)).
Proof.
  intros Hc. split; [|split].
  - unfold Receiver.post_db.
    destruct (Receiver.missing_fields body); [exact Hc|].
    destruct (Receiver.form_fields h now body) as [f|e]; cbn [bind];
      [|exact Hc].
    destruct (create now c f) as [[d c']|e] eqn:E; [|exact Hc].
    destruct (create_inv now c f d c' E) as (-> & Hid & Hd & _).
    cbn [snd]. apply collection_ok_append; assumption.
  - unfold Receiver.put_db.
    destruct (Receiver.missing_fields body); [exact Hc|].
    destruct (call_trim "mobile" (get "mobile" body)) as [m|e]; cbn [bind];
      [|exact Hc].
    destruct (findOne c m) as [existing|] eqn:Hfind.
    + destruct (Receiver.update_fields h now body) as [f|e]; cbn [bind];
        [|exact Hc].
      destruct (update now c existing f) as [[d' c']|e] eqn:E; cbn [bind];
        [|exact Hc].
      cbn [snd]. destruct Hc as (Hnd & Hlt & Hok).
      unfold findOne in Hfind. apply find_some in Hfind.
      destruct Hfind as [Hin _].
      assert (Hex : doc_ok existing)
        by (rewrite Forall_forall in Hok; exact (Hok _ Hin)).
      destruct (update_inv now c existing f d' c' E Hex)
        as [[_ ->] | (-> & Hid & _ & Hd')]; [repeat split; assumption|].
      unfold collection_ok. cbn [docs next_id]. split; [|split].
      * rewrite replace_ids. exact Hnd.
      * apply Forall_replace; [exact Hlt|]. rewrite Hid.
        rewrite Forall_forall in Hlt. exact (Hlt _ Hin).
      * apply Forall_replace; assumption.
    + destruct (Receiver.form_fields h now body) as [f|e]; cbn [bind];
        [|exact Hc].
      destruct (create now c f) as [[d c']|e] eqn:E; cbn [bind];
        [|exact Hc].
      destruct (create_inv now c f d c' E) as (-> & Hid & Hd & _).
      cbn [snd]. apply collection_ok_append; assumption.
  - unfold Receiver.delete_db.
    destruct (negb (truthy (get "mobile" body))); [exact Hc|].
    destruct (call_trim "mobile" (get "mobile" body)) as [m|e]; [|exact Hc].
    unfold findOneAndDelete.
    destruct (findOne c m) as [d|] eqn:E; [|exact Hc].
    cbn [snd]. unfold findOne in E.
    destruct (find_split _ _ _ E) as (l1 & l2 & El & _ & _ & Hr).
    destruct Hc as (Hnd & Hlt & Hok).
    unfold collection_ok. cbn [docs next_id]. rewrite Hr.
    rewrite El in Hnd, Hlt, Hok. split; [|split].
    + rewrite map_app in *. cbn [map] in Hnd.
      apply NoDup_remove_1 in Hnd. exact Hnd.
    + apply Forall_app in Hlt. destruct Hlt as [H1 H2].
      apply Forall_app. split; [exact H1 | inversion H2; assumption].
    + apply Forall_app in Hok. destruct Hok as [H1 H2].
      apply Forall_app. split; [exact H1 | inversion H2; assumption].
Qed.

(** *** The properties above on sample data *)

Lemma asha_is_record :
  is_record host_utc Samples.noon_2024_06_14 Samples.asha_record
    "Asha Rao" "9876543210" "1995-01-01" "create" 29 1718280000000.
Proof. repeat split; discriminate. Defined.

Lemma asha_renamed_is_record :
  is_record host_utc Samples.noon_2024_06_14 Samples.asha_renamed
    "Asha R Rao" " 9876543210" "1995-01-01" "update" 29
    Samples.noon_2024_06_14.
Proof. repeat split; discriminate. Defined.

Lemma delete_removes_first_match_witness :
  get "mobile" MoreSamples.delete_ravi = VStr "9123456780 "
  /\ "9123456780 " <> EmptyString
  /\ findOne MoreSamples.two_docs (trim "9123456780 ")
     = Some MoreSamples.ravi_doc
  /\ exists l1 l2 : list Doc,
       docs MoreSamples.two_docs = (l1 ++ MoreSamples.ravi_doc :: l2)%list
       /\ Forall (fun x => mobile x <> trim "9123456780 ") l1
       /\ mobile MoreSamples.ravi_doc = trim "9123456780 "
       /\ Receiver.delete_db MoreSamples.two_docs MoreSamples.delete_ravi =
            (Receiver.answer_doc 200
               "Data deleted from MongoDB successfully" "DELETE"
               MoreSamples.ravi_doc,
             {| docs := (l1 ++ l2)%list;
                next_id := next_id MoreSamples.two_docs |}).
Proof.
  split; [reflexivity|]. split; [discriminate|]. split; [reflexivity|].
  apply (delete_removes_first_match MoreSamples.two_docs
           MoreSamples.delete_ravi "9123456780 " MoreSamples.ravi_doc);
    [reflexivity | discriminate | reflexivity].
Defined.

Lemma insert_then_find_witness :
  is_record host_utc Samples.noon_2024_06_14 Samples.asha_record
    "Asha Rao" "9876543210" "1995-01-01" "create" 29 1718280000000
  /\ findOne
       (snd (Receiver.post_db host_utc Samples.noon_2024_06_14
               MoreSamples.two_docs Samples.asha_record))
       (trim "9876543210") =
     Some match findOne MoreSamples.two_docs (trim "9876543210") with
          | Some d => d
          | None =>
              inserted Samples.noon_2024_06_14 MoreSamples.two_docs
                "Asha Rao" "9876543210" "1995-01-01" "create" 29
                1718280000000
          end.
Proof.
  split; [exact asha_is_record|].
  apply (insert_then_find host_utc Samples.noon_2024_06_14
           MoreSamples.two_docs Samples.asha_record "Asha Rao" "9876543210"
           "1995-01-01" "create" 29 1718280000000 asha_is_record).
Defined.

Lemma insert_then_delete_witness :
  is_record host_utc Samples.noon_2024_06_14 Samples.asha_record
    "Asha Rao" "9876543210" "1995-01-01" "create" 29 1718280000000
  /\ findOne Samples.empty_collection (trim "9876543210") = None
  /\ get "mobile" MoreSamples.delete_asha = VStr " 9876543210"
  /\ trim " 9876543210" = trim "9876543210"
  /\ Receiver.delete_db
       (snd (Receiver.post_db host_utc Samples.noon_2024_06_14
               Samples.empty_collection Samples.asha_record))
       MoreSamples.delete_asha =
     (Receiver.answer_doc 200 "Data deleted from MongoDB successfully"
        "DELETE"
        (inserted Samples.noon_2024_06_14 Samples.empty_collection
           "Asha Rao" "9876543210" "1995-01-01" "create" 29 1718280000000),
      {| docs := docs Samples.empty_collection;
         next_id := S (next_id Samples.empty_collection) |}).
Proof.
  split; [exact asha_is_record|]. do 3 (split; [reflexivity|]).
  apply (insert_then_delete host_utc Samples.noon_2024_06_14
           Samples.empty_collection Samples.asha_record
           MoreSamples.delete_asha "Asha Rao" "9876543210" "1995-01-01"
           "create" " 9876543210" 29 1718280000000 asha_is_record);
    reflexivity.
Defined.

Lemma insert_allows_duplicates_witness :
  is_record host_utc Samples.noon_2024_06_14 Samples.asha_record
    "Asha Rao" "9876543210" "1995-01-01" "create" 29 1718280000000
  /\ Receiver.status
       (fst (Receiver.post_db host_utc Samples.noon_2024_06_14
               Samples.asha_collection Samples.asha_record)) = 201
  /\ count_mobile
       (snd (Receiver.post_db host_utc Samples.noon_2024_06_14
               Samples.asha_collection Samples.asha_record))
       (trim "9876543210")
     = S (count_mobile Samples.asha_collection (trim "9876543210")).
Proof.
  split; [exact asha_is_record|].
  apply (insert_allows_duplicates host_utc Samples.noon_2024_06_14
           Samples.asha_collection Samples.asha_record "Asha Rao"
           "9876543210" "1995-01-01" "create" 29 1718280000000
           asha_is_record).
Defined.

Lemma upsert_after_insert_updates_witness :
  is_record host_utc Samples.noon_2024_06_14 Samples.asha_record
    "Asha Rao" "9876543210" "1995-01-01" "create" 29 1718280000000
  /\ is_record host_utc Samples.noon_2024_06_14 Samples.asha_renamed
       "Asha R Rao" " 9876543210" "1995-01-01" "update" 29
       Samples.noon_2024_06_14
  /\ trim " 9876543210" = trim "9876543210"
  /\ Receiver.status
       (fst (Receiver.put_db host_utc Samples.noon_2024_06_14
               (snd (Receiver.post_db host_utc Samples.noon_2024_06_14
                       Samples.empty_collection Samples.asha_record))
               Samples.asha_renamed)) = 200
  /\ List.length
       (docs (snd (Receiver.put_db host_utc Samples.noon_2024_06_14
                     (snd (Receiver.post_db host_utc Samples.noon_2024_06_14
                             Samples.empty_collection Samples.asha_record))
                     Samples.asha_renamed)))
     = S (List.length (docs Samples.empty_collection)).
Proof.
  split; [exact asha_is_record|]. split; [exact asha_renamed_is_record|].
  split; [reflexivity|].
  apply (upsert_after_insert_updates host_utc Samples.noon_2024_06_14
           Samples.noon_2024_06_14 Samples.empty_collection
           Samples.asha_record Samples.asha_renamed "Asha Rao" "9876543210"
           "1995-01-01" "create" "Asha R Rao" " 9876543210" "1995-01-01"
           "update" 29 1718280000000 29 Samples.noon_2024_06_14
           asha_is_record asha_renamed_is_record eq_refl).
Defined.

Lemma two_docs_ok : collection_ok MoreSamples.two_docs.
Proof.
  unfold collection_ok. cbn. split; [|split].
  - repeat constructor; cbn; intuition discriminate.
  - repeat constructor.
  - repeat constructor; discriminate.
Defined.

Lemma upsert_changes_one_document_witness :
  NoDup (map _id (docs MoreSamples.two_docs))
  /\ is_record host_utc Samples.noon_2024_06_14 Samples.asha_renamed
       "Asha R Rao" " 9876543210" "1995-01-01" "update" 29
       Samples.noon_2024_06_14
  /\ findOne MoreSamples.two_docs (trim " 9876543210")
     = Some Samples.asha_doc
  /\ is_modified Samples.asha_doc (trim "Asha R Rao") "1995-01-01" 29
       (trim "update") Samples.noon_2024_06_14 = true
  /\ exists l1 l2 : list Doc,
       docs MoreSamples.two_docs = (l1 ++ Samples.asha_doc :: l2)%list
       /\ Forall (fun x => mobile x <> trim " 9876543210") l1
       /\ docs (snd (Receiver.put_db host_utc Samples.noon_2024_06_14
                       MoreSamples.two_docs Samples.asha_renamed))
          = (l1
             ++ overwritten Samples.asha_doc "Asha R Rao" "1995-01-01"
                  "update" 29 Samples.noon_2024_06_14
                  Samples.noon_2024_06_14 :: l2)%list.
Proof.
  split; [exact (proj1 two_docs_ok)|].
  split; [exact asha_renamed_is_record|]. do 2 (split; [reflexivity|]).
  apply (upsert_changes_one_document host_utc Samples.noon_2024_06_14
           MoreSamples.two_docs Samples.asha_renamed "Asha R Rao"
           " 9876543210" "1995-01-01" "update" 29 Samples.noon_2024_06_14
           Samples.asha_doc (proj1 two_docs_ok) asha_renamed_is_record
           eq_refl eq_refl).
Defined.

Lemma operations_keep_collection_ok_witness :
  collection_ok MoreSamples.two_docs
  /\ collection_ok
       (snd (Receiver.post_db host_utc Samples.noon_2024_06_14
               MoreSamples.two_docs Samples.asha_record))
  /\ collection_ok
       (snd (Receiver.put_db host_utc Samples.noon_2024_06_14
               MoreSamples.two_docs Samples.asha_record))
  /\ collection_ok
       (snd (Receiver.delete_db MoreSamples.two_docs Samples.asha_record)).
Proof.
  split; [exact two_docs_ok|].
  apply (operations_keep_collection_ok host_utc Samples.noon_2024_06_14
           MoreSamples.two_docs Samples.asha_record two_docs_ok).
Defined.

(** *** Listing *)

Lemma insert_newest_perm (d : Doc) (l : list Doc) :
  Permutation (d :: l) (ReceiverList.insert_newest d l).
Proof.
  induction l as [|x l IH]; simpl; [reflexivity|].
  destruct (createdAt x <=? createdAt d); [reflexivity|].
  rewrite perm_swap. constructor. exact IH.
Qed.

Lemma insert_newest_sorted (d : Doc) (l : list Doc) :
  StronglySorted newer_or_same l ->
  StronglySorted newer_or_same (ReceiverList.insert_newest d l).
Proof.
  induction 1 as [|x l Hl IH Hx]; simpl.
  - repeat constructor.
  - destruct (Z.leb_spec (createdAt x) (createdAt d)) as [Hle|Hgt].
    + constructor; [constructor; assumption|].
      constructor; [exact Hle|].
      eapply Forall_impl; [|exact Hx]. unfold newer_or_same. cbv beta.
      intros y Hy. lia.
    + constructor; [exact IH|].
      apply (Permutation_Forall (insert_newest_perm d l)).
      constructor; [unfold newer_or_same; lia | exact Hx].
Qed.

Lemma find_sorted_perm (c : Collection) :
  Permutation (docs c) (ReceiverList.find_sorted c).
Proof.
  unfold ReceiverList.find_sorted.
  induction (docs c) as [|d l IH]; simpl; [constructor|].
  rewrite <- insert_newest_perm. constructor. exact IH.
Qed.

Lemma find_sorted_sorted (c : Collection) :
  StronglySorted newer_or_same (ReceiverList.find_sorted c).
Proof.
  unfold ReceiverList.find_sorted.
  induction (docs c) as [|d l IH]; simpl; [constructor|].
  apply insert_newest_sorted. exact IH.
Qed.

(** X9.  The list operation answers 200 with every document of the
    collection exactly once, ordered so that no document comes before one
    that was created later, and with a count that is the number of
    documents in the collection. *)
Theorem list_is_complete_and_newest_first (now : Z) (c : Collection) :
  ReceiverList.status (ReceiverList.getdata_db now c) = 200
  /\ ReceiverList.count (ReceiverList.getdata_db now c)
     = List.length (docs c)
  /\ Permutation (docs c) (ReceiverList.data (ReceiverList.getdata_db now c))
  /\ StronglySorted newer_or_same
       (ReceiverList.data (ReceiverList.getdata_db now c)).
Proof.
  unfold ReceiverList.getdata_db.
  cbn [ReceiverList.status ReceiverList.count ReceiverList.data].
  split; [reflexivity|]. split; [|split].
  - symmetry. apply Permutation_length. apply find_sorted_perm.
  - apply find_sorted_perm.
  - apply find_sorted_sorted.
Qed.

Lemma sorted_append_newest (l : list Doc) (d : Doc) :
  Forall (fun x => createdAt x < createdAt d) l ->
  fold_right ReceiverList.insert_newest [] (l ++ [d])
  = d :: fold_right ReceiverList.insert_newest [] l.
Proof.
  induction 1 as [|x l Hx Hl IH]; simpl; [reflexivity|].
  rewrite IH. simpl.
  destruct (Z.leb_spec (createdAt d) (createdAt x)); [lia | reflexivity].
Qed.

(** X10.  Insert, then list: when the clock of the insert is past the
    creation time of every stored document, the document inserted for a
    well-formed record is the first of the list that follows, ahead of the
    list as it was before. *)
Theorem inserted_document_heads_the_list (h : Host) (now now' : Z)
    (c : Collection) (body : obj) (n m dd a : string) (ag p : Z) :
  is_record h now body n m dd a ag p ->
  Forall (fun x => createdAt x < now) (docs c) ->
  ReceiverList.data
    (ReceiverList.getdata_db now' (snd (Receiver.post_db h now c body)))
  = inserted now c n m dd a ag p
    :: ReceiverList.data (ReceiverList.getdata_db now' c).
Proof.
  intros R Hc. rewrite (post_db_record h now c body n m dd a ag p R).
  unfold ReceiverList.getdata_db, ReceiverList.find_sorted.
  cbn [snd docs ReceiverList.data].
  apply sorted_append_newest. exact Hc.
Qed.

Lemma inserted_document_heads_the_list_witness :
  is_record host_utc Samples.noon_2024_06_14 Samples.asha_record
    "Asha Rao" "9876543210" "1995-01-01" "create" 29 1718280000000
  /\ Forall (fun x => createdAt x < Samples.noon_2024_06_14)
       (docs MoreSamples.two_docs)
  /\ ReceiverList.data
       (ReceiverList.getdata_db Samples.noon_2024_06_14
          (snd (Receiver.post_db host_utc Samples.noon_2024_06_14
                  MoreSamples.two_docs Samples.asha_record)))
     = inserted Samples.noon_2024_06_14 MoreSamples.two_docs "Asha Rao"
         "9876543210" "1995-01-01" "create" 29 1718280000000
       :: ReceiverList.data
            (ReceiverList.getdata_db Samples.noon_2024_06_14
               MoreSamples.two_docs).
Proof.
  split; [exact asha_is_record|].
  assert (H : Forall (fun x => createdAt x < Samples.noon_2024_06_14)
                (docs MoreSamples.two_docs))
    by (repeat constructor).
  split; [exact H|].
  apply (inserted_document_heads_the_list host_utc Samples.noon_2024_06_14
           Samples.noon_2024_06_14 MoreSamples.two_docs Samples.asha_record
           "Asha Rao" "9876543210" "1995-01-01" "create" 29 1718280000000
           asha_is_record H).
Defined.

(** X11.  Reading back through the main app: one request goes to the list
    operation of the receiver service, with the ten second limit; an
    answer with a 2xx status is passed on unchanged under 200, anything
    else gives 502 without data.  Served by the receiver service, the
    answer is always 200 and carries the receiver's list, whose count is
    the number of documents. *)
Theorem getdata_passes_the_list_on (now now' : Z) (c : Collection)
    (net : MainAppGet.request -> MainAppGet.downstream) :
  (exists req,
     snd (MainAppGet.getdata now net) = [req]
     /\ MainAppGet.get_url req = "http://localhost:5000/api/getdata/db"
     /\ MainAppGet.get_timeout req = 10000
     /\ ((MainAppGet.status (fst (MainAppGet.getdata now net)) = 200
          /\ exists st r, net req = MainAppGet.Answered st r
                          /\ 200 <= st < 300
                          /\ MainAppGet.data (fst (MainAppGet.getdata now net))
                             = Some r)
         \/ (MainAppGet.status (fst (MainAppGet.getdata now net)) = 502
             /\ MainAppGet.data (fst (MainAppGet.getdata now net)) = None
             /\ (forall st r, net req = MainAppGet.Answered st r ->
                              st < 200 \/ 300 <= st))))
  /\ MainAppGet.status
       (fst (MainAppGet.getdata now (MainAppGet.served_by now' c))) = 200
  /\ option_map ReceiverList.count
       (MainAppGet.data
          (fst (MainAppGet.getdata now (MainAppGet.served_by now' c))))
     = Some (List.length (docs c)).
Proof.
  split; [|split].
  - unfold MainAppGet.getdata.
    match goal with
    | |- context [net ?r] => exists r; destruct (net r) as [st r'|msg] eqn:E
    end.
    + destruct (Z.leb_spec 200 st), (Z.ltb_spec st 300); cbn [andb fst snd];
        (split; [reflexivity|]); (split; [reflexivity|]);
        (split; [reflexivity|]);
        try (left; split; [reflexivity|]; exists st, r'; repeat split;
             assumption);
        right; repeat split; intros st' r'' Eq; injection Eq as <- _; lia.
    + cbn [fst snd]. repeat split. right. repeat split.
      intros st r Eq. discriminate Eq.
  - reflexivity.
  - cbn. f_equal. symmetry. apply Permutation_length. apply find_sorted_perm.
Qed.

(** *** The answer of the main app and what was sent *)

Lemma select_method_cases (a : string)
    (send : string -> obj -> Axios.options -> Axios.request) (verb : string) :
  MainApp.select_method a = Some (send, verb) ->
  (a = "create" /\ send = Axios.post /\ verb = "POST")
  \/ (a = "update" /\ send = Axios.put /\ verb = "PUT")
  \/ (a = "delete" /\ send = Axios.delete /\ verb = "DELETE").
Proof.
  unfold MainApp.select_method.
  destruct (String.eqb_spec a "create");
    [intros H; injection H as <- <-; now left|].
  destruct (String.eqb_spec a "update");
    [intros H; injection H as <- <-; now right; left|].
  destruct (String.eqb_spec a "delete");
    [intros H; injection H as <- <-; now right; right|].
  discriminate.
Qed.

(** X12.  The answer of [POST /api/post] tells what happened, and at most
    one request is ever sent, always to the receiver's endpoint: 200 means
    one request was sent and answered with a 2xx status, and the answer
    carries the record and the receiver's answer; 502 means one request was
    sent and not so answered, and the answer still carries the record and
    the error message; 400 and 500 mean nothing was sent.  There is no
    other status and no second try. *)
Theorem answer_tells_outcome (h : Host) (now : Z)
    (net : Axios.request -> MainApp.downstream) (body : obj) :
  (MainApp.status (fst (MainApp.post_api h now net body)) = 200
   /\ exists req resp data,
        snd (MainApp.post_api h now net body) = [req]
        /\ Axios.req_url req = "http://localhost:5000/api/postdata/db"
        /\ net req = MainApp.Answered resp
        /\ 200 <= Receiver.status resp < 300
        /\ MainApp.processedData (fst (MainApp.post_api h now net body))
           = Some data
        /\ MainApp.mongoResponse (fst (MainApp.post_api h now net body))
           = Some resp)
  \/ (MainApp.status (fst (MainApp.post_api h now net body)) = 502
      /\ exists req data msg,
           snd (MainApp.post_api h now net body) = [req]
           /\ Axios.req_url req = "http://localhost:5000/api/postdata/db"
           /\ MainApp.await (net req) = Axios.Rejected msg
           /\ MainApp.processedData (fst (MainApp.post_api h now net body))
              = Some data
           /\ MainApp.error (fst (MainApp.post_api h now net body))
              = Some msg)
  \/ ((MainApp.status (fst (MainApp.post_api h now net body)) = 400
       \/ MainApp.status (fst (MainApp.post_api h now net body)) = 500)
      /\ snd (MainApp.post_api h now net body) = []
      /\ MainApp.processedData (fst (MainApp.post_api h now net body))
         = None).
Proof.
  unfold MainApp.post_api, MainApp.derive_age.
  destruct (negb (truthy (get "name" body)) || _ || _ || _);
    [right; right; repeat split; now left|].
  destruct (negb (MainApp.validateName _));
    [right; right; repeat split; now left|].
  destruct (negb (MainApp.validateMobile _));
    [right; right; repeat split; now left|].
  destruct (lt _ _ || gt _ _); [right; right; repeat split; now left|].
  unfold MainApp.validate_action_and_forward, bind.
  destruct (call_toLowerCase _ _) as [lowered|e];
    [|right; right; repeat split; now right].
  destruct (negb (includes _ lowered));
    [right; right; repeat split; now left|].
  destruct (call_trim "name" _) as [n|e];
    [|right; right; repeat split; now right].
  destruct (call_trim "mobile" _) as [m|e];
    [|right; right; repeat split; now right].
  destruct (MainApp.select_method lowered) as [[send verb]|] eqn:Hsel;
    [|right; right; repeat split; now left].
  assert (Hurl : forall data,
             Axios.req_url (send MainApp.endpoint data MainApp.forward_options)
             = "http://localhost:5000/api/postdata/db").
  { intros data.
    destruct (select_method_cases _ _ _ Hsel)
      as [(_ & -> & _) | [(_ & -> & _) | (_ & -> & _)]]; reflexivity. }
  match goal with
  | |- context [MainApp.await (net ?r)] =>
      destruct (MainApp.await (net r)) as [resp|msg] eqn:Ea
  end.
  - left. split; [reflexivity|]. cbn [fst snd].
    unfold MainApp.await in Ea.
    match type of Ea with
    | context [net ?r] => destruct (net r) as [resp'|msg'] eqn:En
    end; [|discriminate Ea].
    destruct (Z.leb_spec 200 (Receiver.status resp')),
      (Z.ltb_spec (Receiver.status resp') 300); cbn [andb] in Ea;
      try discriminate Ea.
    injection Ea as <-.
    eexists _, resp', _. repeat split; try eassumption; apply Hurl.
  - right; left. split; [reflexivity|]. cbn [fst snd].
    eexists _, _, msg. repeat split; try eassumption; apply Hurl.
Qed.

(** *** What validation lets through *)

Lemma digit_not_white (c : ascii) :
  isDigit c = true -> isWhiteSpace c = false.
Proof.
  destruct c as [[] [] [] [] [] [] [] []]; vm_compute; congruence.
Qed.

Lemma white_not_lowered_letter (c : ascii) :
  isWhiteSpace c = true -> isLowerAZ (toLowerCase_char c) = false.
Proof.
  destruct c as [[] [] [] [] [] [] [] []]; vm_compute; congruence.
Qed.

Lemma trimEnd_no_white (s : string) :
  MainApp.all_chars (fun c => negb (isWhiteSpace c)) s = true ->
  trimEnd s = s.
Proof.
  induction s as [|c s IH]; simpl; [reflexivity|].
  intros H. apply andb_true_iff in H. destruct H as [Hc Hs].
  rewrite (IH Hs). apply negb_true_iff in Hc. rewrite Hc.
  destruct s; reflexivity.
Qed.

Lemma trim_no_white (s : string) :
  MainApp.all_chars (fun c => negb (isWhiteSpace c)) s = true ->
  trim s = s.
Proof.
  intros H. unfold trim.
  assert (E : trimStart s = s).
  { destruct s as [|c s]; [reflexivity|]. simpl in H |- *.
    apply andb_true_iff in H. destruct H as [Hc _].
    apply negb_true_iff in Hc. rewrite Hc. reflexivity. }
  rewrite E. apply trimEnd_no_white. exact H.
Qed.

Lemma all_chars_impl (p q : ascii -> bool) (s : string) :
  (forall c, p c = true -> q c = true) ->
  MainApp.all_chars p s = true -> MainApp.all_chars q s = true.
Proof.
  intros Hpq. induction s as [|c s IH]; simpl; [trivial|].
  intros H. apply andb_true_iff in H. destruct H as [Hc Hs].
  rewrite (Hpq c Hc), (IH Hs). reflexivity.
Qed.

(** A mobile that passes the check has no white space to trim. *)
Lemma valid_mobile_trim (m : string) :
  MainApp.mobileRegex_test m = true -> trim m = m.
Proof.
  intros H. apply trim_no_white.
  destruct m as [|c r]; [discriminate H|]. simpl in H |- *.
  apply andb_true_iff in H. destruct H as [H Hr].
  apply andb_true_iff in H. destruct H as [Hc _].
  apply andb_true_iff. split.
  - apply negb_true_iff. apply digit_not_white.
    unfold isDigit, in_range in *.
    apply andb_true_iff in Hc. destruct Hc as [H1 H2].
    apply andb_true_iff. split; [|exact H2].
    apply Z.leb_le in H1. apply Z.leb_le. lia.
  - apply (all_chars_impl isDigit); [|exact Hr].
    intros x Hx. apply negb_true_iff. apply digit_not_white. exact Hx.
Qed.

(** An action that passes the check has none either, before or after
    lower-casing. *)
Lemma valid_action_no_white (a : string) :
  includes MainApp.validActions (toLowerCase a) = true ->
  MainApp.all_chars (fun c => negb (isWhiteSpace c)) a = true
  /\ trim (toLowerCase a) = toLowerCase a.
Proof.
  intros H.
  assert (L : MainApp.all_chars isLowerAZ (toLowerCase a) = true)
    by (destruct (select_method_valid _ H) as [E | [E | E]]; rewrite E;
        reflexivity).
  split.
  - clear H. induction a as [|c a IH]; [reflexivity|]. simpl in L |- *.
    apply andb_true_iff in L. destruct L as [Lc La].
    rewrite (IH La), andb_true_r.
    destruct (isWhiteSpace c) eqn:W; [|reflexivity].
    rewrite (white_not_lowered_letter c W) in Lc. discriminate Lc.
  - destruct (select_method_valid _ H) as [E | [E | E]]; rewrite E;
      reflexivity.
Qed.

(** X13.  Only validated data leaves the main app.  Whenever a request is
    sent, the name, mobile and action of the form were strings, the name
    and the mobile passed their regular expressions, the age is [NaN] or an
    integer from 0 to 150, and the request is the POST, PUT or DELETE that
    the lower-cased action selects.  The record built for it holds the
    trimmed name, the mobile exactly as it was received, the date of birth
    as received, the age, one of the three words create, update and delete
    as the action, and the time of processing. *)
Theorem only_validated_records_leave (h : Host) (now : Z)
    (net : Axios.request -> MainApp.downstream) (body : obj)
    (req : Axios.request) :
  In req (snd (MainApp.post_api h now net body)) ->
  exists n m a : string,
    get "name" body = VStr n
    /\ get "mobile" body = VStr m
    /\ get "action" body = VStr a
    /\ MainApp.nameRegex_test n = true
    /\ MainApp.mobileRegex_test m = true
    /\ (MainApp.calculateAge h now (get "dob" body) = NaN
        \/ exists z, MainApp.calculateAge h now (get "dob" body) = Num z
                     /\ 0 <= z <= 150)
    /\ let data :=
         [("name", VStr (trim n)); ("mobile", VStr m);
          ("dob", get "dob" body);
          ("age", VNum (MainApp.calculateAge h now (get "dob" body)));
          ("action", VStr (toLowerCase a));
          ("processedAt", VStr (toISOString now))] in
       (toLowerCase a = "create"
        /\ req = Axios.post MainApp.endpoint data MainApp.forward_options)
       \/ (toLowerCase a = "update"
           /\ req = Axios.put MainApp.endpoint data MainApp.forward_options)
       \/ (toLowerCase a = "delete" /\ req = Samples.bodiless_delete).
Proof.
  unfold MainApp.post_api, MainApp.derive_age.
  destruct (negb (truthy (get "name" body)) || _ || _ || _);
    [contradiction|].
  destruct (MainApp.validateName _) eqn:Vn; [|contradiction].
  destruct (MainApp.validateMobile _) eqn:Vm; [|contradiction].
  cbn [negb].
  destruct (lt _ _ || gt _ _) eqn:Hage; [contradiction|].
  unfold MainApp.validate_action_and_forward, bind, call_toLowerCase,
    call_trim, call_string_method.
  destruct (get "action" body) as [| |b|x|a]; try contradiction.
  destruct (includes _ (toLowerCase a)) eqn:Va; [|contradiction].
  cbn [negb].
  destruct (get "name" body) as [| |b|x|n]; try contradiction.
  destruct (get "mobile" body) as [| |b|x|m]; try contradiction.
  destruct (valid_action_no_white a Va) as [_ Ht].
  unfold MainApp.processedData_of. rewrite Ht.
  rewrite (valid_mobile_trim m Vm).
  intros Hin. exists n, m, a.
  do 5 (split; [reflexivity || assumption|]).
  split.
  { apply orb_false_iff in Hage. destruct Hage as [H0 H150].
    destruct (MainApp.calculateAge h now (get "dob" body)) as [|z];
      [now left|]. right. exists z. split; [reflexivity|].
    unfold gt, lt in *. apply Z.ltb_ge in H0, H150. lia. }
  cbv zeta.
  destruct (select_method_valid _ Va) as [E | [E | E]]; rewrite E in Hin |- *;
    [rewrite select_create in Hin | rewrite select_update in Hin
     | rewrite select_delete in Hin];
    match type of Hin with
    | context [MainApp.await ?x] => destruct (MainApp.await x)
    end; cbn [snd In] in Hin; destruct Hin as [<- | []];
    [left | left | right; left | right; left | right; right
     | right; right]; split; reflexivity.
Qed.

Lemma only_validated_records_leave_witness :
  In (Axios.put MainApp.endpoint
        (MainApp.processedData_of Samples.noon_2024_06_14 "Asha Rao"
           "9876543210" (VStr "1995-01-01") (Num 29) "update")
        MainApp.forward_options)
     (snd (MainApp.post_api host_utc Samples.noon_2024_06_14
             Samples.unreachable MoreSamples.shouted_update_form))
  /\ exists n m a : string,
       get "name" MoreSamples.shouted_update_form = VStr n
       /\ get "mobile" MoreSamples.shouted_update_form = VStr m
       /\ get "action" MoreSamples.shouted_update_form = VStr a
       /\ MainApp.nameRegex_test n = true
       /\ MainApp.mobileRegex_test m = true
       /\ (MainApp.calculateAge host_utc Samples.noon_2024_06_14
             (get "dob" MoreSamples.shouted_update_form) = NaN
           \/ exists z,
                MainApp.calculateAge host_utc Samples.noon_2024_06_14
                  (get "dob" MoreSamples.shouted_update_form) = Num z
                /\ 0 <= z <= 150)
       /\ ((toLowerCase a = "create"
            /\ Axios.put MainApp.endpoint
                 (MainApp.processedData_of Samples.noon_2024_06_14
                    "Asha Rao" "9876543210" (VStr "1995-01-01") (Num 29)
                    "update")
                 MainApp.forward_options
               = Axios.post MainApp.endpoint
                   [("name", VStr (trim n)); ("mobile", VStr m);
                    ("dob", get "dob" MoreSamples.shouted_update_form);
                    ("age",
                     VNum (MainApp.calculateAge host_utc
                             Samples.noon_2024_06_14
                             (get "dob" MoreSamples.shouted_update_form)));
                    ("action", VStr (toLowerCase a));
                    ("processedAt",
                     VStr (toISOString Samples.noon_2024_06_14))]
                   MainApp.forward_options)
           \/ (toLowerCase a = "update"
               /\ Axios.put MainApp.endpoint
                    (MainApp.processedData_of Samples.noon_2024_06_14
                       "Asha Rao" "9876543210" (VStr "1995-01-01") (Num 29)
                       "update")
                    MainApp.forward_options
                  = Axios.put MainApp.endpoint
                      [("name", VStr (trim n)); ("mobile", VStr m);
                       ("dob", get "dob" MoreSamples.shouted_update_form);
                       ("age",
                        VNum (MainApp.calculateAge host_utc
                                Samples.noon_2024_06_14
                                (get "dob" MoreSamples.shouted_update_form)));
                       ("action", VStr (toLowerCase a));
                       ("processedAt",
                        VStr (toISOString Samples.noon_2024_06_14))]
                      MainApp.forward_options)
           \/ (toLowerCase a = "delete"
               /\ Axios.put MainApp.endpoint
                    (MainApp.processedData_of Samples.noon_2024_06_14
                       "Asha Rao" "9876543210" (VStr "1995-01-01") (Num 29)
                       "update")
                    MainApp.forward_options
                  = Samples.bodiless_delete)).
Proof.
  assert (H : In (Axios.put MainApp.endpoint
                    (MainApp.processedData_of Samples.noon_2024_06_14
                       "Asha Rao" "9876543210" (VStr "1995-01-01") (Num 29)
                       "update")
                    MainApp.forward_options)
                 (snd (MainApp.post_api host_utc Samples.noon_2024_06_14
                         Samples.unreachable MoreSamples.shouted_update_form)))
    by (vm_compute; left; reflexivity).
  split; [exact H|].
  exact (only_validated_records_leave host_utc Samples.noon_2024_06_14
           Samples.unreachable MoreSamples.shouted_update_form _ H).
Defined.

(** *** A name of blanks *)

Lemma trim_all_white (s : string) :
  MainApp.all_chars isWhiteSpace s = true -> trim s = EmptyString.
Proof.
  intros H. unfold trim.
  assert (E : trimStart s = EmptyString).
  { induction s as [|c s IH]; [reflexivity|]. simpl in H |- *.
    apply andb_true_iff in H. destruct H as [Hc Hs]. rewrite Hc.
    exact (IH Hs). }
  rewrite E. reflexivity.
Qed.

Lemma blank_name_valid (s : string) :
  s <> EmptyString -> MainApp.all_chars isWhiteSpace s = true ->
  MainApp.nameRegex_test s = true.
Proof.
  intros Hne H. unfold MainApp.nameRegex_test.
  rewrite (eqb_empty_false s Hne). cbn [negb andb].
  apply (all_chars_impl isWhiteSpace); [|exact H].
  intros c Hc. rewrite Hc. apply orb_true_r.
Qed.

(** X14.  A name made of white space only is not caught by the main app:
    it is present, it matches the regular expression, and the record is
    forwarded with the empty string as its name.  The insert of the
    receiver service then finds the name missing and answers 400, which
    the main app reports as 502; the collection stays as it was. *)
Theorem blank_name_is_forwarded_empty (h : Host) (now now' : Z)
    (c : Collection) (body : obj) (n m d a : string) :
  get "name" body = VStr n ->
  get "mobile" body = VStr m ->
  get "dob" body = VStr d ->
  get "action" body = VStr a ->
  n <> EmptyString ->
  MainApp.all_chars isWhiteSpace n = true ->
  MainApp.mobileRegex_test m = true ->
  d <> EmptyString ->
  lt (MainApp.calculateAge h now (VStr d)) (Num 0)
    || gt (MainApp.calculateAge h now (VStr d)) (Num 150) = false ->
  toLowerCase a = "create" ->
  MainApp.post_api h now (MainApp.served_by h now' c) body =
    (MainApp.forward_failed "POST"
       (MainApp.processedData_of now EmptyString m (VStr d)
          (MainApp.calculateAge h now (VStr d)) "create")
       "Request failed with status code 400",
     [Axios.post MainApp.endpoint
        (MainApp.processedData_of now EmptyString m (VStr d)
           (MainApp.calculateAge h now (VStr d)) "create")
        MainApp.forward_options])
  /\ MainApp.receiver h now' c
       (Axios.post MainApp.endpoint
          (MainApp.processedData_of now EmptyString m (VStr d)
             (MainApp.calculateAge h now (VStr d)) "create")
          MainApp.forward_options) =
     Some (Receiver.answer 400 false
             "All fields (name, mobile, dob, age, action) are required", c).
Proof.
  intros Hn Hm Hd Ha Nn Wn Vm Nd Hage Ea.
  assert (Hrecv : MainApp.receiver h now' c
            (Axios.post MainApp.endpoint
               (MainApp.processedData_of now EmptyString m (VStr d)
                  (MainApp.calculateAge h now (VStr d)) "create")
               MainApp.forward_options) =
          Some (Receiver.answer 400 false
                  "All fields (name, mobile, dob, age, action) are required",
                c)) by reflexivity.
  split; [|exact Hrecv].
  assert (Va : includes MainApp.validActions (toLowerCase a) = true)
    by (rewrite Ea; reflexivity).
  destruct (dispatch_strings h now (MainApp.served_by h now' c) body n m a
              (VStr d) Hn Hm Hd Ha (blank_name_valid n Nn Wn) Vm)
    as (send & verb & Hsel & Hpost); [present | exact Hage | exact Va|].
  cbv zeta in Hpost. rewrite Ea in Hsel, Hpost.
  rewrite select_create in Hsel. injection Hsel as <- <-.
  rewrite (trim_all_white n Wn), (valid_mobile_trim m Vm) in Hpost.
  rewrite Hpost. unfold MainApp.served_by. rewrite Hrecv. reflexivity.
Qed.

Lemma blank_name_is_forwarded_empty_witness :
  get "name" MoreSamples.blank_name_form = VStr "   "
  /\ get "mobile" MoreSamples.blank_name_form = VStr "9876543210"
  /\ get "dob" MoreSamples.blank_name_form = VStr "1995-01-01"
  /\ get "action" MoreSamples.blank_name_form = VStr "create"
  /\ "   " <> EmptyString
  /\ MainApp.all_chars isWhiteSpace "   " = true
  /\ MainApp.mobileRegex_test "9876543210" = true
  /\ "1995-01-01" <> EmptyString
  /\ lt (MainApp.calculateAge host_utc Samples.noon_2024_06_14
           (VStr "1995-01-01")) (Num 0)
     || gt (MainApp.calculateAge host_utc Samples.noon_2024_06_14
              (VStr "1995-01-01")) (Num 150) = false
  /\ toLowerCase "create" = "create"
  /\ MainApp.status
       (fst (MainApp.post_api host_utc Samples.noon_2024_06_14
               (MainApp.served_by host_utc Samples.noon_2024_06_14
                  Samples.empty_collection)
               MoreSamples.blank_name_form)) = 502.
Proof.
  do 4 (split; [reflexivity|]). split; [discriminate|].
  do 2 (split; [reflexivity|]). split; [discriminate|].
  do 2 (split; [reflexivity|]).
  rewrite (proj1 (blank_name_is_forwarded_empty host_utc
                    Samples.noon_2024_06_14 Samples.noon_2024_06_14
                    Samples.empty_collection MoreSamples.blank_name_form
                    "   " "9876543210" "1995-01-01" "create"
                    eq_refl eq_refl eq_refl eq_refl
                    ltac:(discriminate) eq_refl eq_refl
                    ltac:(discriminate) eq_refl eq_refl)).
  reflexivity.
Defined.

(** *** White space around the action *)

(** X15.  The action is compared without being trimmed: a form whose
    action contains a white space character, in front, behind or inside,
    is answered with 400 and nothing is sent, even when the rest of it is
    one of the three words.  (The trimming applied to the action when the
    record is built therefore never removes anything.) *)
Theorem action_with_white_space_is_rejected (h : Host) (now : Z)
    (net : Axios.request -> MainApp.downstream) (body : obj) (a : string) :
  get "action" body = VStr a ->
  MainApp.all_chars (fun c => negb (isWhiteSpace c)) a = false ->
  MainApp.status (fst (MainApp.post_api h now net body)) = 400
  /\ snd (MainApp.post_api h now net body) = [].
Proof.
  intros Ha Hw. apply failed_check_is_400. do 4 right.
  exists a. split; [exact Ha|].
  destruct (includes MainApp.validActions (toLowerCase a)) eqn:Va;
    [|reflexivity].
  destruct (valid_action_no_white a Va) as [Hno _]. congruence.
Qed.

Lemma action_with_white_space_is_rejected_witness :
  get "action" MoreSamples.padded_action_form = VStr " create"
  /\ MainApp.all_chars (fun c => negb (isWhiteSpace c)) " create" = false
  /\ MainApp.status
       (fst (MainApp.post_api host_utc Samples.noon_2024_06_14
               Samples.unreachable MoreSamples.padded_action_form)) = 400
  /\ snd (MainApp.post_api host_utc Samples.noon_2024_06_14
            Samples.unreachable MoreSamples.padded_action_form) = [].
Proof.
  do 2 (split; [reflexivity|]).
  apply (action_with_white_space_is_rejected host_utc
           Samples.noon_2024_06_14 Samples.unreachable
           MoreSamples.padded_action_form " create"); reflexivity.
Defined.

(** *** Failed checks *)

(** X16.  A form that lacks one of the four fields, or whose name or
    mobile does not match its regular expression, or whose date of birth
    gives an age below 0 or above 150, or whose action is a string that is
    none of create, update and delete in any letter case, is answered with
    400 and nothing is sent to the receiver service. *)
Theorem failed_validation_answers_400 (h : Host) (now : Z)
    (net : Axios.request -> MainApp.downstream) (body : obj) :
  truthy (get "name" body) && truthy (get "mobile" body)
    && truthy (get "dob" body) && truthy (get "action" body) = false
  \/ MainApp.validateName (get "name" body) = false
  \/ MainApp.validateMobile (get "mobile" body) = false
  \/ lt (MainApp.calculateAge h now (get "dob" body)) (Num 0)
       || gt (MainApp.calculateAge h now (get "dob" body)) (Num 150) = true
  \/ (exists a, get "action" body = VStr a
                /\ includes MainApp.validActions (toLowerCase a) = false) ->
  MainApp.status (fst (MainApp.post_api h now net body)) = 400
  /\ snd (MainApp.post_api h now net body) = [].
Proof. exact (failed_check_is_400 h now net body). Qed.

Lemma failed_validation_answers_400_witness :
  (truthy (get "name" Samples.numeric_mobile_form)
     && truthy (get "mobile" Samples.numeric_mobile_form)
     && truthy (get "dob" Samples.numeric_mobile_form)
     && truthy (get "action" Samples.numeric_mobile_form) = false
   \/ MainApp.validateName (get "name" Samples.numeric_mobile_form) = false
   \/ MainApp.validateMobile (get "mobile" Samples.numeric_mobile_form)
      = false
   \/ lt (MainApp.calculateAge host_utc 0
            (get "dob" Samples.numeric_mobile_form)) (Num 0)
        || gt (MainApp.calculateAge host_utc 0
                 (get "dob" Samples.numeric_mobile_form)) (Num 150) = true
   \/ (exists a, get "action" Samples.numeric_mobile_form = VStr a
                 /\ includes MainApp.validActions (toLowerCase a) = false))
  /\ MainApp.status
       (fst (MainApp.post_api host_utc 0 Samples.unreachable
               Samples.numeric_mobile_form)) = 400
  /\ snd (MainApp.post_api host_utc 0 Samples.unreachable
            Samples.numeric_mobile_form) = [].
Proof.
  assert (H : truthy (get "name" Samples.numeric_mobile_form)
                && truthy (get "mobile" Samples.numeric_mobile_form)
                && truthy (get "dob" Samples.numeric_mobile_form)
                && truthy (get "action" Samples.numeric_mobile_form) = false
              \/ MainApp.validateName (get "name" Samples.numeric_mobile_form)
                 = false
              \/ MainApp.validateMobile
                   (get "mobile" Samples.numeric_mobile_form) = false
              \/ lt (MainApp.calculateAge host_utc 0
                       (get "dob" Samples.numeric_mobile_form)) (Num 0)
                   || gt (MainApp.calculateAge host_utc 0
                            (get "dob" Samples.numeric_mobile_form))
                        (Num 150) = true
              \/ (exists a,
                    get "action" Samples.numeric_mobile_form = VStr a
                    /\ includes MainApp.validActions (toLowerCase a) = false))
    by (do 3 right; left; reflexivity).
  split; [exact H|].
  exact (failed_validation_answers_400 host_utc 0 Samples.unreachable
           Samples.numeric_mobile_form H).
Defined.

(** *** The age and the calendar *)

(** X17.  The age is the difference of the years as the host's local
    calendar shows them, less one when the current month and day come
    before the month and day of birth; on the day of the anniversary
    itself nothing is taken off. *)
Theorem age_follows_anniversary (h : Host) (now t : Z) (dob : value)
    (y m d yb mb db : Z) :
  Date_new h dob = Some t ->
  local_civil h now = (y, m, d) ->
  local_civil h t = (yb, mb, db) ->
  (m < mb \/ (m = mb /\ d < db) ->
   MainApp.calculateAge h now dob = Num (y - yb - 1))
  /\ (mb < m \/ (m = mb /\ db <= d) ->
      MainApp.calculateAge h now dob = Num (y - yb)).
Proof.
  intros Hd Hn Ht.
  rewrite (calculateAge_civil h now t dob y m d yb mb db Hd Hn Ht).
  split; intros H;
    destruct (Z.ltb_spec m mb), (Z.eqb_spec m mb), (Z.ltb_spec d db);
    cbn [orb andb]; f_equal; lia.
Qed.

Lemma age_follows_anniversary_witness :
  Date_new host_utc_plus_0530 (VStr "2000-06-15") = Some 961027200000
  /\ local_civil host_utc_plus_0530 Samples.noon_2024_06_14 = (2024, 6, 14)
  /\ local_civil host_utc_plus_0530 961027200000 = (2000, 6, 15)
  /\ (6 < 6 \/ (6 = 6 /\ 14 < 15) ->
      MainApp.calculateAge host_utc_plus_0530 Samples.noon_2024_06_14
        (VStr "2000-06-15") = Num (2024 - 2000 - 1))
  /\ (6 < 6 \/ (6 = 6 /\ 15 <= 14) ->
      MainApp.calculateAge host_utc_plus_0530 Samples.noon_2024_06_14
        (VStr "2000-06-15") = Num (2024 - 2000)).
Proof.
  do 3 (split; [reflexivity|]).
  apply (age_follows_anniversary host_utc_plus_0530 Samples.noon_2024_06_14
           961027200000 (VStr "2000-06-15") 2024 6 14 2000 6 15);
    reflexivity.
Defined.

(** *** The three actions *)

Lemma dispatch_by_action_witness :
  get "name" MoreSamples.shouted_update_form = VStr " Asha Rao "
  /\ get "mobile" MoreSamples.shouted_update_form = VStr "9876543210"
  /\ get "dob" MoreSamples.shouted_update_form = VStr "1995-01-01"
  /\ get "action" MoreSamples.shouted_update_form = VStr "UPDATE"
  /\ MainApp.nameRegex_test " Asha Rao " = true
  /\ MainApp.mobileRegex_test "9876543210" = true
  /\ truthy (VStr "1995-01-01") = true
  /\ lt (MainApp.calculateAge host_utc Samples.noon_2024_06_14
           (VStr "1995-01-01")) (Num 0)
     || gt (MainApp.calculateAge host_utc Samples.noon_2024_06_14
              (VStr "1995-01-01")) (Num 150) = false
  /\ includes MainApp.validActions (toLowerCase "UPDATE") = true
  /\ (toLowerCase "UPDATE" = "create" ->
      snd (MainApp.post_api host_utc Samples.noon_2024_06_14
             Samples.unreachable MoreSamples.shouted_update_form) =
        [Axios.post MainApp.endpoint
           (MainApp.processedData_of Samples.noon_2024_06_14
              (trim " Asha Rao ") (trim "9876543210") (VStr "1995-01-01")
              (MainApp.calculateAge host_utc Samples.noon_2024_06_14
                 (VStr "1995-01-01")) (toLowerCase "UPDATE"))
           MainApp.forward_options])
  /\ (toLowerCase "UPDATE" = "update" ->
      snd (MainApp.post_api host_utc Samples.noon_2024_06_14
             Samples.unreachable MoreSamples.shouted_update_form) =
        [Axios.put MainApp.endpoint
           (MainApp.processedData_of Samples.noon_2024_06_14
              (trim " Asha Rao ") (trim "9876543210") (VStr "1995-01-01")
              (MainApp.calculateAge host_utc Samples.noon_2024_06_14
                 (VStr "1995-01-01")) (toLowerCase "UPDATE"))
           MainApp.forward_options])
  /\ (toLowerCase "UPDATE" = "delete" ->
      snd (MainApp.post_api host_utc Samples.noon_2024_06_14
             Samples.unreachable MoreSamples.shouted_update_form) =
        [Samples.bodiless_delete]).
Proof.
  do 9 (split; [reflexivity|]).
  apply (dispatch_by_action host_utc Samples.noon_2024_06_14
           Samples.unreachable MoreSamples.shouted_update_form " Asha Rao "
           "9876543210" "UPDATE" (VStr "1995-01-01")); reflexivity.
Defined.

(** *** The calendar, cycle by cycle *)

Lemma all_days_spec (p : Z -> bool) (n : nat) :
  forall from,
    all_days p from n = true ->
    forall z, from <= z < from + Z.of_nat n -> p z = true.
Proof.
  induction n as [|n IH]; intros from H z Hz; [lia|].
  cbn [all_days] in H. apply andb_true_iff in H. destruct H as [H0 Hn].
  destruct (Z.eq_dec z from) as [->|Hne]; [exact H0|].
  apply (IH (from + 1) Hn). lia.
Qed.

(** Every day of the 400 years from 1 March 0000 on, by evaluation. *)
Lemma first_cycle_consistent :
  all_days cycle_consistent (-719468) (Z.to_nat 146097) = true.
Proof. vm_compute. reflexivity. Qed.

Lemma civil_from_days_shift (z k : Z) :
  civil_from_days (z + k * 146097) =
    let '(y, m, d) := civil_from_days z in (y + 400 * k, m, d).
Proof.
  unfold civil_from_days.
  replace (z + k * 146097 + 719468) with (z + 719468 + k * 146097) by ring.
  rewrite Z.div_add by lia.
  replace (z + 719468 + k * 146097 - ((z + 719468) / 146097 + k) * 146097)
    with (z + 719468 - (z + 719468) / 146097 * 146097) by ring.
  cbv zeta. f_equal. f_equal. ring.
Qed.

Lemma days_from_civil_shift (y m d k : Z) :
  days_from_civil (y + 400 * k) m d = days_from_civil y m d + k * 146097.
Proof.
  unfold days_from_civil.
  replace (if m <=? 2 then y + 400 * k - 1 else y + 400 * k)
    with ((if m <=? 2 then y - 1 else y) + k * 400)
    by (destruct (m <=? 2); ring).
  rewrite Z.div_add by lia. cbv zeta.
  replace ((if m <=? 2 then y - 1 else y) + k * 400
           - ((if m <=? 2 then y - 1 else y) / 400 + k) * 400)
    with ((if m <=? 2 then y - 1 else y)
          - (if m <=? 2 then y - 1 else y) / 400 * 400) by ring.
  ring.
Qed.

Lemma daysInMonth_shift (y m k : Z) :
  daysInMonth (y + 400 * k) m = daysInMonth y m.
Proof.
  unfold daysInMonth, isLeapYear.
  replace (y + 400 * k) with (y + (100 * k) * 4) at 1 by ring.
  replace (y + 400 * k) with (y + (4 * k) * 100) at 1 by ring.
  replace (y + 400 * k) with (y + k * 400) by ring.
  rewrite !Z.mod_add by lia. reflexivity.
Qed.

(** What [civil_from_days] gives for a day of the years 0000 to 9999. *)
Lemma civil_of_four_digit_year (z : Z) :
  -719528 <= z < 2932897 ->
  exists y m d,
    civil_from_days z = (y, m, d)
    /\ days_from_civil y m d = z
    /\ 0 <= y <= 9999 /\ 1 <= m <= 12 /\ 1 <= d <= daysInMonth y m.
Proof.
  intros Hz.
  set (k := (z + 719468) / 146097).
  set (z0 := z - k * 146097).
  assert (Hk : -1 <= k <= 24).
  { unfold k. split.
    - apply Z.div_le_lower_bound; lia.
    - apply Z.lt_succ_r. apply Z.div_lt_upper_bound; lia. }
  assert (Hz0 : -719468 <= z0 < -719468 + 146097).
  { unfold z0, k.
    pose proof (Z.div_mod (z + 719468) 146097 ltac:(lia)) as E.
    pose proof (Z.mod_pos_bound (z + 719468) 146097 ltac:(lia)) as B.
    lia. }
  pose proof (all_days_spec cycle_consistent _ _ first_cycle_consistent z0)
    as C.
  rewrite Z2Nat.id in C by lia. specialize (C Hz0).
  unfold cycle_consistent, Vocabulary.calendar_consistent in C.
  replace z with (z0 + k * 146097) by (unfold z0; ring).
  rewrite civil_from_days_shift.
  destruct (civil_from_days z0) as [[y m] d].
  apply andb_true_iff in C. destruct C as [C Hy4].
  apply andb_true_iff in C. destruct C as [C Hy0].
  repeat (apply andb_true_iff in C; destruct C as [C ?]).
  repeat match goal with
         | H : (_ <=? _) = true |- _ => apply Z.leb_le in H
         | H : (_ =? _) = true |- _ => apply Z.eqb_eq in H
         end.
  exists (y + 400 * k), m, d. split; [reflexivity|].
  rewrite days_from_civil_shift, daysInMonth_shift.
  split; [lia|]. split; [|split; [lia | lia]].
  destruct (Z.ltb_spec z0 (146037 - 719468)).
  - apply Z.leb_le in Hy4. unfold z0 in *. lia.
  - apply Z.eqb_eq in Hy4. unfold z0 in *. lia.
Qed.

(** *** Writing and reading an instant *)

Lemma digit_char_spec (d : Z) :
  isDigit (digit_char d) = true /\ code (digit_char d) - 48 = d mod 10.
Proof.
  unfold digit_char.
  pose proof (Z.mod_pos_bound d 10 ltac:(lia)) as B.
  remember (d mod 10) as k eqn:E. clear E.
  assert (K : k = 0 \/ k = 1 \/ k = 2 \/ k = 3 \/ k = 4 \/ k = 5 \/ k = 6
              \/ k = 7 \/ k = 8 \/ k = 9) by lia.
  repeat (destruct K as [-> | K]; [split; reflexivity|]).
  subst k. split; reflexivity.
Qed.

Lemma digit2_chars (a b : Z) :
  digit2 (digit_char a) (digit_char b) = Some (10 * (a mod 10) + b mod 10).
Proof.
  unfold digit2.
  destruct (digit_char_spec a) as [Da Ca], (digit_char_spec b) as [Db Cb].
  rewrite Da, Db, Ca, Cb. reflexivity.
Qed.

Lemma digit3_chars (a b c : Z) :
  digit3 (digit_char a) (digit_char b) (digit_char c)
  = Some (10 * (10 * (a mod 10) + b mod 10) + c mod 10).
Proof.
  unfold digit3. rewrite digit2_chars.
  destruct (digit_char_spec c) as [Dc Cc]. rewrite Dc, Cc. reflexivity.
Qed.

Lemma digit4_chars (a b c d : Z) :
  digit4 (digit_char a) (digit_char b) (digit_char c) (digit_char d)
  = Some (100 * (10 * (a mod 10) + b mod 10) + (10 * (c mod 10) + d mod 10)).
Proof. unfold digit4. rewrite !digit2_chars. reflexivity. Qed.

Lemma pad2_chars (n : Z) :
  pad 2 n = String (digit_char (n / 10)) (String (digit_char n) EmptyString).
Proof. reflexivity. Qed.

Lemma pad3_chars (n : Z) :
  pad 3 n = String (digit_char (n / 10 / 10))
              (String (digit_char (n / 10))
                 (String (digit_char n) EmptyString)).
Proof. reflexivity. Qed.

Lemma pad4_chars (n : Z) :
  pad 4 n = String (digit_char (n / 10 / 10 / 10))
              (String (digit_char (n / 10 / 10))
                 (String (digit_char (n / 10))
                    (String (digit_char n) EmptyString))).
Proof. reflexivity. Qed.

Lemma two_digits (n : Z) :
  0 <= n < 100 -> 10 * ((n / 10) mod 10) + n mod 10 = n.
Proof. intros H. Z.to_euclidean_division_equations. lia. Qed.

Lemma three_digits (n : Z) :
  0 <= n < 1000 ->
  10 * (10 * ((n / 10 / 10) mod 10) + (n / 10) mod 10) + n mod 10 = n.
Proof. intros H. Z.to_euclidean_division_equations. lia. Qed.

Lemma four_digits (n : Z) :
  0 <= n < 10000 ->
  100 * (10 * ((n / 10 / 10 / 10) mod 10) + (n / 10 / 10) mod 10)
  + (10 * ((n / 10) mod 10) + n mod 10) = n.
Proof. intros H. Z.to_euclidean_division_equations. lia. Qed.

(** The time of day, split and put together again. *)
Lemma time_of_day (r : Z) :
  0 <= r < msPerDay ->
  0 <= r / 3600000 <= 23
  /\ 0 <= r / 60000 mod 60 <= 59
  /\ 0 <= r / 1000 mod 60 <= 59
  /\ 0 <= r mod 1000 <= 999
  /\ ((r / 3600000 * 60 + r / 60000 mod 60) * 60 + r / 1000 mod 60) * 1000
     + r mod 1000 = r.
Proof.
  unfold msPerDay. intros H. Z.to_euclidean_division_equations. lia.
Qed.

(** Reading a string made of the fields of a date and a time of day. *)
Lemma parse_iso_fields (y m d hh mi ss ms : Z) :
  0 <= y < 10000 -> 1 <= m <= 12 -> 1 <= d <= daysInMonth y m ->
  0 <= hh <= 23 -> 0 <= mi <= 59 -> 0 <= ss <= 59 -> 0 <= ms <= 999 ->
  parse_iso
    (pad 4 y ++ "-" ++ pad 2 m ++ "-" ++ pad 2 d ++ "T" ++ pad 2 hh ++ ":"
       ++ pad 2 mi ++ ":" ++ pad 2 ss ++ "." ++ pad 3 ms ++ "Z")
  = Some (days_from_civil y m d * msPerDay
          + (((hh * 60 + mi) * 60 + ss) * 1000 + ms)).
Proof.
  intros Hy Hm Hd Hh Hmi Hs Hms.
  assert (Dm : daysInMonth y m <= 31)
    by (unfold daysInMonth;
        repeat match goal with |- context [if ?b then _ else _] =>
                                 destruct b end; lia).
  rewrite pad4_chars, !pad2_chars, pad3_chars.
  cbn [append]. unfold parse_iso.
  rewrite digit4_chars, !digit2_chars.
  rewrite (four_digits y) by lia.
  rewrite (two_digits m), (two_digits d) by lia.
  replace ((1 <=? m) && (m <=? 12) && (1 <=? d) && (d <=? daysInMonth y m))
    with true
    by (symmetry; rewrite !andb_true_iff, !Z.leb_le; lia).
  unfold parse_iso_time.
  rewrite !digit2_chars, digit3_chars.
  rewrite (two_digits hh), (two_digits mi), (two_digits ss) by lia.
  rewrite (three_digits ms) by lia.
  replace ((hh <=? 23) && (mi <=? 59) && (ss <=? 59)) with true
    by (symmetry; rewrite !andb_true_iff, !Z.leb_le; lia).
  reflexivity.
Qed.

(** X18.  What the main app writes as [processedAt] is read back by the
    receiver service as the same instant: for every instant whose year has
    four digits, [new Date] of its [toISOString] is that instant, on any
    host. *)
Theorem processedAt_round_trip (h : Host) (t : Z) :
  four_digit_year t ->
  Date_new h (VStr (toISOString t)) = Some t
  /\ Receiver.processedAt_of h 0 (VStr (toISOString t)) = Some t.
Proof.
  unfold four_digit_year. intros Ht.
  assert (Hz : -719528 <= t / msPerDay < 2932897).
  { unfold msPerDay. split.
    - apply Z.div_le_lower_bound; lia.
    - apply Z.div_lt_upper_bound; lia. }
  destruct (civil_of_four_digit_year _ Hz)
    as (y & m & d & Hc & Hd & Hy & Hm & Hdd).
  pose proof (Z.mod_pos_bound t msPerDay ltac:(unfold msPerDay; lia)) as Hr.
  destruct (time_of_day _ Hr) as (Hh & Hmi & Hs & Hms & Hsum).
  assert (E : toISOString t =
              pad 4 y ++ "-" ++ pad 2 m ++ "-" ++ pad 2 d ++ "T"
                ++ pad 2 (t mod msPerDay / 3600000) ++ ":"
                ++ pad 2 (t mod msPerDay / 60000 mod 60) ++ ":"
                ++ pad 2 (t mod msPerDay / 1000 mod 60) ++ "."
                ++ pad 3 (t mod msPerDay mod 1000) ++ "Z").
  { unfold toISOString. rewrite Hc.
    replace ((0 <=? y) && (y <=? 9999)) with true
      by (symmetry; rewrite andb_true_iff, !Z.leb_le; lia).
    reflexivity. }
  assert (P : Date_new h (VStr (toISOString t)) = Some t).
  { unfold Date_new, Date_parse. rewrite E.
    rewrite parse_iso_fields by lia.
    rewrite Hd, Hsum. f_equal.
    pose proof (Z.div_mod t msPerDay ltac:(unfold msPerDay; lia)). lia. }
  split; [exact P|].
  unfold Receiver.processedAt_of. rewrite P.
  replace (truthy (VStr (toISOString t))) with true; [reflexivity|].
  rewrite E, pad4_chars. reflexivity.
Qed.

Lemma processedAt_round_trip_witness :
  four_digit_year Samples.noon_2024_06_14
  /\ Date_new host_utc (VStr (toISOString Samples.noon_2024_06_14))
     = Some Samples.noon_2024_06_14
  /\ Receiver.processedAt_of host_utc 0
       (VStr (toISOString Samples.noon_2024_06_14))
     = Some Samples.noon_2024_06_14.
Proof.
  split; [unfold four_digit_year, Samples.noon_2024_06_14; lia|].
  apply (processedAt_round_trip host_utc Samples.noon_2024_06_14).
  unfold four_digit_year, Samples.noon_2024_06_14. lia.
Defined.

(** *** From the form to the collection *)

Lemma parseInt_small (z : Z) :
  0 <= z <= 150 -> parseInt (VNum (Num z)) = Num z.
Proof.
  intros Hz.
  assert (A : all_days parseInt_returns 0 151 = true)
    by (vm_compute; reflexivity).
  pose proof (all_days_spec parseInt_returns 151 0 A z ltac:(lia)) as P.
  unfold parseInt_returns in P.
  destruct (parseInt (VNum (Num z))) as [|z']; [discriminate P|].
  apply Z.eqb_eq in P. congruence.
Qed.

(** The record the main app builds for a person with a name, read by the
    receiver service, is a well-formed record. *)
Lemma forwarded_is_record (h : Host) (now now' : Z) (n m d lowered : string)
    (z : Z) :
  trim n <> EmptyString ->
  MainApp.mobileRegex_test m = true ->
  d <> EmptyString ->
  lowered <> EmptyString -> trim lowered = lowered ->
  0 <= z <= 150 ->
  four_digit_year now ->
  is_record h now'
    (json_roundtrip
       (MainApp.processedData_of now (trim n) m (VStr d) (Num z) lowered))
    (trim n) m d lowered z now.
Proof.
  intros Nn Vm Nd Nl Tl Hz Hnow.
  unfold is_record. cbn [json_roundtrip flat_map json_field snd fst app
                         MainApp.processedData_of].
  rewrite Tl.
  repeat (split; [reflexivity|]).
  split; [apply parseInt_small; exact Hz|].
  split.
  { change (get "processedAt" _) with (VStr (toISOString now)).
    unfold Receiver.processedAt_of.
    destruct (processedAt_round_trip h now Hnow) as [P _]. rewrite P.
    unfold toISOString.
    destruct (civil_from_days (now / msPerDay)) as [[y mo] dd].
    destruct ((0 <=? y) && (y <=? 9999)); [|destruct (y <? 0)];
      reflexivity. }
  split; [rewrite trim_idempotent; exact Nn|].
  split.
  { rewrite (valid_mobile_trim m Vm). intros ->. discriminate Vm. }
  repeat split; try assumption. discriminate.
Qed.

(** X19.  From the form to the collection.  A form with a valid name that
    is not blank, a valid mobile, a date of birth giving an age from 0 to
    150 and an action that lower-cases to create, handled by the main app
    while the receiver service is up, is answered with 200, and the
    collection gains exactly one document: the trimmed name, the mobile,
    the date of birth as typed, the derived age, the action create, the
    main app's time of processing and, as creation and modification time,
    the receiver's time of saving. *)
Theorem create_end_to_end (h h' : Host) (now now' : Z) (c : Collection)
    (body : obj) (n m d a : string) (z : Z) :
  get "name" body = VStr n ->
  get "mobile" body = VStr m ->
  get "dob" body = VStr d ->
  get "action" body = VStr a ->
  MainApp.nameRegex_test n = true ->
  trim n <> EmptyString ->
  MainApp.mobileRegex_test m = true ->
  d <> EmptyString ->
  MainApp.calculateAge h now (VStr d) = Num z ->
  0 <= z <= 150 ->
  toLowerCase a = "create" ->
  four_digit_year now ->
  let data := MainApp.processedData_of now (trim n) m (VStr d) (Num z)
                "create" in
  let doc := {| _id := next_id c; name := trim n; mobile := m; dob := d;
                age := z; action := "create"; processedAt := now;
                createdAt := now'; updatedAt := now' |} in
  MainApp.post_api h now (MainApp.served_by h' now' c) body =
    (MainApp.forwarded_ok (VStr a) "POST" data
       (Receiver.answer_doc 201 "Data created in MongoDB successfully"
          "CREATE" doc),
     [Axios.post MainApp.endpoint data MainApp.forward_options])
  /\ MainApp.receiver h' now' c
       (Axios.post MainApp.endpoint data MainApp.forward_options) =
     Some (Receiver.answer_doc 201 "Data created in MongoDB successfully"
             "CREATE" doc,
           {| docs := docs c ++ [doc]; next_id := S (next_id c) |}).
Proof.
  intros Hn Hm Hd Ha Vn Nn Vm Nd Hage Hz Ea Hnow data doc.
  assert (R : is_record h' now' (json_roundtrip data) (trim n) m d "create"
                z now)
    by (apply forwarded_is_record; try assumption; try discriminate;
        reflexivity).
  assert (Hrecv : MainApp.receiver h' now' c
            (Axios.post MainApp.endpoint data MainApp.forward_options) =
          Some (Receiver.answer_doc 201
                  "Data created in MongoDB successfully" "CREATE" doc,
                {| docs := docs c ++ [doc]; next_id := S (next_id c) |})).
  { unfold MainApp.receiver.
    cbn [Axios.req_data Axios.req_verb Axios.post].
    rewrite (post_db_record h' now' c _ (trim n) m d "create" z now R).
    unfold inserted, doc.
    rewrite trim_idempotent, (valid_mobile_trim m Vm). reflexivity. }
  split; [|exact Hrecv].
  assert (Va : includes MainApp.validActions (toLowerCase a) = true)
    by (rewrite Ea; reflexivity).
  destruct (dispatch_strings h now (MainApp.served_by h' now' c) body n m a
              (VStr d) Hn Hm Hd Ha Vn Vm)
    as (send & verb & Hsel & Hpost);
    [present | rewrite Hage; unfold lt, gt;
               apply orb_false_iff; split; apply Z.ltb_ge; lia
     | exact Va |].
  cbv zeta in Hpost. rewrite Ea in Hsel, Hpost.
  rewrite select_create in Hsel. injection Hsel as <- <-.
  rewrite Hage, (valid_mobile_trim m Vm) in Hpost.
  rewrite Hpost. unfold MainApp.served_by. fold data. rewrite Hrecv.
  reflexivity.
Qed.

Lemma create_end_to_end_witness :
  get "name" (Samples.asha "Create") = VStr "Asha Rao"
  /\ get "mobile" (Samples.asha "Create") = VStr "9876543210"
  /\ get "dob" (Samples.asha "Create") = VStr "1995-01-01"
  /\ get "action" (Samples.asha "Create") = VStr "Create"
  /\ MainApp.nameRegex_test "Asha Rao" = true
  /\ trim "Asha Rao" <> EmptyString
  /\ MainApp.mobileRegex_test "9876543210" = true
  /\ "1995-01-01" <> EmptyString
  /\ MainApp.calculateAge host_utc Samples.noon_2024_06_14
       (VStr "1995-01-01") = Num 29
  /\ 0 <= 29 <= 150
  /\ toLowerCase "Create" = "create"
  /\ four_digit_year Samples.noon_2024_06_14
  /\ MainApp.status
       (fst (MainApp.post_api host_utc Samples.noon_2024_06_14
               (MainApp.served_by host_utc_plus_0530 1718366400250
                  MoreSamples.two_docs)
               (Samples.asha "Create"))) = 200.
Proof.
  do 5 (split; [reflexivity|]). split; [discriminate|].
  split; [reflexivity|]. split; [discriminate|]. split; [reflexivity|].
  split; [lia|]. split; [reflexivity|].
  assert (F : four_digit_year Samples.noon_2024_06_14)
    by (unfold four_digit_year, Samples.noon_2024_06_14; lia).
  split; [exact F|].
  rewrite (proj1 (create_end_to_end host_utc host_utc_plus_0530
                    Samples.noon_2024_06_14 1718366400250
                    MoreSamples.two_docs (Samples.asha "Create") "Asha Rao"
                    "9876543210" "1995-01-01" "Create" 29
                    eq_refl eq_refl eq_refl eq_refl eq_refl
                    ltac:(discriminate) eq_refl ltac:(discriminate) eq_refl
                    ltac:(lia) eq_refl F)).
  reflexivity.
Defined.

(** X20.  An update sent through the main app for a mobile that is stored
    rewrites the first document with that mobile: with the same
    conditions on the form, the action lower-casing to update and a
    stored time of processing other than the current one, the main app
    answers 200, the receiver answers 200 UPDATE, and the document keeps
    its identifier, mobile and creation time while its name, date of
    birth, age, action and time of processing are those of the form and
    its modification time is the receiver's time of saving. *)
Theorem update_end_to_end (h h' : Host) (now now' : Z) (c : Collection)
    (body : obj) (n m d a : string) (z : Z) (old : Doc) :
  get "name" body = VStr n ->
  get "mobile" body = VStr m ->
  get "dob" body = VStr d ->
  get "action" body = VStr a ->
  MainApp.nameRegex_test n = true ->
  trim n <> EmptyString ->
  MainApp.mobileRegex_test m = true ->
  d <> EmptyString ->
  MainApp.calculateAge h now (VStr d) = Num z ->
  0 <= z <= 150 ->
  toLowerCase a = "update" ->
  four_digit_year now ->
  findOne c m = Some old ->
  processedAt old <> now ->
  let data := MainApp.processedData_of now (trim n) m (VStr d) (Num z)
                "update" in
  let doc := {| _id := _id old; name := trim n; mobile := mobile old;
                dob := d; age := z; action := "update";
                processedAt := now; createdAt := createdAt old;
                updatedAt := now' |} in
  mobile old = m
  /\ MainApp.post_api h now (MainApp.served_by h' now' c) body =
       (MainApp.forwarded_ok (VStr a) "PUT" data
          (Receiver.answer_doc 200 "Data updated in MongoDB successfully"
             "UPDATE" doc),
        [Axios.put MainApp.endpoint data MainApp.forward_options])
  /\ MainApp.receiver h' now' c
       (Axios.put MainApp.endpoint data MainApp.forward_options) =
     Some (Receiver.answer_doc 200 "Data updated in MongoDB successfully"
             "UPDATE" doc,
           {| docs := replace doc (docs c); next_id := next_id c |}).
Proof.
  intros Hn Hm Hd Ha Vn Nn Vm Nd Hage Hz Ea Hnow Hfind Hp data doc.
  pose proof (findOne_mobile c m old Hfind) as Hmob.
  split; [exact Hmob|].
  assert (R : is_record h' now' (json_roundtrip data) (trim n) m d "update"
                z now)
    by (apply forwarded_is_record; try assumption; try discriminate;
        reflexivity).
  assert (Hrecv : MainApp.receiver h' now' c
            (Axios.put MainApp.endpoint data MainApp.forward_options) =
          Some (Receiver.answer_doc 200
                  "Data updated in MongoDB successfully" "UPDATE" doc,
                {| docs := replace doc (docs c); next_id := next_id c |})).
  { unfold MainApp.receiver.
    cbn [Axios.req_data Axios.req_verb Axios.put].
    rewrite (put_db_existing h' now' c _ (trim n) m d "update" z now old R)
      by (rewrite (valid_mobile_trim m Vm); exact Hfind).
    assert (M : is_modified old (trim (trim n)) d z (trim "update") now
                = true).
    { unfold is_modified. apply negb_true_iff.
      apply Z.eqb_neq in Hp. rewrite Hp. apply andb_false_r. }
    rewrite M. unfold overwritten, doc. rewrite trim_idempotent.
    reflexivity. }
  split; [|exact Hrecv].
  assert (Va : includes MainApp.validActions (toLowerCase a) = true)
    by (rewrite Ea; reflexivity).
  destruct (dispatch_strings h now (MainApp.served_by h' now' c) body n m a
              (VStr d) Hn Hm Hd Ha Vn Vm)
    as (send & verb & Hsel & Hpost);
    [present | rewrite Hage; unfold lt, gt;
               apply orb_false_iff; split; apply Z.ltb_ge; lia
     | exact Va |].
  cbv zeta in Hpost. rewrite Ea in Hsel, Hpost.
  rewrite select_update in Hsel. injection Hsel as <- <-.
  rewrite Hage, (valid_mobile_trim m Vm) in Hpost.
  rewrite Hpost. unfold MainApp.served_by. fold data. rewrite Hrecv.
  reflexivity.
Qed.

Lemma update_end_to_end_witness :
  get "name" MoreSamples.shouted_update_form = VStr " Asha Rao "
  /\ get "mobile" MoreSamples.shouted_update_form = VStr "9876543210"
  /\ get "dob" MoreSamples.shouted_update_form = VStr "1995-01-01"
  /\ get "action" MoreSamples.shouted_update_form = VStr "UPDATE"
  /\ MainApp.nameRegex_test " Asha Rao " = true
  /\ trim " Asha Rao " <> EmptyString
  /\ MainApp.mobileRegex_test "9876543210" = true
  /\ "1995-01-01" <> EmptyString
  /\ MainApp.calculateAge host_utc Samples.noon_2024_06_14
       (VStr "1995-01-01") = Num 29
  /\ 0 <= 29 <= 150
  /\ toLowerCase "UPDATE" = "update"
  /\ four_digit_year Samples.noon_2024_06_14
  /\ findOne MoreSamples.two_docs "9876543210" = Some Samples.asha_doc
  /\ processedAt Samples.asha_doc <> Samples.noon_2024_06_14
  /\ MainApp.status
       (fst (MainApp.post_api host_utc Samples.noon_2024_06_14
               (MainApp.served_by host_utc_plus_0530 1718366400250
                  MoreSamples.two_docs)
               MoreSamples.shouted_update_form)) = 200.
Proof.
  do 5 (split; [reflexivity|]). split; [discriminate|].
  split; [reflexivity|]. split; [discriminate|]. split; [reflexivity|].
  split; [lia|]. split; [reflexivity|].
  assert (F : four_digit_year Samples.noon_2024_06_14)
    by (unfold four_digit_year, Samples.noon_2024_06_14; lia).
  split; [exact F|]. split; [reflexivity|]. split; [discriminate|].
  rewrite (proj1 (proj2
             (update_end_to_end host_utc host_utc_plus_0530
                Samples.noon_2024_06_14 1718366400250 MoreSamples.two_docs
                MoreSamples.shouted_update_form " Asha Rao " "9876543210"
                "1995-01-01" "UPDATE" 29 Samples.asha_doc
                eq_refl eq_refl eq_refl eq_refl eq_refl
                ltac:(discriminate) eq_refl ltac:(discriminate) eq_refl
                ltac:(lia) eq_refl F eq_refl ltac:(discriminate)))).
  reflexivity.
Defined.

(** *** The two tiers of validation *)

Lemma client_name_passes (s : string) :
  String.eqb (trim s) EmptyString = false ->
  FormPage.validateName s = true ->
  truthy (VStr (trim s)) = true
  /\ MainApp.validateName (VStr (trim s)) = true.
Proof.
  intros Hne Hv. rewrite truthy_VStr, Hne. split; [reflexivity | exact Hv].
Qed.

(** What the main app does with a body whose name and mobile passed the
    checks of the browser. *)
Lemma checked_body_outcome (h : Host) (now : Z)
    (net : Axios.request -> MainApp.downstream) (n m d a : string) :
  MainApp.nameRegex_test (trim n) = true ->
  MainApp.mobileRegex_test (trim m) = true ->
  d <> EmptyString ->
  includes MainApp.validActions (toLowerCase a) = true ->
  let body := [("name", VStr (trim n)); ("mobile", VStr (trim m));
               ("dob", VStr d); ("action", VStr a)] in
  MainApp.post_api h now net body =
    (MainApp.bad_request "Invalid date of birth format or unrealistic age",
     [])
  \/ exists send verb,
       MainApp.select_method (toLowerCase a) = Some (send, verb)
       /\ snd (MainApp.post_api h now net body) =
            [send MainApp.endpoint
               (MainApp.processedData_of now (trim n) (trim m) (VStr d)
                  (MainApp.calculateAge h now (VStr d)) (toLowerCase a))
               MainApp.forward_options].
Proof.
  intros Vn Vm Nd Va body.
  destruct (lt (MainApp.calculateAge h now (VStr d)) (Num 0)
            || gt (MainApp.calculateAge h now (VStr d)) (Num 150)) eqn:Hage.
  - left. unfold MainApp.post_api, MainApp.derive_age. subst body.
    cbn [get String.eqb Ascii.eqb Bool.eqb].
    change (get "name" _) with (VStr (trim n)).
    rewrite !truthy_VStr.
    rewrite (eqb_empty_false _ (nameRegex_nonempty _ Vn)).
    assert (Nm : trim m <> EmptyString) by (intros E; rewrite E in Vm;
                                             discriminate Vm).
    rewrite (eqb_empty_false _ Nm), (eqb_empty_false _ Nd).
    rewrite (eqb_empty_false _ (valid_action_nonempty _ Va)).
    cbn [negb orb]. unfold MainApp.validateName, MainApp.validateMobile.
    cbn [ToString]. rewrite Vn, Vm. cbn [negb]. rewrite Hage. reflexivity.
  - right.
    destruct (dispatch_strings h now net body (trim n) (trim m) a (VStr d)
                eq_refl eq_refl eq_refl eq_refl Vn Vm)
      as (send & verb & Hsel & Hpost);
      [present | exact Hage | exact Va|].
    exists send, verb. split; [exact Hsel|]. cbv zeta in Hpost.
    rewrite Hpost, !trim_idempotent. reflexivity.
Qed.

(** X21.  The form page and the main app agree on names and mobiles: a
    form that passes [validateForm] is submitted, and what is submitted
    (trimmed name and mobile, the date of birth, the action create) passes
    the presence, name, mobile and action checks of the main app, whatever
    its host and clock.  The main app can only refuse it for its date of
    birth; otherwise it sends exactly one POST carrying that name and
    mobile unchanged. *)
Theorem form_page_submission_passes_checks (hc : Host) (nowc : Z)
    (f : FormPage.formData) (hs : Host) (nows : Z)
    (net : Axios.request -> MainApp.downstream) :
  snd (FormPage.validateForm hc nowc f) = true ->
  exists body,
    FormPage.handleSubmit hc nowc f = Some body
    /\ (MainApp.post_api hs nows net body =
          (MainApp.bad_request
             "Invalid date of birth format or unrealistic age", [])
        \/ snd (MainApp.post_api hs nows net body) =
             [Axios.post MainApp.endpoint
                (MainApp.processedData_of nows (trim (FormPage.name f))
                   (trim (FormPage.mobile f)) (VStr (FormPage.dob f))
                   (MainApp.calculateAge hs nows (VStr (FormPage.dob f)))
                   "create")
                MainApp.forward_options]).
Proof.
  intros Hok. unfold FormPage.handleSubmit. rewrite Hok.
  eexists. split; [reflexivity|].
  unfold FormPage.validateForm in Hok. cbn [snd FormPage.e_name
    FormPage.e_mobile FormPage.e_dob] in Hok.
  destruct (String.eqb (trim (FormPage.name f)) EmptyString);
    [discriminate Hok|].
  destruct (FormPage.validateName (FormPage.name f)) eqn:Vn;
    [|discriminate Hok].
  destruct (String.eqb (trim (FormPage.mobile f)) EmptyString);
    [discriminate Hok|].
  destruct (FormPage.validateMobile (FormPage.mobile f)) eqn:Vm;
    [|discriminate Hok].
  destruct (String.eqb_spec (FormPage.dob f) EmptyString) as [|Nd];
    [discriminate Hok|].
  clear Hok.
  destruct (checked_body_outcome hs nows net (FormPage.name f)
              (FormPage.mobile f) (FormPage.dob f) "create" Vn Vm Nd
              eq_refl) as [H | (send & verb & Hsel & H)].
  - left. exact H.
  - right. change (toLowerCase "create") with "create" in Hsel, H.
  rewrite select_create in Hsel. injection Hsel as <- <-.
    exact H.
Qed.

Lemma form_page_submission_passes_checks_witness :
  snd (FormPage.validateForm host_utc Samples.noon_2024_06_14
         MoreSamples.typed_form) = true
  /\ exists body,
       FormPage.handleSubmit host_utc Samples.noon_2024_06_14
         MoreSamples.typed_form = Some body
       /\ (MainApp.post_api host_utc_plus_0530 Samples.noon_2024_06_14
             Samples.unreachable body =
             (MainApp.bad_request
                "Invalid date of birth format or unrealistic age", [])
           \/ snd (MainApp.post_api host_utc_plus_0530
                     Samples.noon_2024_06_14 Samples.unreachable body) =
                [Axios.post MainApp.endpoint
                   (MainApp.processedData_of Samples.noon_2024_06_14
                      (trim (FormPage.name MoreSamples.typed_form))
                      (trim (FormPage.mobile MoreSamples.typed_form))
                      (VStr (FormPage.dob MoreSamples.typed_form))
                      (MainApp.calculateAge host_utc_plus_0530
                         Samples.noon_2024_06_14
                         (VStr (FormPage.dob MoreSamples.typed_form)))
                      "create")
                   MainApp.forward_options]).
Proof.
  split; [reflexivity|].
  apply (form_page_submission_passes_checks host_utc Samples.noon_2024_06_14
           MoreSamples.typed_form host_utc_plus_0530 Samples.noon_2024_06_14
           Samples.unreachable).
  reflexivity.
Defined.

(** X22.  The same for the edit of the data page: when [handleSaveEdit]
    posts at all, the body carries the action update and passes the
    presence, name, mobile and action checks of the main app, which can
    only refuse it for its date of birth and otherwise sends exactly one
    PUT. *)
Theorem data_page_edit_passes_checks (f : FormPage.formData) (body : obj)
    (hs : Host) (nows : Z) (net : Axios.request -> MainApp.downstream) :
  FormPage.handleSaveEdit f = inr body ->
  get "action" body = VStr "update"
  /\ (MainApp.post_api hs nows net body =
        (MainApp.bad_request
           "Invalid date of birth format or unrealistic age", [])
      \/ snd (MainApp.post_api hs nows net body) =
           [Axios.put MainApp.endpoint
              (MainApp.processedData_of nows (trim (FormPage.name f))
                 (trim (FormPage.mobile f)) (VStr (FormPage.dob f))
                 (MainApp.calculateAge hs nows (VStr (FormPage.dob f)))
                 "update")
              MainApp.forward_options]).
Proof.
  unfold FormPage.handleSaveEdit.
  destruct (FormPage.validateName (FormPage.name f)) eqn:Vn;
    [|discriminate].
  destruct (FormPage.validateMobile (FormPage.mobile f)) eqn:Vm;
    [|discriminate].
  cbn [negb].
  destruct (String.eqb_spec (FormPage.dob f) EmptyString) as [|Nd];
    [discriminate|].
  intros H. injection H as <-. split; [reflexivity|].
  destruct (checked_body_outcome hs nows net (FormPage.name f)
              (FormPage.mobile f) (FormPage.dob f) "update" Vn Vm Nd
              eq_refl) as [H | (send & verb & Hsel & H)].
  - left. exact H.
  - right. change (toLowerCase "update") with "update" in Hsel, H.
  rewrite select_update in Hsel. injection Hsel as <- <-.
    exact H.
Qed.

Lemma data_page_edit_passes_checks_witness :
  FormPage.handleSaveEdit MoreSamples.typed_form =
    inr [("name", VStr "Asha Rao"); ("mobile", VStr "9876543210");
         ("dob", VStr "1995-01-01"); ("action", VStr "update")]
  /\ get "action"
       [("name", VStr "Asha Rao"); ("mobile", VStr "9876543210");
        ("dob", VStr "1995-01-01"); ("action", VStr "update")]
     = VStr "update"
  /\ (MainApp.post_api host_utc Samples.noon_2024_06_14 Samples.unreachable
        [("name", VStr "Asha Rao"); ("mobile", VStr "9876543210");
         ("dob", VStr "1995-01-01"); ("action", VStr "update")] =
        (MainApp.bad_request
           "Invalid date of birth format or unrealistic age", [])
      \/ snd (MainApp.post_api host_utc Samples.noon_2024_06_14
                Samples.unreachable
                [("name", VStr "Asha Rao"); ("mobile", VStr "9876543210");
                 ("dob", VStr "1995-01-01"); ("action", VStr "update")]) =
           [Axios.put MainApp.endpoint
              (MainApp.processedData_of Samples.noon_2024_06_14
                 (trim (FormPage.name MoreSamples.typed_form))
                 (trim (FormPage.mobile MoreSamples.typed_form))
                 (VStr (FormPage.dob MoreSamples.typed_form))
                 (MainApp.calculateAge host_utc Samples.noon_2024_06_14
                    (VStr (FormPage.dob MoreSamples.typed_form)))
                 "update")
              MainApp.forward_options]).
Proof.
  split; [reflexivity|].
  apply (data_page_edit_passes_checks MoreSamples.typed_form _ host_utc
           Samples.noon_2024_06_14 Samples.unreachable).
  reflexivity.
Defined.

(** X23.  A date of birth that is no date passes both tiers: the form
    page compares the invalid date with the current one, which is false,
    and reports no error; the main app computes the age [NaN], which its
    range check lets through, and sends a POST with that age. *)
Theorem unparsable_dob_passes_both_tiers (hc : Host) (nowc : Z)
    (f : FormPage.formData) (hs : Host) (nows : Z)
    (net : Axios.request -> MainApp.downstream) :
  String.eqb (trim (FormPage.name f)) EmptyString = false ->
  FormPage.validateName (FormPage.name f) = true ->
  FormPage.validateMobile (FormPage.mobile f) = true ->
  FormPage.dob f <> EmptyString ->
  Date_parse hc (FormPage.dob f) = None ->
  Date_parse hs (FormPage.dob f) = None ->
  exists body,
    FormPage.handleSubmit hc nowc f = Some body
    /\ snd (MainApp.post_api hs nows net body) =
         [Axios.post MainApp.endpoint
            (MainApp.processedData_of nows (trim (FormPage.name f))
               (trim (FormPage.mobile f)) (VStr (FormPage.dob f)) NaN
               "create")
            MainApp.forward_options].
Proof.
  intros Nn Vn Vm Nd Pc Ps.
  assert (Hok : snd (FormPage.validateForm hc nowc f) = true).
  { unfold FormPage.validateForm.
    cbn [snd FormPage.e_name FormPage.e_mobile FormPage.e_dob].
    rewrite Nn, Vn, Vm, (eqb_empty_false _ Nd).
    assert (Nm : String.eqb (trim (FormPage.mobile f)) EmptyString = false).
    { unfold FormPage.validateMobile in Vm.
      destruct (trim (FormPage.mobile f)); [discriminate Vm|reflexivity]. }
    rewrite Nm. cbn [negb Date_new]. rewrite Pc. reflexivity. }
  unfold FormPage.handleSubmit. rewrite Hok.
  eexists. split; [reflexivity|].
  assert (Hage : MainApp.calculateAge hs nows (VStr (FormPage.dob f)) = NaN)
    by (apply calculateAge_invalid_date; exact Ps).
  destruct (dispatch_strings hs nows net
              [("name", VStr (trim (FormPage.name f)));
               ("mobile", VStr (trim (FormPage.mobile f)));
               ("dob", VStr (FormPage.dob f)); ("action", VStr "create")]
              (trim (FormPage.name f)) (trim (FormPage.mobile f)) "create"
              (VStr (FormPage.dob f)) eq_refl eq_refl eq_refl eq_refl Vn Vm)
    as (send & verb & Hsel & Hpost);
    [present | rewrite Hage; reflexivity | reflexivity|].
  cbv zeta in Hpost. change (toLowerCase "create") with "create" in Hsel, Hpost.
  rewrite select_create in Hsel. injection Hsel as <- <-.
  rewrite Hpost, Hage, !trim_idempotent. reflexivity.
Qed.

Lemma unparsable_dob_passes_both_tiers_witness :
  String.eqb (trim (FormPage.name MoreSamples.typed_form_no_date))
    EmptyString = false
  /\ FormPage.validateName (FormPage.name MoreSamples.typed_form_no_date)
     = true
  /\ FormPage.validateMobile (FormPage.mobile MoreSamples.typed_form_no_date)
     = true
  /\ FormPage.dob MoreSamples.typed_form_no_date <> EmptyString
  /\ Date_parse host_utc (FormPage.dob MoreSamples.typed_form_no_date)
     = None
  /\ Date_parse host_utc_plus_0530
       (FormPage.dob MoreSamples.typed_form_no_date) = None
  /\ exists body,
       FormPage.handleSubmit host_utc Samples.noon_2024_06_14
         MoreSamples.typed_form_no_date = Some body
       /\ snd (MainApp.post_api host_utc_plus_0530 Samples.noon_2024_06_14
                 Samples.unreachable body) =
            [Axios.post MainApp.endpoint
               (MainApp.processedData_of Samples.noon_2024_06_14
                  (trim (FormPage.name MoreSamples.typed_form_no_date))
                  (trim (FormPage.mobile MoreSamples.typed_form_no_date))
                  (VStr (FormPage.dob MoreSamples.typed_form_no_date)) NaN
                  "create")
               MainApp.forward_options].
Proof.
  do 3 (split; [reflexivity|]). split; [discriminate|].
  do 2 (split; [reflexivity|]).
  apply (unparsable_dob_passes_both_tiers host_utc Samples.noon_2024_06_14
           MoreSamples.typed_form_no_date host_utc_plus_0530
           Samples.noon_2024_06_14 Samples.unreachable);
    solve [reflexivity | discriminate].
Defined.

(** *** Hosts that read a written date as written *)

Lemma written_date_valid (s : string) (y m d : Z) :
  written_date s = Some (y, m, d) ->
  1 <= m <= 12 /\ 1 <= d <= daysInMonth y m.
Proof.
  intros H.
  destruct s as [|y1 [|y2 [|y3 [|y4 [|c1 [|m1 [|m2 [|c2 [|d1 [|d2 rest]]]]]]]]]];
    try (cbn in H; discriminate H);
    destruct c1 as [[] [] [] [] [] [] [] []]; try (cbn in H; discriminate H);
    destruct c2 as [[] [] [] [] [] [] [] []]; try (cbn in H; discriminate H).
  destruct rest; [|cbn in H; discriminate H].
  unfold written_date in H.
  destruct (digit4 y1 y2 y3 y4) as [y'|]; [|discriminate H].
  destruct (digit2 m1 m2) as [m'|]; [|discriminate H].
  destruct (digit2 d1 d2) as [d'|]; [|discriminate H].
  destruct ((1 <=? m') && (m' <=? 12) && (1 <=? d')
            && (d' <=? daysInMonth y' m')) eqn:E; [|discriminate H].
  injection H as <- <- <-.
  rewrite !andb_true_iff, !Z.leb_le in E. lia.
Qed.

(** Every date of the years 0 to 399, by evaluation. *)
Lemma first_cycle_round_trip :
  all_days year_round_trip 0 400 = true.
Proof. vm_compute. reflexivity. Qed.

(** A date of the calendar is the date of its own day number. *)
Lemma civil_round_trip (y m d : Z) :
  1 <= m <= 12 -> 1 <= d <= daysInMonth y m ->
  civil_from_days (days_from_civil y m d) = (y, m, d).
Proof.
  intros Hm Hd.
  set (k := y / 400). set (y0 := y mod 400).
  assert (Ey : y = y0 + 400 * k)
    by (unfold y0, k; pose proof (Z.div_mod y 400 ltac:(lia)); lia).
  assert (By : 0 <= y0 < 400) by (apply Z.mod_pos_bound; lia).
  rewrite Ey in Hd |- *. rewrite daysInMonth_shift in Hd.
  rewrite days_from_civil_shift, civil_from_days_shift.
  pose proof (all_days_spec year_round_trip _ _ first_cycle_round_trip y0
                ltac:(lia)) as Cy.
  unfold year_round_trip in Cy.
  pose proof (all_days_spec _ _ _ Cy m ltac:(lia)) as Cm. cbv beta in Cm.
  assert (Dpos : 0 <= daysInMonth y0 m) by lia.
  pose proof (all_days_spec _ _ _ Cm d) as Cd. cbv beta in Cd.
  rewrite Z2Nat.id in Cd by exact Dpos. specialize (Cd ltac:(lia)).
  destruct (civil_from_days (days_from_civil y0 m d)) as [[y' m'] d'].
  rewrite !andb_true_iff, !Z.eqb_eq in Cd.
  destruct Cd as [[-> ->] ->]. reflexivity.
Qed.

(** Where local time is at or ahead of UTC at midnight UTC of a written
    date, the local calendar shows that date. *)
Lemma east_of_utc_reads_as_written (h : Host) (s : string) (y m d : Z) :
  written_date s = Some (y, m, d) ->
  0 <= utc_offset h (days_from_civil y m d * msPerDay) < msPerDay ->
  local_civil h (days_from_civil y m d * msPerDay) = (y, m, d).
Proof.
  intros Hw Hoff.
  destruct (written_date_valid s y m d Hw) as [Hm Hd].
  unfold local_civil, LocalTime.
  replace ((days_from_civil y m d * msPerDay
            + utc_offset h (days_from_civil y m d * msPerDay)) / msPerDay)
    with (days_from_civil y m d).
  - apply civil_round_trip; assumption.
  - unfold msPerDay in *.
    apply Z.div_unique
      with (r := utc_offset h (days_from_civil y m d * 86400000)); lia.
Qed.
